(** * shbucket: placement, node health and signed-URL tokens

    A shallow embedding of the master-side handlers of shbucket
    (Go): the distributed upload handler, the signed-URL handler
    (issue / validate / mark-used), the node health endpoints and the
    file-serving endpoint, together with the properties the
    specification states about them.

    Conventions.
    - Go [int64] values are integers of [Z]; arithmetic the handlers do
      on them goes through [Int64.add] / [Int64.sub], which wrap.
    - [uuid.UUID] values are represented by their canonical text
      ([UUID.String()]); [time.Time] values are nanosecond counts.
    - A table of the database is the list of its rows in the order the
      database returns them.  A query-by-example
      [Where(&T{F: v, ...}).FirstOrDefault()] is the first row whose
      listed fields equal the given values.
    - The ORM-maintained columns [CreatedAt] / [UpdatedAt] are not part
      of the rows below: no handler reads or writes them.
    - Calls that leave the process (disk, HTTP, the database commit) get
      their outcome from an explicit environment record, one field per
      call, so that every error branch of the source is reachable. *)

From Stdlib Require Import ZArith List String Ascii Bool Lia DecimalString.
Import ListNotations.
Local Open Scope string_scope.
Local Open Scope Z_scope.

(** ** Machine integers *)

Module Int64.

Definition modulus : Z := 2 ^ 64.
Definition min_signed : Z := - 2 ^ 63.
Definition max_signed : Z := 2 ^ 63 - 1.

Definition in_range (z : Z) : Prop := min_signed <= z <= max_signed.

Definition wrap (z : Z) : Z := (z - min_signed) mod modulus + min_signed.

Definition add (a b : Z) : Z := wrap (a + b).
Definition sub (a b : Z) : Z := wrap (a - b).

End Int64.

(** ** Results of handlers *)

Inductive result (A : Type) : Type :=
| Ok (a : A)
| Err (msg : string)
| Panic.   (* nil pointer dereference *)
Arguments Ok {A} a.
Arguments Err {A} msg.
Arguments Panic {A}.

Definition is_ok {A} (r : result A) : bool :=
  match r with Ok _ => true | _ => false end.

(** ** Strings and paths *)

Module Strings.

(** [strings.HasPrefix] *)
Definition HasPrefix (s p : string) : bool := String.prefix p s.

(** [strings.TrimPrefix] *)
Definition TrimPrefix (s p : string) : string :=
  if HasPrefix s p then substring (length p) (length s - length p) s else s.

(** [strings.TrimSuffix] *)
Definition TrimSuffix (s suf : string) : string :=
  let n := length s in
  let k := length suf in
  if (Nat.leb k n && String.eqb (substring (n - k) k s) suf)%bool
  then substring 0 (n - k) s else s.

(** [strings.Split(s, sep)] for a one-byte separator. *)
Fixpoint Split (s : string) (sep : ascii) : list string :=
  match s with
  | EmptyString => [EmptyString]
  | String c rest =>
      if Ascii.eqb c sep then EmptyString :: Split rest sep
      else match Split rest sep with
           | [] => [String c EmptyString]
           | w :: ws => String c w :: ws
           end
  end.

(** [strings.Join] *)
Definition Join (elems : list string) (sep : string) : string :=
  String.concat sep elems.

Definition lower (c : ascii) : ascii :=
  let n := nat_of_ascii c in
  if (Nat.leb 65 n && Nat.leb n 90)%bool then ascii_of_nat (n + 32) else c.

(** [strings.ToLower] on ASCII text. *)
Fixpoint ToLower (s : string) : string :=
  match s with
  | EmptyString => EmptyString
  | String c rest => String (lower c) (ToLower rest)
  end.

End Strings.

Module Filepath.

Definition slash : ascii := "/"%char.

(** One step of the lexical clean-up of [filepath.Clean]: [stack]
    holds the components kept so far, innermost first. *)
Definition clean_step (rooted : bool) (stack : list string) (c : string)
  : list string :=
  if (String.eqb c "" || String.eqb c ".")%bool then stack
  else if String.eqb c ".." then
    match stack with
    | top :: rest => if String.eqb top ".." then c :: stack else rest
    | [] => if rooted then [] else [c]
    end
  else c :: stack.

Definition components (rooted : bool) (p : string) : list string :=
  rev (fold_left (clean_step rooted) (Strings.Split p slash) []).

(** [filepath.Clean] on a slash-separated path. *)
Definition Clean (p : string) : string :=
  if String.eqb p "" then "."
  else
    let rooted := Strings.HasPrefix p "/" in
    let comps := components rooted p in
    if rooted then "/" ++ Strings.Join comps "/"
    else match comps with
         | [] => "."
         | _ => Strings.Join comps "/"
         end.

(** Predicates on paths used to tell a local path from a node path. *)
Fixpoint no_slash (s : string) : bool :=
  match s with
  | EmptyString => true
  | String c rest => (negb (Ascii.eqb c slash) && no_slash rest)%bool
  end.

Definition starts_with_slash (s : string) : bool :=
  match s with
  | String c _ => Ascii.eqb c slash
  | EmptyString => false
  end.

Fixpoint double_slash (s : string) : bool :=
  match s with
  | EmptyString => false
  | String c rest =>
      ((Ascii.eqb c slash && starts_with_slash rest) || double_slash rest)%bool
  end.

Definition component (s : string) : Prop :=
  s <> "" /\ no_slash s = true.

Fixpoint drop_empty (elems : list string) : list string :=
  match elems with
  | [] => []
  | e :: rest => if String.eqb e "" then drop_empty rest else elems
  end.

(** [filepath.Join]: leading empty elements are skipped, the rest is
    joined with slashes and cleaned. *)
Definition Join (elems : list string) : string :=
  match drop_empty elems with
  | [] => ""
  | es => Clean (Strings.Join es "/")
  end.

End Filepath.

(** ** Entities (src/Infrastructure/Data/Entities) *)

Definition uuid : Type := string.
Definition time : Type := Z.

Module AuthRule.
Record t : Type := mk {
  Type_ : string;
  Enabled : bool;
  Config : string }.
End AuthRule.

Module StorageNode.
Record t : Type := mk {
  Id : uuid;
  Name : string;
  URL : string;
  AuthKey : string;
  IsActive : bool;
  IsHealthy : bool;
  Priority : Z;
  MaxStorage : Z;
  UsedStorage : Z;
  LastPing : option time }.

Definition with_UsedStorage (v : Z) (n : t) : t :=
  mk (Id n) (Name n) (URL n) (AuthKey n) (IsActive n) (IsHealthy n)
     (Priority n) (MaxStorage n) v (LastPing n).

(** The three assignments of the active health paths:
    [IsHealthy = h; LastPing = &now; IsActive = true]. *)
Definition with_health_and_active (h : bool) (now : time) (n : t) : t :=
  mk (Id n) (Name n) (URL n) (AuthKey n) true h
     (Priority n) (MaxStorage n) (UsedStorage n) (Some now).

(** The two assignments of the passive path:
    [LastPing = &now; IsHealthy = true]. *)
Definition with_ping (now : time) (n : t) : t :=
  mk (Id n) (Name n) (URL n) (AuthKey n) (IsActive n) true
     (Priority n) (MaxStorage n) (UsedStorage n) (Some now).
End StorageNode.

Module Bucket.
Record t : Type := mk {
  Id : uuid;
  Name : string;
  Description : string;
  OwnerId : uuid;
  AuthRule : AuthRule.t;
  PublicRead : bool }.   (* Settings.PublicRead *)
End Bucket.

Module FileMetadata.
Record t : Type := mk {
  ContentType : string;
  ContentEncoding : string;
  ContentDisposition : string;
  CacheControl : string;
  CustomMetadata : list (string * string) }.
End FileMetadata.

Module File.
Record t : Type := mk {
  Id : uuid;
  BucketId : uuid;
  Name : string;
  OriginalName : string;
  Path : string;
  Size : Z;
  MimeType : string;
  Checksum : string;
  Version : Z;
  AuthRule : AuthRule.t;
  Metadata : FileMetadata.t;
  UploadedBy : uuid;
  SecuredUrl : string;
  AccessedAt : option time }.

Definition with_AccessedAt (v : option time) (f : t) : t :=
  mk (Id f) (BucketId f) (Name f) (OriginalName f) (Path f) (Size f)
     (MimeType f) (Checksum f) (Version f) (AuthRule f) (Metadata f)
     (UploadedBy f) (SecuredUrl f) v.
End File.

Module SignedURL.
Record t : Type := mk {
  ID : uuid;
  Signature : string;
  BucketName : string;
  FileName : string;
  Method : string;
  ExpiresAt : time;
  SingleUse : bool;
  Used : bool;
  UsedAt : option time }.

(** [signedURL.Used = true; signedURL.UsedAt = &now] *)
Definition mark_used (now : time) (s : t) : t :=
  mk (ID s) (Signature s) (BucketName s) (FileName s) (Method s)
     (ExpiresAt s) (SingleUse s) true (Some now).
End SignedURL.

Module SetupConfig.
Record t : Type := mk {
  ID : uuid;
  IsSetup : bool;
  SetupType : string;
  StoragePath : string;
  MaxStorage : Z }.
End SetupConfig.

(** ** The database context (persistence.AppDbContext) *)

Record DbContext : Type := mkDb {
  SetupConfigs : list SetupConfig.t;
  Files : list File.t;
  StorageNodes : list StorageNode.t;
  Buckets : list Bucket.t;
  SignedURLs : list SignedURL.t }.

Definition set_Files (v : list File.t) (d : DbContext) : DbContext :=
  mkDb (SetupConfigs d) v (StorageNodes d) (Buckets d) (SignedURLs d).
Definition set_StorageNodes (v : list StorageNode.t) (d : DbContext) : DbContext :=
  mkDb (SetupConfigs d) (Files d) v (Buckets d) (SignedURLs d).
Definition set_SignedURLs (v : list SignedURL.t) (d : DbContext) : DbContext :=
  mkDb (SetupConfigs d) (Files d) (StorageNodes d) (Buckets d) v.

Module Db.

(** [Where(...).FirstOrDefault()] *)
Definition FirstOrDefault {A} (p : A -> bool) (rows : list A) : option A :=
  find p rows.

(** [set.SumField(field)] over the whole table. *)
Definition SumField {A} (field : A -> Z) (rows : list A) : Z :=
  fold_right (fun r acc => field r + acc) 0 rows.

(** [set.Update(row)]: the row with the same primary key is replaced. *)
Definition Update {A} (key : A -> uuid) (row : A) (rows : list A) : list A :=
  map (fun r => if String.eqb (key r) (key row) then row else r) rows.

(** [set.Remove(row)]: the row with that primary key is deleted. *)
Definition Remove {A} (key : A -> uuid) (row : A) (rows : list A) : list A :=
  filter (fun r => negb (String.eqb (key r) (key row))) rows.

(** [set.Add(row)] followed by a commit: refused when a column with a
    unique index already holds the value. *)
Definition Add {A} (uniq : list (A -> string)) (row : A) (rows : list A)
  : option (list A) :=
  if existsb (fun col => existsb (fun r => String.eqb (col r) (col row)) rows) uniq
  then None else Some (rows ++ [row])%list.

End Db.

(** What the master can reach: its database, its disk, and the requests
    it has sent to storage nodes. *)

Record NodePost : Type := mkPost {
  post_node : uuid;
  post_bucket_id : uuid;
  post_bucket_name : string;
  post_file_id : uuid;
  post_filename : string;
  post_body : string }.

Record World : Type := mkWorld {
  db : DbContext;
  disk : list (string * string);
  posted : list NodePost }.

Definition set_db (d : DbContext) (w : World) : World :=
  mkWorld d (disk w) (posted w).

Inductive HttpOutcome : Type :=
| TransportError            (* the request could not be built or sent *)
| Status (code : Z).

(** [fmt.Sprintf("%d", z)] *)
Definition Sprintf_d (z : Z) : string :=
  DecimalString.NilZero.string_of_int (Z.to_int z).

(** ** Placement: DistributedUploadRequestHandler.Handle and uploadToNode *)

Module Upload.

Record Command : Type := mkCommand {
  BucketID : uuid;
  FileSize : Z;                        (* command.File.Size *)
  FileName : string;
  ContentType : string;
  Metadata : list (string * string);
  UploadedBy : uuid }.

(** Outcomes of the calls one upload makes outside the handler. *)
Record Env : Type := mkEnv {
  config_query_ok : bool;     (* SetupConfigs ... FirstOrDefault() *)
  sum_query_ok : bool;        (* Files.SumField("Size") *)
  fileID : uuid;              (* uuid.New() *)
  read_body : option string;  (* io.ReadAll(command.FileReader) *)
  node_reply : HttpOutcome;   (* client.Do(req) in uploadToNode *)
  save_node_ok : bool;        (* StorageNodes.Update + SaveChanges; the
                                 handler drops both errors *)
  mkdir_ok : bool;            (* os.MkdirAll *)
  write_ok : bool;            (* os.WriteFile *)
  marshal_ok : bool;          (* json.Marshal(customMetadata) *)
  save_file_ok : bool }.      (* Files.Add + SaveChanges *)

Record StorageNodeResponse : Type := mkNodeResponse {
  ID : uuid;
  Name : string;
  URL : string;
  MaxStorage : Z;
  UsedStorage : Z;
  Priority : Z;
  IsActive : bool;
  IsHealthy : bool;
  LastPing : option time }.

Record Response : Type := mkResponse {
  Resp_File : File.t;
  Resp_StorageNode : option StorageNodeResponse;
  Success : bool;
  Message : string }.

(** [customMetadata[k] = v] on a Go map. *)
Fixpoint map_set (k v : string) (m : list (string * string))
  : list (string * string) :=
  match m with
  | [] => [(k, v)]
  | (k', v') :: rest =>
      if String.eqb k' k then (k, v) :: rest else (k', v') :: map_set k v rest
  end.

(** The path format of a remotely stored object:
    [node://{nodeid}/{bucketid}/{fileid}]. *)
Definition node_path (node bucket file : uuid) : string :=
  "node://" ++ node ++ "/" ++ bucket ++ "/" ++ file.

(** How the readers (ServeFile, DeleteFile) recognise a remotely
    stored object: [strings.HasPrefix(path, "node://")]. *)
Definition stored_on_node (path : string) : bool :=
  Strings.HasPrefix path "node://".

(** [Where(&entities.SetupConfig{SetupType: "master"})] *)
Definition is_master (c : SetupConfig.t) : bool :=
  String.eqb (SetupConfig.SetupType c) "master".

(** [Where(&entities.StorageNode{IsActive: true, IsHealthy: true})] *)
Definition eligible (n : StorageNode.t) : bool :=
  (StorageNode.IsActive n && StorageNode.IsHealthy n)%bool.

(** [Where(&entities.Bucket{Id: command.BucketID})] *)
Definition bucket_of (cmd : Command) (b : Bucket.t) : bool :=
  String.eqb (Bucket.Id b) (BucketID cmd).

Section WithHash.

(** [fmt.Sprintf("%x", sha256.Sum256(content))] *)
Variable sha256_hex : string -> string.

Definition masterFreeSpace (masterConfig : SetupConfig.t) (d : DbContext) : Z :=
  Int64.sub (SetupConfig.MaxStorage masterConfig)
            (Int64.wrap (Db.SumField File.Size (Files d))).

(** The specification's wording of the same quantity, for
    comparison: the ceiling minus the sizes of the locally stored
    objects only. *)
Definition masterFreeSpace_local_only (masterConfig : SetupConfig.t)
           (d : DbContext) : Z :=
  Int64.sub (SetupConfig.MaxStorage masterConfig)
            (Int64.wrap
               (Db.SumField File.Size
                  (filter (fun f => negb (stored_on_node (File.Path f)))
                          (Files d)))).

(** [resp.StatusCode == http.StatusOK || resp.StatusCode == http.StatusCreated] *)
Definition accepted (reply : HttpOutcome) : bool :=
  match reply with
  | TransportError => false
  | Status code => ((code =? 200) || (code =? 201))%bool
  end.

Definition uploadToNode (w : World) (node : StorageNode.t) (cmd : Command)
           (env : Env) : result bool * World :=
  match read_body env with
  | None => (Err "failed to read file content", w)
  | Some fileContent =>
      match Db.FirstOrDefault (bucket_of cmd) (Buckets (db w)) with
      | None => (Err "bucket not found", w)
      | Some bucket =>
          let req := mkPost (StorageNode.Id node) (BucketID cmd)
                            (Bucket.Name bucket) (fileID env)
                            (FileName cmd) fileContent in
          let w' := mkWorld (db w) (disk w) (posted w ++ [req])%list in
          match node_reply env with
          | TransportError => (Err "request to storage node failed", w')
          | Status code => (Ok ((code =? 200) || (code =? 201))%bool, w')
          end
      end
  end.

(** The block guarded by [if masterFreeSpace < fileSize]. *)
Definition placeOnNode (w : World) (cmd : Command) (env : Env)
           (free : Z) : result StorageNodeResponse * World :=
  let fileSize := FileSize cmd in
  match Db.FirstOrDefault eligible (StorageNodes (db w)) with
  | None => (Err "upload failed: no active storage nodes available", w)
  | Some availableNode =>
      if Int64.sub (StorageNode.MaxStorage availableNode)
                   (StorageNode.UsedStorage availableNode) <? fileSize
      then (Err ("upload failed: no storage space available. Master: "
                   ++ Sprintf_d free ++ " bytes free, File: "
                   ++ Sprintf_d fileSize ++ " bytes"), w)
      else
        match uploadToNode w availableNode cmd env with
        | (Err m, w1) => (Err ("failed to upload to storage node: " ++ m), w1)
        | (Panic, w1) => (Panic, w1)
        | (Ok false, w1) => (Err "storage node rejected the upload", w1)
        | (Ok true, w1) =>
            let availableNode' :=
              StorageNode.with_UsedStorage
                (Int64.add (StorageNode.UsedStorage availableNode) fileSize)
                availableNode in
            let w2 :=
              if save_node_ok env
              then set_db (set_StorageNodes
                             (Db.Update StorageNode.Id availableNode'
                                        (StorageNodes (db w1)))
                             (db w1)) w1
              else w1 in
            (Ok (mkNodeResponse
                   (StorageNode.Id availableNode')
                   (StorageNode.Name availableNode')
                   (StorageNode.URL availableNode')
                   (StorageNode.MaxStorage availableNode')
                   (StorageNode.UsedStorage availableNode')
                   (StorageNode.Priority availableNode')
                   (StorageNode.IsActive availableNode')
                   (StorageNode.IsHealthy availableNode')
                   (StorageNode.LastPing availableNode')), w2)
        end
  end.

(** The [if storageNode == nil { ... } else { ... }] block: the path
    and checksum of the object, after the local write if any. *)
Definition storeBytes (w : World) (cmd : Command) (env : Env)
           (masterConfig : SetupConfig.t) (bucket : Bucket.t)
           (storageNode : option StorageNodeResponse)
  : result (string * string) * World :=
  match storageNode with
  | None =>
      let storagePath := SetupConfig.StoragePath masterConfig in
      if String.eqb storagePath ""
      then (Err "storage_path not configured in master config", w)
      else
        let bucketDir := Filepath.Join [storagePath; Bucket.Name bucket] in
        if negb (mkdir_ok env)
        then (Err "failed to create bucket directory", w)
        else
          let filePath := Filepath.Join [bucketDir; fileID env] in
          match read_body env with
          | None => (Err "failed to read file content", w)
          | Some fileContent =>
              let checksum := sha256_hex fileContent in
              if negb (write_ok env)
              then (Err "failed to save file to disk", w)
              else (Ok (filePath, checksum),
                    mkWorld (db w) ((filePath, fileContent) :: disk w)
                            (posted w))
          end
  | Some sn =>
      (Ok (node_path (ID sn) (BucketID cmd) (fileID env), "stored-on-node"), w)
  end.

(** Everything after the placement block: bucket lookup, bytes,
    metadata, the file record. *)
Definition createRecord (w : World) (cmd : Command) (env : Env)
           (masterConfig : SetupConfig.t)
           (storageNode : option StorageNodeResponse)
  : result Response * World :=
  match Db.FirstOrDefault (bucket_of cmd) (Buckets (db w)) with
  | None => (Err "bucket not found", w)
  | Some bucket =>
      match storeBytes w cmd env masterConfig bucket storageNode with
      | (Err m, w1) => (Err m, w1)
      | (Panic, w1) => (Panic, w1)
      | (Ok (filePath, checksum), w1) =>
          let customMetadata :=
            match storageNode with
            | None => Metadata cmd
            | Some sn =>
                map_set "storage_node_url" (URL sn)
                  (map_set "storage_node_id" (ID sn) (Metadata cmd))
            end in
          if negb (marshal_ok env)
          then (Err "failed to marshal custom metadata", w1)
          else
            let file :=
              File.mk (fileID env) (BucketID cmd) (FileName cmd)
                      (FileName cmd) filePath (FileSize cmd)
                      (ContentType cmd) checksum 1
                      (Bucket.AuthRule bucket)
                      (FileMetadata.mk (ContentType cmd) "" "" ""
                                       customMetadata)
                      (UploadedBy cmd) "" None in
            match (if save_file_ok env
                   then Db.Add [File.Id] file (Files (db w1))
                   else None) with
            | None => (Err "failed to create file record", w1)
            | Some files' =>
                let message :=
                  match storageNode with
                  | None => "File uploaded successfully to master"
                  | Some sn =>
                      "File uploaded successfully to storage node: "
                        ++ Name sn
                  end in
                (Ok (mkResponse file storageNode true message),
                 set_db (set_Files files' (db w1)) w1)
            end
      end
  end.

Definition Handle (w : World) (cmd : Command) (env : Env)
  : result Response * World :=
  if negb (config_query_ok env)
  then (Err "failed to get master configuration", w)
  else
    match Db.FirstOrDefault is_master (SetupConfigs (db w)) with
    | None => (Panic, w)
    | Some masterConfig =>
        if negb (sum_query_ok env)
        then (Err "failed to calculate used storage", w)
        else
          let free := masterFreeSpace masterConfig (db w) in
          if free <? FileSize cmd
          then
            match placeOnNode w cmd env free with
            | (Ok sn, w1) => createRecord w1 cmd env masterConfig (Some sn)
            | (Err m, w1) => (Err m, w1)
            | (Panic, w1) => (Panic, w1)
            end
          else createRecord w cmd env masterConfig None
    end.

End WithHash.

End Upload.

(** ** Signed URLs: GenerateSignedURLRequestHandler
    (src/Application/File/GenerateSignedURLRequest.go)

    Reads are taken to succeed: every query of this handler treats a
    failed read exactly like an absent row ([err != nil || row == nil]). *)

Module Token.

Record Settings : Type := mkSettings {
  BaseURL : string;
  SignatureSecret : string }.

Record Command : Type := mkCommand {
  BucketID : uuid;
  FileID : uuid;
  ExpiresIn : Z;          (* seconds *)
  UserID : uuid;
  SingleUse : bool }.

Record Response : Type := mkResponse {
  URL : string;
  ExpiresAt : time;
  Success : bool;
  Message : string }.

Record Env : Type := mkEnv {
  now_issue : time;   (* time.Now() when the expiry is computed *)
  now_check : time;   (* time.Now() when an existing row is examined *)
  new_id : uuid;      (* gen_random_uuid() of the inserted row *)
  remove_ok : bool;   (* SignedURLs.Remove + SaveChanges *)
  store_ok : bool }.  (* SignedURLs.Add + SaveChanges *)

Definition Second : Z := 1000000000.

Definition not_found : string := "signature not found in database".
Definition expired : string := "signature has expired".
Definition already_used : string := "single-use signature has already been used".
Definition bucket_missing : string := "bucket not found for signature".
Definition file_missing : string := "file not found for signature".
Definition integrity_failure : string := "signature integrity check failed".

(** [fmt.Sprintf("%s:%s", bucketID, fileID)] *)
Definition payload (bucketID fileID : uuid) : string :=
  bucketID ++ ":" ++ fileID.

(** [fmt.Sprintf("%s/api/v1/file/%s/%s?signature=%s", ...)] *)
Definition signed_url (base : string) (bucketID fileID : uuid)
           (signature : string) : string :=
  base ++ "/api/v1/file/" ++ bucketID ++ "/" ++ fileID
       ++ "?signature=" ++ signature.

Definition by_signature (signature : string) (s : SignedURL.t) : bool :=
  String.eqb (SignedURL.Signature s) signature.

(** The bucket and file a stored row currently resolves to, by the
    two name lookups of ValidateSignedURL. *)
Definition resolves (d : DbContext) (row : SignedURL.t)
           (bucket : Bucket.t) (file : File.t) : Prop :=
  Db.FirstOrDefault
    (fun b => String.eqb (Bucket.Name b) (SignedURL.BucketName row))
    (Buckets d) = Some bucket
  /\ Db.FirstOrDefault
       (fun f => (String.eqb (File.Name f) (SignedURL.FileName row)
                  && String.eqb (File.BucketId f) (Bucket.Id bucket))%bool)
       (Files d) = Some file.

(** The row a signature finds is single-use and used. *)
Definition consumed (d : DbContext) (signature : string) : Prop :=
  exists row,
    Db.FirstOrDefault (by_signature signature) (SignedURLs d) = Some row
    /\ SignedURL.SingleUse row = true /\ SignedURL.Used row = true.

Section WithHMAC.

(** [generateHMAC(payload, secret)]: the URL-safe base64 text of
    HMAC-SHA256 of [payload] under [secret]. *)
Variable generateHMAC : string -> string -> string.

Variable settings : Settings.

(** The signature of a request: [generateHMAC] of
    [bucketID ":" fileID] under the signing secret. *)
Definition signature_of (command : Command) : string :=
  generateHMAC (payload (BucketID command) (FileID command))
               (SignatureSecret settings).

Definition Handle (d : DbContext) (command : Command) (env : Env)
  : result Response * DbContext :=
  match Db.FirstOrDefault
          (fun f => (String.eqb (File.Id f) (FileID command)
                     && String.eqb (File.BucketId f) (BucketID command))%bool)
          (Files d) with
  | None => (Err "file not found", d)
  | Some file =>
      match Db.FirstOrDefault
              (fun b => String.eqb (Bucket.Id b) (BucketID command))
              (Buckets d) with
      | None => (Err "bucket not found", d)
      | Some bucket =>
          let signingSecret := SignatureSecret settings in
          let expiresAt :=
            now_issue env + Int64.wrap (ExpiresIn command * Second) in
          let signature :=
            generateHMAC (payload (BucketID command) (FileID command))
                         signingSecret in
          let insert (d1 : DbContext) : result Response * DbContext :=
            let signedURLEntity :=
              SignedURL.mk (new_id env) signature (Bucket.Name bucket)
                           (File.Name file) "GET" expiresAt
                           (SingleUse command) false None in
            match (if store_ok env
                   then Db.Add [SignedURL.ID; SignedURL.Signature]
                               signedURLEntity (SignedURLs d1)
                   else None) with
            | None => (Err "failed to store signature", d1)
            | Some rows =>
                (Ok (mkResponse
                       (signed_url (BaseURL settings) (BucketID command)
                                   (FileID command) signature)
                       expiresAt true "Signed URL generated successfully"),
                 set_SignedURLs rows d1)
            end in
          match Db.FirstOrDefault (by_signature signature) (SignedURLs d) with
          | Some existingSignedURL =>
              if now_check env <? SignedURL.ExpiresAt existingSignedURL
              then
                (Ok (mkResponse
                       (signed_url (BaseURL settings) (BucketID command)
                                   (FileID command) signature)
                       (SignedURL.ExpiresAt existingSignedURL) true
                       "Existing signed URL returned"), d)
              else if remove_ok env
              then insert (set_SignedURLs
                             (Db.Remove SignedURL.ID existingSignedURL
                                        (SignedURLs d)) d)
              else (Err "failed to remove expired signature", d)
          | None => insert d
          end
      end
  end.

Definition ValidateSignedURL (d : DbContext) (signature : string)
           (now : time) : result SignedURL.t * DbContext :=
  match Db.FirstOrDefault (by_signature signature) (SignedURLs d) with
  | None => (Err not_found, d)
  | Some signedURL =>
      if SignedURL.ExpiresAt signedURL <? now
      then (Err expired, d)
      else if (SignedURL.SingleUse signedURL && SignedURL.Used signedURL)%bool
      then (Err already_used, d)
      else
        let signingSecret := SignatureSecret settings in
        match Db.FirstOrDefault
                (fun b => String.eqb (Bucket.Name b)
                                     (SignedURL.BucketName signedURL))
                (Buckets d) with
        | None => (Err bucket_missing, d)
        | Some bucket =>
            match Db.FirstOrDefault
                    (fun f => (String.eqb (File.Name f)
                                          (SignedURL.FileName signedURL)
                               && String.eqb (File.BucketId f)
                                             (Bucket.Id bucket))%bool)
                    (Files d) with
            | None => (Err file_missing, d)
            | Some file =>
                let expectedSignature :=
                  generateHMAC (payload (Bucket.Id bucket) (File.Id file))
                               signingSecret in
                if negb (String.eqb signature expectedSignature)
                then (Err integrity_failure, d)
                else (Ok signedURL, d)
            end
        end
  end.

Definition MarkSignatureAsUsed (d : DbContext) (signature : string)
           (now : time) (update_ok save_ok : bool)
  : result unit * DbContext :=
  match Db.FirstOrDefault (by_signature signature) (SignedURLs d) with
  | None => (Err "signature not found", d)
  | Some signedURL =>
      if SignedURL.SingleUse signedURL
      then
        let signedURL' := SignedURL.mark_used now signedURL in
        if negb update_ok
        then (Err "failed to mark signature as used", d)
        else if save_ok
        then (Ok tt, set_SignedURLs
                       (Db.Update SignedURL.ID signedURL' (SignedURLs d)) d)
        else (Err "failed to save changes", d)
      else (Ok tt, d)
  end.

(** A caller's sequence of validate / mark-used calls on one
    signature. *)
Inductive Call : Type :=
| CallValidate (now : time)
| CallMarkUsed (now : time) (update_ok save_ok : bool).

Definition call (d : DbContext) (signature : string) (c : Call) : DbContext :=
  match c with
  | CallValidate now => snd (ValidateSignedURL d signature now)
  | CallMarkUsed now u s => snd (MarkSignatureAsUsed d signature now u s)
  end.

Definition calls (d : DbContext) (signature : string) (cs : list Call)
  : DbContext :=
  fold_left (fun d c => call d signature c) cs d.

End WithHMAC.

End Token.

(** ** Node health: NodeController.HealthCheck, CheckAllNodesHealth, Ping *)

Module Health.

Record NodeHealthCheckResponse : Type := mkHealthResponse {
  NodeID : uuid;
  IsHealthy : bool;
  ResponseTime : Z;
  Success : bool;
  Message : string;
  Error : string }.

Inductive Body : Type :=
| ErrorBody (error : string)
| HealthBody (r : NodeHealthCheckResponse)
| SweepBody (total_nodes healthy_nodes unhealthy_nodes : Z)
            (health_results : list NodeHealthCheckResponse)
| PingBody (message : string) (node_id : uuid).

Record HttpResponse : Type := mkHttp {
  status : Z;
  body : Body }.

(** The registry fields no health path assigns. *)
Definition registry_frame (n n' : StorageNode.t) : Prop :=
  StorageNode.Id n' = StorageNode.Id n
  /\ StorageNode.Name n' = StorageNode.Name n
  /\ StorageNode.URL n' = StorageNode.URL n
  /\ StorageNode.AuthKey n' = StorageNode.AuthKey n
  /\ StorageNode.Priority n' = StorageNode.Priority n
  /\ StorageNode.MaxStorage n' = StorageNode.MaxStorage n
  /\ StorageNode.UsedStorage n' = StorageNode.UsedStorage n.

(** A row before and after an active probe or a sweep. *)
Definition probed (n n' : StorageNode.t) : Prop :=
  registry_frame n n'
  /\ (StorageNode.IsActive n' = true
      \/ StorageNode.IsActive n' = StorageNode.IsActive n).

(** A row before and after a passive ping. *)
Definition pinged (n n' : StorageNode.t) : Prop :=
  registry_frame n n'
  /\ StorageNode.IsActive n' = StorageNode.IsActive n.

(** What one probe of a node's health endpoint meets. *)
Inductive Probe : Type :=
| ProbeRequestError          (* http.NewRequest failed *)
| ProbeTransportError        (* client.Do failed, timeout included *)
| ProbeStatus (code : Z).

Record ProbeEnv : Type := mkProbe {
  probe : Probe;
  elapsed_ms : Z;     (* time.Since(start).Milliseconds() *)
  probed_at : time }. (* time.Now() after the probe *)

Definition pingNode (node : StorageNode.t) (e : ProbeEnv) : bool * Z * string :=
  match probe e with
  | ProbeRequestError => (false, elapsed_ms e, "Failed to create request")
  | ProbeTransportError => (false, elapsed_ms e, "Request failed")
  | ProbeStatus code =>
      if ((200 <=? code) && (code <? 300))%bool
      then (true, elapsed_ms e, "")
      else (false, elapsed_ms e, "Node returned status " ++ Sprintf_d code)
  end.

Definition health_result (nodeID : uuid) (r : bool * Z * string)
  : NodeHealthCheckResponse :=
  let '(isHealthy, responseTime, errorMsg) := r in
  mkHealthResponse nodeID isHealthy responseTime isHealthy
    (if isHealthy then "Node is healthy"
     else "Node is unhealthy: " ++ errorMsg)
    errorMsg.

Section WithParse.

(** [uuid.Parse] *)
Variable uuid_Parse : string -> option uuid.

Definition HealthCheck (d : DbContext) (nodeIDParam : string)
           (e : ProbeEnv) (save_ok : bool) : HttpResponse * DbContext :=
  match uuid_Parse nodeIDParam with
  | None => (mkHttp 400 (ErrorBody "Invalid node ID"), d)
  | Some nodeID =>
      match Db.FirstOrDefault
              (fun n => String.eqb (StorageNode.Id n) nodeID)
              (StorageNodes d) with
      | None => (mkHttp 404 (ErrorBody "Node not found"), d)
      | Some storageNode =>
          let r := pingNode storageNode e in
          let isHealthy := fst (fst r) in
          let storageNode' :=
            StorageNode.with_health_and_active isHealthy (probed_at e)
                                               storageNode in
          if save_ok
          then (mkHttp 200 (HealthBody (health_result nodeID r)),
                set_StorageNodes
                  (Db.Update StorageNode.Id storageNode' (StorageNodes d)) d)
          else (mkHttp 500
                  (ErrorBody "Failed to update node health status"), d)
      end
  end.

End WithParse.

(** The loop [for i := range allNodes] of the sweep: the probed nodes
    and their results, with the probe the [i]-th iteration meets. *)
Fixpoint sweep (envs : nat -> ProbeEnv) (i : nat) (allNodes : list StorageNode.t)
  : list (StorageNode.t * NodeHealthCheckResponse) :=
  match allNodes with
  | [] => []
  | n :: rest =>
      let r := pingNode n (envs i) in
      (StorageNode.with_health_and_active (fst (fst r)) (probed_at (envs i)) n,
       health_result (StorageNode.Id n) r)
        :: sweep envs (S i) rest
  end.

(** [set.UpdateRange(rows)] *)
Definition UpdateRange (rows : list StorageNode.t) (table : list StorageNode.t)
  : list StorageNode.t :=
  fold_left (fun t r => Db.Update StorageNode.Id r t) rows table.

Definition CheckAllNodesHealth (d : DbContext) (list_ok : bool)
           (envs : nat -> ProbeEnv) (save_ok : bool)
  : HttpResponse * DbContext :=
  if negb list_ok
  then (mkHttp 500 (ErrorBody "Failed to fetch nodes"), d)
  else
    let allNodes := StorageNodes d in
    let results := sweep envs 0 allNodes in
    let healthResults := map snd results in
    let healthyCount :=
      Z.of_nat (List.length (filter IsHealthy healthResults)) in
    if save_ok
    then (mkHttp 200
            (SweepBody (Z.of_nat (List.length allNodes)) healthyCount
                       (Z.of_nat (List.length allNodes) - healthyCount)
                       healthResults),
          set_StorageNodes (UpdateRange (map fst results) (StorageNodes d)) d)
    else (mkHttp 500 (ErrorBody "Failed to save health check changes"), d).

Definition Ping (d : DbContext) (nodeURL authorization xApiKey : string)
           (now : time) (save_ok : bool) : HttpResponse * DbContext :=
  let authKey := if String.eqb authorization "" then xApiKey else authorization in
  if String.eqb nodeURL ""
  then (mkHttp 400 (ErrorBody "Node URL parameter required"), d)
  else if String.eqb authKey ""
  then (mkHttp 401
          (ErrorBody "Authorization header or X-API-Key header required"), d)
  else
    let authKey := Strings.TrimPrefix authKey "Bearer " in
    match Db.FirstOrDefault
            (fun n => (String.eqb (StorageNode.URL n) nodeURL
                       && String.eqb (StorageNode.AuthKey n) authKey)%bool)
            (StorageNodes d) with
    | None => (mkHttp 401 (ErrorBody "Invalid node credentials"), d)
    | Some storageNode =>
        let storageNode' := StorageNode.with_ping now storageNode in
        if save_ok
        then (mkHttp 200 (PingBody "Ping successful" (StorageNode.Id storageNode)),
              set_StorageNodes
                (Db.Update StorageNode.Id storageNode' (StorageNodes d)) d)
        else (mkHttp 500 (ErrorBody "Failed to update node status"), d)
    end.

End Health.

(** ** Serving a file: GetFileRequestHandler.Handle,
    FileController.ServeFile and fetchFileFromNode *)

Module Serve.

Record Request : Type := mkRequest {
  bucketIdParam : string;
  fileIdParam : string;
  x_api_key : string;       (* c.Get("X-API-Key") *)
  signature : string;       (* c.Query("signature") *)
  width : Z;                (* strconv.Atoi(c.Query("width", "0")) *)
  height : Z;
  quality : Z;              (* default 85 *)
  resolution : string }.

Inductive FetchOutcome : Type :=
| FetchTransportError
| FetchReply (code : Z) (data : option string).  (* [None]: body unreadable *)

Record Env : Type := mkEnv {
  now_access : time;        (* time.Now() in GetFileRequestHandler *)
  touch_ok : bool;          (* its SaveChanges; the error is dropped *)
  now_validate : time;      (* time.Now() in ValidateSignedURL *)
  now_mark : time;          (* time.Now() in MarkSignatureAsUsed *)
  mark_update_ok : bool;
  mark_save_ok : bool;
  api_key_valid : bool;     (* ctrl.validateAPIKey *)
  jwt_ok : bool;            (* ctrl.authService.AuthorizeRequest *)
  image_result : option (string * string);  (* decoding and re-encoding *)
  fetch_reply : FetchOutcome }.

Inductive Body : Type :=
| ErrorBody (error : string)
| Bytes (content_type : string) (data : string).

Record HttpResponse : Type := mkHttp {
  status : Z;
  body : Body }.

Fixpoint disk_read (path : string) (files : list (string * string))
  : option string :=
  match files with
  | [] => None
  | (p, content) :: rest =>
      if String.eqb p path then Some content else disk_read path rest
  end.

(** The [switch strings.ToLower(resolution)] of ServeFile. *)
Definition preset (resolution : string) (width height : Z) : Z * Z :=
  let r := Strings.ToLower resolution in
  if String.eqb r "144p" then (0, 144)
  else if String.eqb r "240p" then (0, 240)
  else if String.eqb r "360p" then (0, 360)
  else if String.eqb r "480p" then (0, 480)
  else if String.eqb r "720p" then (0, 720)
  else if String.eqb r "1080p" then (0, 1080)
  else if String.eqb r "1440p" then (0, 1440)
  else if (String.eqb r "2160p" || String.eqb r "4k")%bool then (0, 2160)
  else (width, height).

(** The node did not deliver the bytes: no answer, an answer other
    than 200, or an unreadable body. *)
Definition fetch_fails (o : FetchOutcome) : Prop :=
  match o with
  | FetchTransportError => True
  | FetchReply code data => code <> 200 \/ data = None
  end.

(** [Where(&entities.File{Id: fileID, BucketId: bucketID})] *)
Definition file_of (fileID bucketID : uuid) (f : File.t) : bool :=
  (String.eqb (File.Id f) fileID && String.eqb (File.BucketId f) bucketID)%bool.

Section WithCrypto.

Variable generateHMAC : string -> string -> string.
Variable settings : Token.Settings.
Variable uuid_Parse : string -> option uuid.

(** GetFileRequestHandler.Handle: finds the record and stamps its
    access time. *)
Definition GetFile (d : DbContext) (fileID bucketID : uuid) (env : Env)
  : result File.t * DbContext :=
  match Db.FirstOrDefault (file_of fileID bucketID) (Files d) with
  | None => (Err "file not found", d)
  | Some file =>
      let file' := File.with_AccessedAt (Some (now_access env)) file in
      (Ok file',
       if touch_ok env
       then set_Files (Db.Update File.Id file' (Files d)) d
       else d)
  end.

(** [imaging.Open(filePath)] followed by the scaling and encoding. *)
Definition processImage (w : World) (filePath : string) (env : Env)
  : option (string * string) :=
  match disk_read filePath (disk w) with
  | None => None
  | Some _ => image_result env
  end.

Definition fetchFileFromNode (d : DbContext) (nodeID : string) (env : Env)
  : result string :=
  match uuid_Parse nodeID with
  | None => Err "invalid node ID"
  | Some nodeUUID =>
      match Db.FirstOrDefault
              (fun n => String.eqb (StorageNode.Id n) nodeUUID)
              (StorageNodes d) with
      | None => Err "storage node not found"
      | Some storageNode =>
          match fetch_reply env with
          | FetchTransportError => Err "failed to fetch file"
          | FetchReply code data =>
              if negb (code =? 200)
              then Err ("node returned status: " ++ Sprintf_d code)
              else match data with
                   | None => Err "failed to read file data"
                   | Some fileData => Ok fileData
                   end
          end
      end
  end.

(** The authentication block of ServeFile: [None] lets the request
    through, [Some r] answers it with [r]. *)
Definition authenticate (d : DbContext) (req : Request) (env : Env)
  : option HttpResponse * DbContext :=
  let apiKey := x_api_key req in
  let signedToken := signature req in
  if negb (String.eqb signedToken "")
  then
    match Token.ValidateSignedURL generateHMAC settings d signedToken
                                  (now_validate env) with
    | (Ok signedURL, d1) =>
        if (SignedURL.SingleUse signedURL
            && negb (SignedURL.Used signedURL))%bool
        then
          match Token.MarkSignatureAsUsed d1 signedToken (now_mark env)
                  (mark_update_ok env) (mark_save_ok env) with
          | (Ok _, d2) => (None, d2)
          | (_, d2) =>
              (Some (mkHttp 500
                       (ErrorBody "Failed to mark signature as used")), d2)
          end
        else (None, d1)
    | (_, d1) =>
        (Some (mkHttp 401 (ErrorBody "Invalid or expired signed URL")), d1)
    end
  else if negb (String.eqb apiKey "")
  then
    if api_key_valid env then (None, d)
    else (Some (mkHttp 401 (ErrorBody "Invalid or expired API key")), d)
  else
    if jwt_ok env then (None, d)
    else (Some (mkHttp 401
                  (ErrorBody "Authentication required. Use API key, signed URL, or JWT token.")),
          d).

(** The tail of ServeFile: the bytes of the object, from a node or
    from the local disk. *)
Definition sendOriginal (w : World) (fileInfo : File.t) (env : Env)
  : HttpResponse :=
  let path := File.Path fileInfo in
  let remote :=
    if Strings.HasPrefix path "node://"
    then
      let pathParts :=
        Strings.Split (Strings.TrimPrefix path "node://") "/"%char in
      if Nat.leb 3 (List.length pathParts)
      then Some (nth 0 pathParts "")
      else None
    else None in
  match remote with
  | Some nodeID =>
      match fetchFileFromNode (db w) nodeID env with
      | Ok fileData => mkHttp 200 (Bytes (File.MimeType fileInfo) fileData)
      | Err m =>
          mkHttp 500
            (ErrorBody ("Failed to fetch file from storage node: " ++ m))
      | Panic => mkHttp 500 (ErrorBody "panic")
      end
  | None =>
      match disk_read path (disk w) with
      | Some content => mkHttp 200 (Bytes (File.MimeType fileInfo) content)
      | None => mkHttp 404 (ErrorBody "Cannot GET file")
      end
  end.

Definition ServeFile (w : World) (req : Request) (env : Env)
  : HttpResponse * World :=
  match uuid_Parse (bucketIdParam req) with
  | None => (mkHttp 400 (ErrorBody "Invalid bucket ID"), w)
  | Some bucketID =>
      match uuid_Parse (fileIdParam req) with
      | None => (mkHttp 400 (ErrorBody "Invalid file ID"), w)
      | Some fileID =>
          match GetFile (db w) fileID bucketID env with
          | (Err m, d1) => (mkHttp 404 (ErrorBody m), set_db d1 w)
          | (Panic, d1) => (mkHttp 500 (ErrorBody "panic"), set_db d1 w)
          | (Ok fileInfo, d1) =>
              match Db.FirstOrDefault
                      (fun b => String.eqb (Bucket.Id b) bucketID)
                      (Buckets d1) with
              | None => (mkHttp 404 (ErrorBody "Bucket not found"),
                         set_db d1 w)
              | Some bucket =>
                  let requiresAuth := negb (Bucket.PublicRead bucket) in
                  let '(denied, d2) :=
                    if requiresAuth then authenticate d1 req env
                    else (None, d1) in
                  let w2 := set_db d2 w in
                  match denied with
                  | Some r => (r, w2)
                  | None =>
                      let '(width, height) :=
                        if negb (String.eqb (resolution req) "")
                        then preset (resolution req) (width req) (height req)
                        else (width req, height req) in
                      let isImage :=
                        Strings.HasPrefix (File.MimeType fileInfo) "image/" in
                      let needsProcessing :=
                        (isImage
                         && ((0 <? width) || (0 <? height)
                             || negb (String.eqb (resolution req) "")
                             || negb (quality req =? 85)))%bool in
                      match (if needsProcessing
                             then processImage w2 (File.Path fileInfo) env
                             else None) with
                      | Some (processedImage, outputMimeType) =>
                          (mkHttp 200 (Bytes outputMimeType processedImage),
                           w2)
                      | None => (sendOriginal w2 fileInfo env, w2)
                      end
                  end
              end
          end
      end
  end.

End WithCrypto.

End Serve.

(** ** Sample data

    A small installation used to run the handlers on concrete inputs:
    a master with a 100-byte ceiling, one bucket, and two storage
    nodes.  The hash functions are stand-ins: the handlers only pass
    their results around. *)

Module Demo.

Definition sha256_hex (content : string) : string := "sha256:" ++ content.

Definition generateHMAC (payload secret : string) : string :=
  "hmac[" ++ secret ++ "][" ++ payload ++ "]".

Definition uuid_Parse (s : string) : option uuid :=
  if String.eqb s "" then None else Some s.

Definition settings : Token.Settings :=
  Token.mkSettings "http://localhost:8080" "secret".

Definition auth : AuthRule.t := AuthRule.mk "jwt" true "{}".

Definition master : SetupConfig.t :=
  SetupConfig.mk "cfg-1" true "master" "/data" 100.

Definition bucket : Bucket.t :=
  Bucket.mk "b-1" "photos" "" "u-1" auth false.

(** 10 bytes left out of 50. *)
Definition small_node : StorageNode.t :=
  StorageNode.mk "n-1" "one" "http://n1" "key-1" true true 0 50 40 None.

(** 500 bytes, all free. *)
Definition large_node : StorageNode.t :=
  StorageNode.mk "n-2" "two" "http://n2" "key-2" true true 0 500 0 None.

Definition local_file : File.t :=
  File.mk "f-0" "b-1" "old.txt" "old.txt" "/data/photos/f-0" 90
          "text/plain" "sha256:old" 1 auth
          (FileMetadata.mk "text/plain" "" "" "" []) "u-1" "" None.

Definition world (files : list File.t) (nodes : list StorageNode.t) : World :=
  mkWorld (mkDb [master] files nodes [bucket] []) [] [].

Definition upload (size : Z) : Upload.Command :=
  Upload.mkCommand "b-1" size "a.txt" "text/plain" [] "u-1".

(** Every outside call succeeds; the node answers 200. *)
Definition env_ok (id : uuid) : Upload.Env :=
  Upload.mkEnv true true id (Some "hello") (Status 200)
               true true true true true.

(** The signature of the sample object under the sample secret. *)
Definition signature : string :=
  generateHMAC (Token.payload "b-1" "f-0") "secret".

Definition token (single_use used : bool) (expires : time) : SignedURL.t :=
  SignedURL.mk "s-1" signature "photos" "old.txt" "GET" expires
               single_use used None.

Definition token_db (files : list File.t) (rows : list SignedURL.t)
  : DbContext :=
  mkDb [master] files [large_node] [bucket] rows.

Definition issue (single_use : bool) : Token.Command :=
  Token.mkCommand "b-1" "f-0" 60 "u-1" single_use.

(** The clock readings and outcomes of one issue. *)
Definition issue_env (now : time) : Token.Env :=
  Token.mkEnv now now "s-1" true true.

(** The sample object re-uploaded under the same name: same bucket,
    same file name, another id. *)
Definition replaced_file : File.t :=
  File.mk "f-9" "b-1" "old.txt" "old.txt" "/data/photos/f-9" 90
          "text/plain" "sha256:new" 1 auth
          (FileMetadata.mk "text/plain" "" "" "" []) "u-1" "" None.

(** Registered with [is_active = false] and never probed. *)
Definition inactive_node : StorageNode.t :=
  StorageNode.mk "n-3" "three" "http://n3" "key-3" false false 7 100 30 None.

Definition node_db (nodes : list StorageNode.t) : DbContext :=
  mkDb [master] [] nodes [bucket] [].

(** Every probe is answered with 200 after 5 ms, at time 1000. *)
Definition probe_ok (i : nat) : Health.ProbeEnv :=
  Health.mkProbe (Health.ProbeStatus 200) 5 1000.

(** The sample object as the upload handler records it on a node. *)
Definition remote_file : File.t :=
  File.mk "f-0" "b-1" "old.txt" "old.txt" "node://n-2/b-1/f-0" 90
          "text/plain" "stored-on-node" 1 auth
          (FileMetadata.mk "text/plain" "" "" ""
             [("storage_node_id", "n-2"); ("storage_node_url", "http://n2")])
          "u-1" "" None.

Definition serve_world (rows : list SignedURL.t) : World :=
  mkWorld (token_db [remote_file] rows) [] [].

(** A request for the sample object that presents the signature. *)
Definition signed_request : Serve.Request :=
  Serve.mkRequest "b-1" "f-0" "" signature 0 0 85 "".

(** The node is unreachable; everything else works. *)
Definition env_node_down : Serve.Env :=
  Serve.mkEnv 10 true 20 30 true true false false None
              Serve.FetchTransportError.

(** As [env_ok], but the commit of the file record fails. *)
Definition env_record_fails (id : uuid) : Upload.Env :=
  Upload.mkEnv true true id (Some "hello") (Status 200)
               true true true true false.

End Demo.

(** ** GetFileInfoFromSignature and the SignatureValidationService *)

Module SignatureService.

Section WithHMAC.

Variable generateHMAC : string -> string -> string.
Variable settings : Token.Settings.

(** GenerateSignedURLRequestHandler.GetFileInfoFromSignature: validates
    the signature, then looks the bucket and the file up by the names
    stored in the row. *)
Definition GetFileInfoFromSignature (d : DbContext) (signature : string)
           (now : time) : result (File.t * Bucket.t) * DbContext :=
  match Token.ValidateSignedURL generateHMAC settings d signature now with
  | (Ok signedURL, d1) =>
      match Db.FirstOrDefault
              (fun b => String.eqb (Bucket.Name b)
                                   (SignedURL.BucketName signedURL))
              (Buckets d1) with
      | None => (Err "bucket not found", d1)
      | Some bucket =>
          match Db.FirstOrDefault
                  (fun f => (String.eqb (File.Name f)
                                        (SignedURL.FileName signedURL)
                             && String.eqb (File.BucketId f)
                                           (Bucket.Id bucket))%bool)
                  (Files d1) with
          | None => (Err "file not found", d1)
          | Some file => (Ok (file, bucket), d1)
          end
      end
  | (Err m, d1) => (Err m, d1)
  | (Panic, d1) => (Panic, d1)
  end.

(** SignatureValidationService.ValidateAndConsumeSignature: validate,
    fetch the file info (which validates once more), then mark a
    single-use row used.  [now1], [now2], [now3] are the clock readings
    of the three steps. *)
Definition ValidateAndConsumeSignature (d : DbContext) (signature : string)
           (now1 now2 now3 : time) (update_ok save_ok : bool)
  : result (SignedURL.t * File.t * Bucket.t) * DbContext :=
  match Token.ValidateSignedURL generateHMAC settings d signature now1 with
  | (Ok signedURL, d1) =>
      match GetFileInfoFromSignature d1 signature now2 with
      | (Ok (file, bucket), d2) =>
          if SignedURL.SingleUse signedURL
          then
            match Token.MarkSignatureAsUsed d2 signature now3
                                            update_ok save_ok with
            | (Ok _, d3) => (Ok (signedURL, file, bucket), d3)
            | (Err m, d3) => (Err m, d3)
            | (Panic, d3) => (Panic, d3)
            end
          else (Ok (signedURL, file, bucket), d2)
      | (Err m, d2) => (Err m, d2)
      | (Panic, d2) => (Panic, d2)
      end
  | (Err m, d1) => (Err m, d1)
  | (Panic, d1) => (Panic, d1)
  end.

End WithHMAC.

End SignatureService.

(** ** Registering a node: RegisterNodeRequestHandler.Handle and
    NodeController.SelfRegister *)

Module Register.

Record Command : Type := mkCommand {
  Name : string;
  URL : string;
  AuthKey : string;
  MaxStorage : Z;
  Priority : Z;
  IsActive : bool }.

Record Env : Type := mkEnv {
  url_ok : bool;     (* url.Parse(command.URL) *)
  new_id : uuid;     (* gen_random_uuid() of the inserted row *)
  save_ok : bool }.  (* StorageNodes.Add + SaveChanges *)

Record Response : Type := mkResponse {
  Node : Upload.StorageNodeResponse;
  Success : bool;
  Message : string }.

(** [Where(&entities.StorageNode{URL: command.URL})] *)
Definition by_url (url : string) (n : StorageNode.t) : bool :=
  String.eqb (StorageNode.URL n) url.

(** [uuid.Nil], the zero value of a uuid field. *)
Definition uuid_Nil : uuid := "00000000-0000-0000-0000-000000000000".

(** [Add] is handed a copy of [node]: the row gets its id from the
    database, the handler's [node], and with it the response, keeps the
    zero id. *)
Definition Handle (d : DbContext) (command : Command) (env : Env)
  : result Response * DbContext :=
  if negb (url_ok env) then (Err "invalid URL", d)
  else
    match Db.FirstOrDefault (by_url (URL command)) (StorageNodes d) with
    | Some existingNode =>
        (Err "storage node with this URL already exists", d)
    | None =>
        let node :=
          StorageNode.mk (new_id env) (Name command) (URL command)
                         (AuthKey command) (IsActive command) false
                         (Priority command) (MaxStorage command) 0 None in
        match (if save_ok env
               then Db.Add [StorageNode.Id; StorageNode.URL] node
                           (StorageNodes d)
               else None) with
        | None => (Err "failed to register storage node", d)
        | Some rows =>
            (Ok (mkResponse
                   (Upload.mkNodeResponse
                      uuid_Nil (StorageNode.Name node)
                      (StorageNode.URL node) (StorageNode.MaxStorage node)
                      (StorageNode.UsedStorage node)
                      (StorageNode.Priority node) (StorageNode.IsActive node)
                      (StorageNode.IsHealthy node) (StorageNode.LastPing node))
                   true "Storage node registered successfully"),
             set_StorageNodes rows d)
        end
    end.

(** [generateAuthKey()], with the uuid it draws. *)
Definition generateAuthKey (u : uuid) : string :=
  "shbucket_node_auth_" ++ u.

Record SelfRegisterRequest : Type := mkSelfRegister {
  sr_name : string;
  sr_url : string;
  sr_max_storage : Z;
  sr_priority : Z }.

Inductive Body : Type :=
| ErrorBody (error : string)
| Created (node : Upload.StorageNodeResponse) (auth_key : string).

(** NodeController.SelfRegister.  [body] is the parsed request ([None]:
    the body does not parse), [valid] the verdict of the struct
    validator, [key_uuid] the uuid drawn for the auth key. *)
Definition SelfRegister (d : DbContext) (body : option SelfRegisterRequest)
           (valid : bool) (key_uuid : uuid) (env : Env)
  : (Z * Body) * DbContext :=
  match body with
  | None => ((400, ErrorBody "Invalid request body"), d)
  | Some req =>
      if negb valid then ((400, ErrorBody "Validation failed"), d)
      else
        let authKey := generateAuthKey key_uuid in
        let command :=
          mkCommand (sr_name req) (sr_url req) authKey (sr_max_storage req)
                    (sr_priority req) true in
        match Handle d command env with
        | (Ok registerResponse, d1) =>
            ((201, Created (Node registerResponse) authKey), d1)
        | (Err m, d1) => ((400, ErrorBody m), d1)
        | (Panic, d1) => ((500, ErrorBody "panic"), d1)
        end
  end.

End Register.

(** ** Deleting a file: DeleteFileRequestHandler
    (src/Application/File/DeleteFileRequest.go) *)

Module Delete.

Record Command : Type := mkCommand {
  FileID : uuid;
  BucketID : uuid;
  UserID : uuid }.

Record Env : Type := mkEnv {
  remove_fails : bool;       (* os.Remove fails on a file that exists *)
  node_reply : HttpOutcome;  (* client.Do(req) in deleteFromNode *)
  save_ok : bool }.          (* Files.Remove + SaveChanges *)

Record Response : Type := mkResponse {
  Success : bool;
  Message : string }.

(** [os.Remove(path)] on the master's disk. *)
Definition disk_remove (path : string) (files : list (string * string))
  : list (string * string) :=
  filter (fun e => negb (String.eqb (fst e) path)) files.

Section WithParse.

Variable uuid_Parse : string -> option uuid.

(** The first half of deleteFromNode: where the request goes and what
    it names (node, [bucket_name], [file_name]). *)
Definition deleteTarget (d : DbContext) (filePath : string)
  : result (StorageNode.t * string * string) :=
  let pathParts :=
    Strings.Split (Strings.TrimPrefix filePath "node://") "/"%char in
  if Nat.ltb (List.length pathParts) 3
  then Err ("invalid node file path format: " ++ filePath)
  else
    let nodeID := nth 0 pathParts "" in
    let bucketIDStr := nth 1 pathParts "" in
    let nodeFileID := nth 2 pathParts "" in
    match uuid_Parse bucketIDStr with
    | None => Err "invalid bucket ID in path"
    | Some bucketID =>
        match Db.FirstOrDefault
                (fun b => String.eqb (Bucket.Id b) bucketID) (Buckets d) with
        | None => Err "bucket not found"
        | Some bucket =>
            match uuid_Parse nodeID with
            | None => Err "invalid node ID"
            | Some nodeUUID =>
                match Db.FirstOrDefault
                        (fun n => String.eqb (StorageNode.Id n) nodeUUID)
                        (StorageNodes d) with
                | None => Err "storage node not found"
                | Some storageNode =>
                    Ok (storageNode, Bucket.Name bucket, nodeFileID)
                end
            end
        end
    end.

Definition deleteFromNode (d : DbContext) (filePath : string) (env : Env)
  : result unit :=
  match deleteTarget d filePath with
  | Ok _ =>
      match node_reply env with
      | TransportError => Err "failed to send delete request"
      | Status code =>
          if negb (code =? 200)
          then Err ("node deletion failed with status: " ++ Sprintf_d code)
          else Ok tt
      end
  | Err m => Err m
  | Panic => Panic
  end.

Definition deletePhysicalFile (w : World) (filePath : string) (env : Env)
  : result unit * World :=
  if Strings.HasPrefix filePath "node://"
  then (deleteFromNode (db w) filePath env, w)
  else
    match Serve.disk_read filePath (disk w) with
    | None => (Ok tt, w)         (* os.IsNotExist: fine *)
    | Some _ =>
        if remove_fails env then (Err "failed to remove file", w)
        else (Ok tt, mkWorld (db w) (disk_remove filePath (disk w)) (posted w))
    end.

Definition Handle (w : World) (command : Command) (env : Env)
  : result Response * World :=
  match Db.FirstOrDefault
          (Serve.file_of (FileID command) (BucketID command))
          (Files (db w)) with
  | None => (Err "file not found", w)
  | Some file =>
      match Db.FirstOrDefault
              (fun b => String.eqb (Bucket.Id b) (BucketID command))
              (Buckets (db w)) with
      | None => (Err "bucket not found", w)
      | Some bucket =>
          if (negb (String.eqb (Bucket.OwnerId bucket) (UserID command))
              && negb (String.eqb (File.UploadedBy file) (UserID command)))%bool
          then (Err "unauthorized: insufficient permissions to delete file", w)
          else
            match deletePhysicalFile w (File.Path file) env with
            | (Err m, w1) =>
                (Err ("failed to delete physical file: " ++ m), w1)
            | (Panic, w1) => (Panic, w1)
            | (Ok _, w1) =>
                if save_ok env
                then (Ok (mkResponse true "File deleted successfully"),
                      set_db (set_Files
                                (Db.Remove File.Id file (Files (db w1)))
                                (db w1)) w1)
                else (Err "failed to delete file record", w1)
            end
      end
  end.

End WithParse.

End Delete.

(** ** The storage node's side: InternalUpload, InternalFile and
    InternalDelete of the file controller *)

Module NodeFileMetadata.
Record t : Type := mk {
  Id : uuid;
  BucketId : uuid;
  BucketName : string;
  Filename : string;
  Path : string;
  Size : Z }.
End NodeFileMetadata.

Module Internal.

(** A value of the map [json.Unmarshal] builds from the ConfigData
    column, as far as the handlers look at it: a string or not. *)
Inductive Json : Type :=
| JString (s : string)
| JOther.

(** The node's own row of SetupConfigs, with the columns the internal
    endpoints read.  [ConfigData = None]: the column does not parse. *)
Record NodeConfig : Type := mkConfig {
  SetupType : string;
  StoragePath : string;
  ConfigData : option (list (string * Json)) }.

(** What a storage node holds: its configuration, its metadata table and
    its disk. *)
Record State : Type := mkState {
  SetupConfigs : list NodeConfig;
  Metadata : list NodeFileMetadata.t;   (* dbContext.NodeFileMetadata *)
  disk : list (string * string) }.

Inductive Body : Type :=
| ErrorBody (error : string)
| Uploaded (message file_path : string) (file_size : Z)
| Deleted (message : string) (file_path : option string)
| Content (data : string).

Record HttpResponse : Type := mkHttp {
  status : Z;
  body : Body }.

(** [configData[key]] *)
Fixpoint lookup (key : string) (m : list (string * Json)) : option Json :=
  match m with
  | [] => None
  | (k, v) :: rest => if String.eqb k key then Some v else lookup key rest
  end.

(** The block every internal endpoint starts with: the bearer token of
    the Authorization header against [node_auth_key] of the node's
    configuration.  [inr nodeConfig] lets the request through. *)
Definition authorize (s : State) (authHeader : string)
  : HttpResponse + NodeConfig :=
  if String.eqb authHeader ""
  then inl (mkHttp 401 (ErrorBody "Missing Authorization header"))
  else if negb (Strings.HasPrefix authHeader "Bearer ")
  then inl (mkHttp 401 (ErrorBody "Invalid Authorization header format"))
  else
    let authKey := Strings.TrimPrefix authHeader "Bearer " in
    match Db.FirstOrDefault (fun c => String.eqb (SetupType c) "node")
                            (SetupConfigs s) with
    | None => inl (mkHttp 401 (ErrorBody "Node configuration not found"))
    | Some nodeConfig =>
        match ConfigData nodeConfig with
        | None =>
            inl (mkHttp 500 (ErrorBody "Failed to parse node configuration"))
        | Some configData =>
            match lookup "node_auth_key" configData with
            | Some (JString nodeAuthKey) =>
                if String.eqb nodeAuthKey ""
                then inl (mkHttp 500 (ErrorBody
                            "Node auth key not found in configuration"))
                else if negb (String.eqb nodeAuthKey authKey)
                then inl (mkHttp 401 (ErrorBody "Invalid auth key"))
                else inr nodeConfig
            | _ => inl (mkHttp 500 (ErrorBody
                          "Node auth key not found in configuration"))
            end
        end
    end.

(** The key a node is configured with: what [authorize] compares the
    bearer token to, when it gets that far. *)
Definition configured_key (s : State) : option string :=
  match Db.FirstOrDefault (fun c => String.eqb (SetupType c) "node")
                          (SetupConfigs s) with
  | Some nodeConfig =>
      match ConfigData nodeConfig with
      | Some configData =>
          match lookup "node_auth_key" configData with
          | Some (JString nodeAuthKey) =>
              if String.eqb nodeAuthKey "" then None else Some nodeAuthKey
          | _ => None
          end
      | None => None
      end
  | None => None
  end.

Record UploadRequest : Type := mkUpload {
  up_authorization : string;
  up_file : option string;     (* c.FormFile("file"), its content *)
  up_bucket_id : string;
  up_bucket_name : string;
  up_file_id : string;
  up_filename : string }.

Record UploadEnv : Type := mkUploadEnv {
  mkdir_ok : bool;             (* os.MkdirAll *)
  save_file_ok : bool;         (* c.SaveFile *)
  save_meta_ok : bool }.       (* SaveChanges after NodeFileMetadata.Add *)

Record FileRequest : Type := mkFileRequest {
  get_authorization : string;
  get_bucket_id : string;
  get_file_id : string;
  get_filename : string }.

Record DeleteRequest : Type := mkDelete {
  del_authorization : string;
  del_bucket_name : string;
  del_file_name : string }.

Section WithParse.

Variable uuid_Parse : string -> option uuid.

Definition InternalUpload (s : State) (req : UploadRequest) (env : UploadEnv)
  : HttpResponse * State :=
  match authorize s (up_authorization req) with
  | inl r => (r, s)
  | inr nodeConfig =>
      match up_file req with
      | None => (mkHttp 400 (ErrorBody "No file provided"), s)
      | Some content =>
          let bucketID := up_bucket_id req in
          let bucketName := up_bucket_name req in
          let fileID := up_file_id req in
          let filename := up_filename req in
          if (String.eqb bucketID "" || String.eqb bucketName ""
              || String.eqb fileID "" || String.eqb filename "")%bool
          then (mkHttp 400 (ErrorBody
                  "Missing required metadata (bucket_id, bucket_name, file_id, filename)"),
                s)
          else
            let storagePath := StoragePath nodeConfig in
            if String.eqb storagePath ""
            then (mkHttp 500 (ErrorBody
                    "Storage path not configured in node config"), s)
            else
              let storageDir := storagePath ++ "/" ++ bucketName in
              if negb (mkdir_ok env)
              then (mkHttp 500 (ErrorBody
                      "Failed to create storage directory"), s)
              else
                let filePath := storageDir ++ "/" ++ fileID in
                if negb (save_file_ok env)
                then (mkHttp 500 (ErrorBody "Failed to save file"), s)
                else
                  let s1 := mkState (SetupConfigs s) (Metadata s)
                                    ((filePath, content) :: disk s) in
                  match uuid_Parse fileID with
                  | None =>
                      (mkHttp 500 (ErrorBody "Invalid file ID format"), s1)
                  | Some fileUUID =>
                      match uuid_Parse bucketID with
                      | None =>
                          (mkHttp 500 (ErrorBody "Invalid bucket ID format"),
                           s1)
                      | Some bucketUUID =>
                          let size := Z.of_nat (String.length content) in
                          let nodeMetadata :=
                            NodeFileMetadata.mk fileUUID bucketUUID bucketName
                                                filename filePath size in
                          (* a failed commit is logged and ignored *)
                          let rows :=
                            if save_meta_ok env
                            then match Db.Add [NodeFileMetadata.Id]
                                              nodeMetadata (Metadata s1) with
                                 | Some rows' => rows'
                                 | None => Metadata s1
                                 end
                            else Metadata s1 in
                          (mkHttp 200
                             (Uploaded
                                "File uploaded successfully to storage node"
                                filePath size),
                           mkState (SetupConfigs s1) rows (disk s1))
                      end
                  end
  end
  end.

Definition InternalDelete (s : State) (req : DeleteRequest)
           (remove_fails : bool) : HttpResponse * State :=
  match authorize s (del_authorization req) with
  | inl r => (r, s)
  | inr nodeConfig =>
      let bucketName := del_bucket_name req in
      let fileName := del_file_name req in
      if (String.eqb bucketName "" || String.eqb fileName "")%bool
      then (mkHttp 400 (ErrorBody
              "Missing required parameters (bucket_name, file_name)"), s)
      else
        let storagePath := StoragePath nodeConfig in
        if String.eqb storagePath ""
        then (mkHttp 500 (ErrorBody
                "Storage path not configured in node config"), s)
        else
          let filePath := storagePath ++ "/" ++ bucketName ++ "/" ++ fileName in
          match Serve.disk_read filePath (disk s) with
          | None =>
              (mkHttp 200 (Deleted "File already deleted or does not exist"
                                   None), s)
          | Some _ =>
              if remove_fails
              then (mkHttp 500 (ErrorBody "Failed to delete file"), s)
              else (mkHttp 200
                      (Deleted "File deleted successfully from storage node"
                               (Some filePath)),
                    mkState (SetupConfigs s) (Metadata s)
                            (Delete.disk_remove filePath (disk s)))
          end
  end.

Definition InternalFile (s : State) (req : FileRequest) : HttpResponse :=
  match authorize s (get_authorization req) with
  | inl r => r
  | inr _ =>
      let bucketID := get_bucket_id req in
      let fileID := get_file_id req in
      let filename := get_filename req in
      if (String.eqb bucketID "" || String.eqb fileID ""
          || String.eqb filename "")%bool
      then mkHttp 400 (ErrorBody
             "Missing required parameters (bucket_id, file_id, filename)")
      else
        match uuid_Parse fileID with
        | None => mkHttp 400 (ErrorBody "Invalid file ID format")
        | Some fileUUID =>
            match uuid_Parse bucketID with
            | None => mkHttp 400 (ErrorBody "Invalid bucket ID format")
            | Some bucketUUID =>
                match Db.FirstOrDefault
                        (fun m =>
                           (String.eqb (NodeFileMetadata.Id m) fileUUID
                            && String.eqb (NodeFileMetadata.BucketId m)
                                          bucketUUID)%bool)
                        (Metadata s) with
                | None =>
                    mkHttp 404 (ErrorBody "File not found in node metadata")
                | Some nodeMetadata =>
                    match Serve.disk_read (NodeFileMetadata.Path nodeMetadata)
                                          (disk s) with
                    | None => mkHttp 404 (ErrorBody "File not found on disk")
                    | Some data => mkHttp 200 (Content data)
                    end
                end
            end
        end
  end.

End WithParse.

(** The request [uploadToNode] sends for a recorded post: the form
    fields and the header [Authorization: Bearer <node.AuthKey>]. *)
Definition upload_request (node : StorageNode.t) (p : NodePost)
  : UploadRequest :=
  mkUpload ("Bearer " ++ StorageNode.AuthKey node) (Some (post_body p))
           (post_bucket_id p) (post_bucket_name p) (post_file_id p)
           (post_filename p).

(** The request [fetchFileFromNode] sends. *)
Definition file_request (node : StorageNode.t) (bucketID fileID : uuid)
           (filename : string) : FileRequest :=
  mkFileRequest ("Bearer " ++ StorageNode.AuthKey node) bucketID fileID
                filename.

(** The request [deleteFromNode] sends. *)
Definition delete_request (node : StorageNode.t)
           (bucketName nodeFileID : string) : DeleteRequest :=
  mkDelete ("Bearer " ++ StorageNode.AuthKey node) bucketName nodeFileID.

End Internal.

(** ** API keys: the create and delete handlers and validateAPIKey of
    the file controller *)

Module APIKeyPermission.
Record t : Type := mk {
  Read : bool;
  Write : bool;
  SignURLs : bool;
  Buckets : list string }.
End APIKeyPermission.

Module APIKey.
Record t : Type := mk {
  Id : uuid;
  Name : string;
  KeyHash : string;           (* unique *)
  KeyPrefix : string;
  UserId : uuid;
  IsActive : bool;
  Permissions : option APIKeyPermission.t;  (* [None]: does not unmarshal *)
  ExpiresAt : option time }.
End APIKey.

Module User.
Record t : Type := mk {
  Id : uuid;
  Username : string }.
End User.

Module ApiKeys.

Record Store : Type := mkStore {
  APIKeys : list APIKey.t;
  Users : list User.t }.

Record CreateCommand : Type := mkCreate {
  Name : string;
  UserID : uuid;
  Permissions : APIKeyPermission.t;
  ExpiresAt : option time }.

Record CreateEnv : Type := mkCreateEnv {
  random_hex : option string;  (* hex of rand.Read's 32 bytes *)
  marshal_ok : bool;           (* json.Marshal(command.Permissions) *)
  new_id : uuid;               (* gen_random_uuid() of the insert *)
  save_ok : bool }.            (* SaveChanges *)

(** The fields of the response the caller can use afterwards. *)
Record CreateResponse : Type := mkCreateResponse {
  Key : string;                (* the plain key, returned this once *)
  Resp_KeyPrefix : string;
  Resp_Name : string;
  Resp_Username : string }.

Record DeleteCommand : Type := mkDeleteCommand {
  ID : uuid;
  Del_UserID : uuid }.

Section WithHash.

(** [hex.EncodeToString(sha256.Sum256(...))] *)
Variable sha256_hex : string -> string.

Definition generateAPIKey (env : CreateEnv)
  : option (string * string * string) :=
  match random_hex env with
  | None => None
  | Some hex =>
      let plainKey := "shb_" ++ hex in
      Some (plainKey, sha256_hex plainKey, substring 0 12 plainKey)
  end.

Definition Create (st : Store) (command : CreateCommand) (env : CreateEnv)
  : result CreateResponse * Store :=
  match generateAPIKey env with
  | None => (Err "failed to generate API key", st)
  | Some (plainKey, keyHash, keyPrefix) =>
      if negb (marshal_ok env)
      then (Err "failed to marshal permissions", st)
      else
        let apiKey :=
          APIKey.mk (new_id env) (Name command) keyHash keyPrefix
                    (UserID command) true (Some (Permissions command))
                    (ExpiresAt command) in
        match (if save_ok env
               then Db.Add [APIKey.Id; APIKey.KeyHash] apiKey (APIKeys st)
               else None) with
        | None => (Err "failed to create API key", st)
        | Some rows =>
            let st1 := mkStore rows (Users st) in
            match Db.FirstOrDefault
                    (fun u => String.eqb (User.Id u) (UserID command))
                    (Users st1) with
            | None => (Panic, st1)   (* user.Username on a nil user *)
            | Some user =>
                (Ok (mkCreateResponse plainKey keyPrefix (Name command)
                                      (User.Username user)),
                 st1)
            end
        end
  end.

Definition Delete (st : Store) (command : DeleteCommand) (save_ok : bool)
  : result string * Store :=
  match Db.FirstOrDefault
          (fun k => (String.eqb (APIKey.Id k) (ID command)
                     && String.eqb (APIKey.UserId k) (Del_UserID command))%bool)
          (APIKeys st) with
  | None => (Err "API key not found", st)
  | Some apiKey =>
      if save_ok
      then (Ok "API key deleted successfully",
            mkStore (Db.Remove APIKey.Id apiKey (APIKeys st)) (Users st))
      else (Err "failed to delete API key", st)
  end.

(** [ctrl.validateAPIKey(apiKey, bucketID)] at time [now]. *)
Definition validateAPIKey (st : Store) (apiKey : string) (bucketID : uuid)
           (now : time) : bool :=
  let keyHash := sha256_hex apiKey in
  match Db.FirstOrDefault
          (fun k => (String.eqb (APIKey.KeyHash k) keyHash
                     && APIKey.IsActive k)%bool)
          (APIKeys st) with
  | None => false
  | Some dbAPIKey =>
      if match APIKey.ExpiresAt dbAPIKey with
         | Some expiresAt => expiresAt <? now
         | None => false
         end
      then false
      else
        match APIKey.Permissions dbAPIKey with
        | None => false
        | Some permissions =>
            if (Nat.ltb 0 (List.length (APIKeyPermission.Buckets permissions))
                && negb (existsb (fun allowedBucket =>
                                    String.eqb allowedBucket bucketID)
                                 (APIKeyPermission.Buckets permissions)))%bool
            then false
            else APIKeyPermission.Read permissions
        end
  end.

End WithHash.

End ApiKeys.

(** ** More sample data *)

Module Samples.

(** As [Demo.env_ok], but the node answers with the given outcome. *)
Definition env_reply (id : uuid) (reply : HttpOutcome) : Upload.Env :=
  Upload.mkEnv true true id (Some "hello") reply true true true true true.

(** A bucket that anyone may read. *)
Definition public_bucket : Bucket.t :=
  Bucket.mk "b-1" "photos" "" "u-1" Demo.auth true.





(** A storage node configured with the key of [Demo.large_node]. *)
Definition node_state (rows : list NodeFileMetadata.t)
           (files : list (string * string)) : Internal.State :=
  Internal.mkState
    [Internal.mkConfig "node" "/srv"
       (Some [("node_auth_key", Internal.JString
                                  (StorageNode.AuthKey Demo.large_node))])]
    rows files.

Definition node_env : Internal.UploadEnv :=
  Internal.mkUploadEnv true true true.

(** A parser that turns down one malformed id. *)
Definition strict_Parse (s : string) : option uuid :=
  if String.eqb s "not-a-uuid" then None else Demo.uuid_Parse s.

(** What the master sends to [Demo.large_node] for the sample upload. *)
Definition node_upload (file_id : string) : Internal.UploadRequest :=
  Internal.mkUpload "Bearer key-2" (Some "hello") "b-1" "photos" file_id
                    "hello.txt".

(** A key store with one user and no keys. *)
Definition key_store : ApiKeys.Store :=
  ApiKeys.mkStore [] [User.mk "u-1" "ada"].

Definition read_photos : APIKeyPermission.t :=
  APIKeyPermission.mk true false false ["b-1"].

Definition create_key : ApiKeys.CreateCommand :=
  ApiKeys.mkCreate "ci" "u-1" read_photos (Some 500).

Definition key_env : ApiKeys.CreateEnv :=
  ApiKeys.mkCreateEnv
    (Some "000102030405060708090a0b0c0d0e0f101112131415161718191a1b1c1d1e1f")
    true "k-1" true.

End Samples.

(** * Properties *)

(** ** Machine integers *)

Module Int64Facts.

Lemma wrap_in_range (z : Z) : Int64.in_range z -> Int64.wrap z = z.
Proof.
  unfold Int64.in_range, Int64.wrap, Int64.min_signed, Int64.max_signed,
    Int64.modulus.
  intros H. rewrite Z.mod_small; lia.
Qed.

Lemma wrap_range (z : Z) : Int64.in_range (Int64.wrap z).
Proof.
  unfold Int64.in_range, Int64.wrap, Int64.min_signed, Int64.max_signed,
    Int64.modulus.
  pose proof (Z.mod_pos_bound (z - - 2 ^ 63) (2 ^ 64) ltac:(lia)). lia.
Qed.

End Int64Facts.

(** ** Paths: a cleaned path is never a node path *)

Module FilepathFacts.

Import Filepath.

Lemma Split_no_slash (s : string) :
  Forall (fun c => no_slash c = true) (Strings.Split s slash).
Proof.
  induction s as [|c rest IH]; simpl.
  - constructor; [reflexivity | constructor].
  - destruct (Ascii.eqb c slash) eqn:E.
    + constructor; [reflexivity | exact IH].
    + destruct (Strings.Split rest slash) as [|w ws].
      * constructor; [simpl; rewrite E; reflexivity | constructor].
      * inversion IH as [|? ? Hw Hws]; subst.
        constructor; [simpl; rewrite E, Hw; reflexivity | exact Hws].
Qed.

Lemma clean_step_components rooted stack c :
  Forall component stack -> no_slash c = true ->
  Forall component (clean_step rooted stack c).
Proof.
  intros Hs Hc. unfold clean_step.
  destruct (String.eqb c "") eqn:E0; simpl; [exact Hs|].
  destruct (String.eqb c ".") eqn:E1; simpl; [exact Hs|].
  assert (Hgood : component c).
  { split; [|exact Hc]. intros ->. discriminate E0. }
  destruct (String.eqb c "..") eqn:E2.
  - destruct stack as [|top rest].
    + destruct rooted; constructor; [exact Hgood | constructor].
    + destruct (String.eqb top "..").
      * constructor; assumption.
      * inversion Hs; assumption.
  - constructor; assumption.
Qed.

Lemma fold_clean_step rooted cs :
  forall stack,
    Forall component stack -> Forall (fun c => no_slash c = true) cs ->
    Forall component (fold_left (clean_step rooted) cs stack).
Proof.
  induction cs as [|c cs IH]; intros stack Hs Hcs; simpl; [exact Hs|].
  inversion Hcs; subst.
  apply IH; [apply clean_step_components|]; assumption.
Qed.

Lemma components_component rooted p : Forall component (components rooted p).
Proof.
  unfold components. apply Forall_rev, fold_clean_step.
  - constructor.
  - apply Split_no_slash.
Qed.

Lemma component_head (s : string) :
  component s -> starts_with_slash s = false.
Proof.
  intros [Hne Hns]. destruct s as [|c rest]; [reflexivity|].
  simpl in *. destruct (Ascii.eqb c slash); [discriminate | reflexivity].
Qed.

(** Appending ["/" ++ t] to a slash-free text creates a double slash
    only if [t] supplies one. *)
Lemma append_slash (x t : string) :
  x <> "" -> no_slash x = true ->
  starts_with_slash t = false -> double_slash t = false ->
  double_slash (x ++ "/" ++ t) = false
  /\ starts_with_slash (x ++ "/" ++ t) = false.
Proof.
  intros Hne Hns Ht Hd. split.
  - clear Hne. induction x as [|c x IH]; simpl in *.
    + rewrite Ht, Hd. reflexivity.
    + apply andb_prop in Hns as [Hc Hx].
      apply negb_true_iff in Hc. rewrite Hc. simpl. apply IH, Hx.
  - destruct x as [|c x]; [contradiction|]. simpl in *.
    apply andb_prop in Hns as [Hc _]. apply negb_true_iff in Hc. exact Hc.
Qed.

Lemma no_slash_no_double (x : string) :
  no_slash x = true -> double_slash x = false.
Proof.
  induction x as [|c x IH]; simpl; [reflexivity|].
  intros H. apply andb_prop in H as [Hc Hx]. apply negb_true_iff in Hc.
  rewrite Hc. simpl. apply IH, Hx.
Qed.

Lemma concat_components (comps : list string) :
  Forall component comps ->
  double_slash (Strings.Join comps "/") = false
  /\ starts_with_slash (Strings.Join comps "/") = false.
Proof.
  unfold Strings.Join.
  induction comps as [|h t IH]; intros H; simpl; [split; reflexivity|].
  inversion H as [|? ? Hh Ht]; subst.
  destruct t as [|h' t'].
  - split; [apply no_slash_no_double, Hh | apply component_head, Hh].
  - destruct (IH Ht) as [Hd Hs]. destruct Hh as [Hne Hns].
    apply append_slash; assumption.
Qed.

Lemma Clean_no_double_slash (p : string) : double_slash (Clean p) = false.
Proof.
  unfold Clean. destruct (String.eqb p ""); [reflexivity|].
  destruct (Strings.HasPrefix p "/").
  - destruct (concat_components _ (components_component true p)) as [Hd Hs].
    simpl. rewrite Hs, Hd. reflexivity.
  - pose proof (concat_components _ (components_component false p)) as [Hd _].
    destruct (components false p); [reflexivity | exact Hd].
Qed.

Lemma Join_no_double_slash (elems : list string) :
  double_slash (Join elems) = false.
Proof.
  unfold Join. destruct (drop_empty elems); [reflexivity|].
  apply Clean_no_double_slash.
Qed.

Lemma node_prefix_double_slash (s : string) :
  Strings.HasPrefix s "node://" = true -> double_slash s = true.
Proof.
  unfold Strings.HasPrefix. intros H.
  do 7 (destruct s as [|? s]; [discriminate H|];
        simpl in H;
        match type of H with
        | (if ?d then _ else _) = true =>
            destruct d as [<-|]; [|discriminate H]
        end).
  reflexivity.
Qed.

(** No path built by [filepath.Join] has the [node://] form. *)
Lemma Join_not_node (elems : list string) :
  Strings.HasPrefix (Join elems) "node://" = false.
Proof.
  destruct (Strings.HasPrefix (Join elems) "node://") eqn:E; [|reflexivity].
  apply node_prefix_double_slash in E.
  rewrite Join_no_double_slash in E. discriminate E.
Qed.

End FilepathFacts.

(** ** Placement *)

Ltac break_match :=
  match goal with
  | |- context [match ?x with _ => _ end] => destruct x eqn:?
  | H : context [match ?x with _ => _ end] |- _ => destruct x eqn:?
  end.

Ltac inv_pair :=
  repeat match goal with
         | H : (_, _) = (_, _) |- _ => inversion H; subst; clear H
         end.

Module DbFacts.

Lemma find_Update {A} (key : A -> uuid) (row : A) (rows : list A) (k : uuid) :
  key row = k ->
  (exists r, In r rows /\ key r = k) ->
  Db.FirstOrDefault (fun r => String.eqb (key r) k) (Db.Update key row rows)
  = Some row.
Proof.
  intros Hk [r [Hin Hr]]. unfold Db.FirstOrDefault, Db.Update.
  induction rows as [|x xs IH]; [contradiction|]. simpl.
  destruct (String.eqb (key x) (key row)) eqn:E.
  - rewrite Hk, String.eqb_refl. reflexivity.
  - rewrite Hk in E. rewrite E. destruct Hin as [->|Hin].
    + rewrite Hr, String.eqb_refl in E. discriminate E.
    + apply IH, Hin.
Qed.

Lemma find_In {A} (p : A -> bool) (rows : list A) (r : A) :
  Db.FirstOrDefault p rows = Some r -> In r rows /\ p r = true.
Proof. apply find_some. Qed.

Lemma Add_app {A} (uniq : list (A -> string)) (row : A) (rows rows' : list A) :
  Db.Add uniq row rows = Some rows' -> rows' = (rows ++ [row])%list.
Proof.
  unfold Db.Add. destruct (existsb _ uniq); [discriminate|].
  intros H. inversion H. reflexivity.
Qed.

End DbFacts.

Module UploadFacts.

Import Upload.

Section WithHash.

Variable sha256_hex : string -> string.

Lemma uploadToNode_frame w node cmd env :
  db (snd (uploadToNode w node cmd env)) = db w
  /\ disk (snd (uploadToNode w node cmd env)) = disk w.
Proof.
  unfold uploadToNode. repeat break_match; simpl; auto.
Qed.

(** The placement block never touches the file table or the disk,
    and leaves the node table alone unless the node accepted the
    write. *)
Lemma placeOnNode_frame w cmd env free :
  Files (db (snd (placeOnNode w cmd env free))) = Files (db w)
  /\ disk (snd (placeOnNode w cmd env free)) = disk w
  /\ Buckets (db (snd (placeOnNode w cmd env free))) = Buckets (db w)
  /\ (is_ok (fst (placeOnNode w cmd env free)) = false ->
      StorageNodes (db (snd (placeOnNode w cmd env free)))
      = StorageNodes (db w)).
Proof.
  unfold placeOnNode.
  destruct (Db.FirstOrDefault _ (StorageNodes (db w))) as [n|]; [|simpl; auto].
  destruct (_ <? _); [simpl; auto|].
  pose proof (uploadToNode_frame w n cmd env) as [Hdb Hdisk].
  destruct (uploadToNode w n cmd env) as [[[|]| |] w1]; simpl in *;
    try (rewrite Hdb, Hdisk; auto).
  destruct (save_node_ok env); simpl; rewrite ?Hdb, ?Hdisk;
    repeat split; auto; discriminate.
Qed.

Lemma storeBytes_frame w cmd env cfg bucket sn :
  db (snd (storeBytes sha256_hex w cmd env cfg bucket sn)) = db w
  /\ posted (snd (storeBytes sha256_hex w cmd env cfg bucket sn)) = posted w.
Proof.
  unfold storeBytes. repeat break_match; simpl; auto.
Qed.

(** The record-creation part leaves the node table and the request
    log alone; it extends the file table exactly when it succeeds. *)
Lemma createRecord_frame w cmd env cfg sn :
  StorageNodes (db (snd (createRecord sha256_hex w cmd env cfg sn)))
  = StorageNodes (db w)
  /\ posted (snd (createRecord sha256_hex w cmd env cfg sn)) = posted w
  /\ (is_ok (fst (createRecord sha256_hex w cmd env cfg sn)) = false ->
      Files (db (snd (createRecord sha256_hex w cmd env cfg sn)))
      = Files (db w))
  /\ (forall resp,
         fst (createRecord sha256_hex w cmd env cfg sn) = Ok resp ->
         Files (db (snd (createRecord sha256_hex w cmd env cfg sn)))
         = (Files (db w) ++ [Resp_File resp])%list
         /\ Resp_StorageNode resp = sn).
Proof.
  unfold createRecord.
  destruct (Db.FirstOrDefault _ (Buckets (db w))) as [bucket|];
    [|simpl; repeat split; auto; discriminate].
  pose proof (storeBytes_frame w cmd env cfg bucket sn) as [Hdb Hposted].
  destruct (storeBytes sha256_hex w cmd env cfg bucket sn)
    as [[[filePath checksum]| |] w1]; simpl in *;
    try (rewrite Hdb, Hposted; repeat split; auto; discriminate).
  destruct (marshal_ok env); simpl;
    [|rewrite Hdb, Hposted; repeat split; auto; discriminate].
  destruct (save_file_ok env); simpl;
    [|rewrite Hdb, Hposted; repeat split; auto; discriminate].
  destruct (Db.Add _ _ (Files (db w1))) as [files'|] eqn:EA; simpl;
    [|rewrite Hdb, Hposted; repeat split; auto; discriminate].
  apply DbFacts.Add_app in EA. subst files'.
  rewrite Hdb, Hposted. repeat split; auto; try discriminate;
    match goal with
    | H : Ok _ = Ok _ |- _ => inversion H; reflexivity
    end.
Qed.

Lemma createRecord_local w cmd env cfg resp :
  fst (createRecord sha256_hex w cmd env cfg None) = Ok resp ->
  stored_on_node (File.Path (Resp_File resp)) = false
  /\ File.Size (Resp_File resp) = FileSize cmd
  /\ exists content,
      read_body env = Some content
      /\ File.Checksum (Resp_File resp) = sha256_hex content
      /\ disk (snd (createRecord sha256_hex w cmd env cfg None))
         = (File.Path (Resp_File resp), content) :: disk w.
Proof.
  unfold createRecord, storeBytes.
  repeat (break_match; simpl; try discriminate); inv_pair.
  intros H. inversion H; subst; clear H. simpl.
  repeat split; [apply FilepathFacts.Join_not_node|].
  eexists. repeat split.
Qed.



Lemma stored_on_node_node_path (node bucket file : uuid) :
  stored_on_node (node_path node bucket file) = true.
Proof.
  unfold stored_on_node, Strings.HasPrefix, node_path. simpl.
  repeat match goal with
         | |- context [ascii_dec ?a ?b] =>
             destruct (ascii_dec a b) as [_|Hne];
             [|exfalso; apply Hne; reflexivity]
         end.
  destruct (node ++ _)%string; reflexivity.
Qed.

Lemma placeOnNode_nodes w cmd env free :
  StorageNodes (db (snd (placeOnNode w cmd env free))) = StorageNodes (db w)
  \/ exists n,
      Db.FirstOrDefault eligible (StorageNodes (db w)) = Some n
      /\ accepted (node_reply env) = true
      /\ StorageNodes (db (snd (placeOnNode w cmd env free)))
         = Db.Update StorageNode.Id
             (StorageNode.with_UsedStorage
                (Int64.add (StorageNode.UsedStorage n) (FileSize cmd)) n)
             (StorageNodes (db w)).
Proof.
  unfold placeOnNode.
  destruct (Db.FirstOrDefault eligible (StorageNodes (db w))) as [n|] eqn:En;
    [|left; reflexivity].
  destruct (_ <? _); [left; reflexivity|].
  unfold uploadToNode.
  destruct (read_body env); [|left; reflexivity].
  destruct (Db.FirstOrDefault (bucket_of cmd) _); [|left; reflexivity].
  destruct (node_reply env) as [|code] eqn:Er; [left; reflexivity|].
  destruct ((code =? 200) || (code =? 201))%bool eqn:Ec;
    [|left; reflexivity].
  destruct (save_node_ok env); [|left; reflexivity].
  right. exists n. simpl. rewrite Ec. repeat split.
Qed.

Lemma placeOnNode_ok w cmd env free sn :
  fst (placeOnNode w cmd env free) = Ok sn ->
  exists n,
    Db.FirstOrDefault eligible (StorageNodes (db w)) = Some n
    /\ ID sn = StorageNode.Id n
    /\ UsedStorage sn
       = Int64.add (StorageNode.UsedStorage n) (FileSize cmd)
    /\ accepted (node_reply env) = true
    /\ (save_node_ok env = true ->
        StorageNodes (db (snd (placeOnNode w cmd env free)))
        = Db.Update StorageNode.Id
            (StorageNode.with_UsedStorage
               (Int64.add (StorageNode.UsedStorage n) (FileSize cmd)) n)
            (StorageNodes (db w))).
Proof.
  unfold placeOnNode.
  destruct (Db.FirstOrDefault eligible (StorageNodes (db w))) as [n|] eqn:En;
    [|discriminate].
  destruct (_ <? _); [discriminate|].
  unfold uploadToNode.
  destruct (read_body env); [|discriminate].
  destruct (Db.FirstOrDefault (bucket_of cmd) _); [|discriminate].
  destruct (node_reply env) as [|code] eqn:Er; [discriminate|].
  destruct ((code =? 200) || (code =? 201))%bool eqn:Ec; [|discriminate].
  simpl. intros H. inversion H; subst; clear H. simpl.
  exists n. rewrite Ec. repeat split. intros ->. reflexivity.
Qed.

(** C1, as the code has it.  When the declared size exceeds the
    master's free space, the FIRST active and healthy node of the
    registry is the only candidate: if that node has room for the
    object, accepts the write (HTTP 200 or 201), and the master's
    bucket lookup and commits go through, the upload succeeds, the
    object's path is the node path of that node, and that node's
    used-storage counter is larger by exactly the object's size. *)
Theorem remote_placement_on_first_eligible_node
        w cmd env masterConfig n bucket content code :
  config_query_ok env = true ->
  sum_query_ok env = true ->
  Db.FirstOrDefault is_master (SetupConfigs (db w)) = Some masterConfig ->
  masterFreeSpace masterConfig (db w) < FileSize cmd ->
  Db.FirstOrDefault eligible (StorageNodes (db w)) = Some n ->
  0 <= StorageNode.UsedStorage n ->
  StorageNode.MaxStorage n <= Int64.max_signed ->
  Int64.min_signed <= FileSize cmd ->
  FileSize cmd <= StorageNode.MaxStorage n - StorageNode.UsedStorage n ->
  Db.FirstOrDefault (bucket_of cmd) (Buckets (db w)) = Some bucket ->
  read_body env = Some content ->
  node_reply env = Status code -> code = 200 \/ code = 201 ->
  save_node_ok env = true ->
  marshal_ok env = true ->
  save_file_ok env = true ->
  Db.FirstOrDefault (fun f => String.eqb (File.Id f) (fileID env))
                    (Files (db w)) = None ->
  exists resp,
    fst (Handle sha256_hex w cmd env) = Ok resp
    /\ File.Path (Resp_File resp)
       = node_path (StorageNode.Id n) (BucketID cmd) (fileID env)
    /\ stored_on_node (File.Path (Resp_File resp)) = true
    /\ Files (db (snd (Handle sha256_hex w cmd env)))
       = (Files (db w) ++ [Resp_File resp])%list
    /\ Db.FirstOrDefault
         (fun m => String.eqb (StorageNode.Id m) (StorageNode.Id n))
         (StorageNodes (db (snd (Handle sha256_hex w cmd env))))
       = Some (StorageNode.with_UsedStorage
                 (StorageNode.UsedStorage n + FileSize cmd) n).
Proof.
  intros Hc Hs Hm Hfree Hn Hused Hmax Hsize Hroom Hb Hbody Hreply Hcode
         Hsave Hj Hrec Hfresh.
  unfold Handle. rewrite Hc, Hs, Hm. simpl.
  apply Z.ltb_lt in Hfree. rewrite Hfree.
  assert (Hsub : Int64.sub (StorageNode.MaxStorage n)
                           (StorageNode.UsedStorage n)
                 = StorageNode.MaxStorage n - StorageNode.UsedStorage n).
  { apply Int64Facts.wrap_in_range. unfold Int64.in_range. lia. }
  assert (Hadd : Int64.add (StorageNode.UsedStorage n) (FileSize cmd)
                 = StorageNode.UsedStorage n + FileSize cmd).
  { apply Int64Facts.wrap_in_range. unfold Int64.in_range. lia. }
  assert (Hacc : ((code =? 200) || (code =? 201))%bool = true).
  { destruct Hcode as [-> | ->]; reflexivity. }
  unfold placeOnNode, uploadToNode.
  rewrite Hn, Hsub. apply Z.ltb_ge in Hroom. rewrite Hroom.
  rewrite Hbody, Hb, Hreply, Hacc, Hsave, Hadd. simpl.
  unfold createRecord. simpl. rewrite Hb. simpl. rewrite Hj, Hrec. simpl.
  unfold Db.Add. simpl.
  assert (E : existsb (fun r => String.eqb (File.Id r) (fileID env))
                      (Files (db w)) = false).
  { destruct (existsb _ (Files (db w))) eqn:E; [|reflexivity].
    apply existsb_exists in E as [f [Hin Hf]].
    apply (find_none _ _ Hfresh) in Hin. congruence. }
  rewrite E. simpl. eexists. split; [reflexivity|]. simpl.
  repeat split; [apply stored_on_node_node_path|].
  apply DbFacts.find_Update; [reflexivity|].
  exists n. split; [|reflexivity].
  apply (DbFacts.find_In _ _ _ Hn).
Qed.

(** C4, as the code has it.  An upload that answers with an error
    has created no object record, and has changed no node row unless
    the node had already accepted the write; in every outcome the
    node table is either untouched or differs by the chosen node's
    counter, raised by the declared size (the handler never undoes
    it).  An upload that answers with success has added exactly its
    record, and for a remote placement the chosen node's counter is
    raised once its commit went through. *)
Theorem upload_outcome_state w cmd env :
  (is_ok (fst (Handle sha256_hex w cmd env)) = false ->
   Files (db (snd (Handle sha256_hex w cmd env))) = Files (db w))
  /\ (is_ok (fst (Handle sha256_hex w cmd env)) = false ->
      accepted (node_reply env) = false ->
      StorageNodes (db (snd (Handle sha256_hex w cmd env)))
      = StorageNodes (db w))
  /\ (StorageNodes (db (snd (Handle sha256_hex w cmd env)))
      = StorageNodes (db w)
      \/ exists n,
          Db.FirstOrDefault eligible (StorageNodes (db w)) = Some n
          /\ StorageNodes (db (snd (Handle sha256_hex w cmd env)))
             = Db.Update StorageNode.Id
                 (StorageNode.with_UsedStorage
                    (Int64.add (StorageNode.UsedStorage n) (FileSize cmd))
                    n)
                 (StorageNodes (db w)))
  /\ (forall resp,
         fst (Handle sha256_hex w cmd env) = Ok resp ->
         Files (db (snd (Handle sha256_hex w cmd env)))
         = (Files (db w) ++ [Resp_File resp])%list
         /\ forall sn,
             Resp_StorageNode resp = Some sn ->
             save_node_ok env = true ->
             exists n,
               Db.FirstOrDefault eligible (StorageNodes (db w)) = Some n
               /\ ID sn = StorageNode.Id n
               /\ StorageNodes (db (snd (Handle sha256_hex w cmd env)))
                  = Db.Update StorageNode.Id
                      (StorageNode.with_UsedStorage
                         (Int64.add (StorageNode.UsedStorage n)
                                    (FileSize cmd)) n)
                      (StorageNodes (db w))).
Proof.
  unfold Handle.
  destruct (config_query_ok env); simpl;
    [|split; [|split; [|split]]; auto; discriminate].
  destruct (Db.FirstOrDefault is_master _) as [cfg|];
    [|split; [|split; [|split]]; auto; discriminate].
  destruct (sum_query_ok env); simpl;
    [|split; [|split; [|split]]; auto; discriminate].
  destruct (masterFreeSpace cfg (db w) <? FileSize cmd).
  - pose proof (placeOnNode_frame w cmd env (masterFreeSpace cfg (db w)))
      as (Hf & _ & _ & Hn).
    pose proof (placeOnNode_nodes w cmd env (masterFreeSpace cfg (db w)))
      as Hnodes.
    pose proof (placeOnNode_ok w cmd env (masterFreeSpace cfg (db w)))
      as Hok.
    destruct (placeOnNode w cmd env (masterFreeSpace cfg (db w)))
      as [[sn|m|] w1]; simpl in *.
    + pose proof (createRecord_frame w1 cmd env cfg (Some sn))
        as (Cn & _ & Cerr & Cok).
      destruct (Hok sn eq_refl) as (n & En & Hid & _ & Hacc & Hupd).
      split; [|split; [|split]].
      * intros H. rewrite (Cerr H). exact Hf.
      * intros _ H. rewrite Hacc in H. discriminate H.
      * rewrite Cn. destruct Hnodes as [H | (n' & En' & _ & H)];
          [left; exact H | right; exists n'; split; assumption].
      * intros resp H. destruct (Cok resp H) as [Hfiles Heq]. split.
        -- rewrite Hfiles, Hf. reflexivity.
        -- intros sn' Hsn Hsave. rewrite Hsn in Heq.
           inversion Heq; subst sn'.
           exists n. rewrite Cn. split; [exact En|].
           split; [exact Hid | exact (Hupd Hsave)].
    + split; [|split; [|split]]; auto; discriminate.
    + split; [|split; [|split]]; auto; discriminate.
  - pose proof (createRecord_frame w cmd env cfg None)
      as (Cn & _ & Cerr & Cok).
    split; [|split; [|split]]; auto.
    intros resp H. destruct (Cok resp H) as [Hfiles Heq].
    split; [exact Hfiles|].
    intros sn Hsn. rewrite Hsn in Heq. discriminate Heq.
Qed.

End WithHash.

(** *** The handler on the sample installation *)


(** C1 fails as stated: the master is full, the second node has 500
    free bytes, but the first eligible node has only 10, and the
    20-byte upload is refused without trying the second node. *)
Lemma first_eligible_node_without_room_counterexample :
  masterFreeSpace Demo.master
    (db (Demo.world [Demo.local_file] [Demo.small_node; Demo.large_node]))
  < 20
  /\ (In Demo.large_node
         (StorageNodes
            (db (Demo.world [Demo.local_file]
                            [Demo.small_node; Demo.large_node])))
      /\ StorageNode.IsActive Demo.large_node = true
      /\ StorageNode.IsHealthy Demo.large_node = true
      /\ 20 <= StorageNode.MaxStorage Demo.large_node
               - StorageNode.UsedStorage Demo.large_node)
  /\ Handle Demo.sha256_hex
            (Demo.world [Demo.local_file] [Demo.small_node; Demo.large_node])
            (Demo.upload 20) (Demo.env_ok "f-1")
     = (Err "upload failed: no storage space available. Master: 10 bytes free, File: 20 bytes",
        Demo.world [Demo.local_file] [Demo.small_node; Demo.large_node]).
Proof.
  split; [vm_compute; reflexivity|]. split.
  - split; [right; left; reflexivity|].
    split; [reflexivity|]. split; [reflexivity|].
    vm_compute. discriminate.
  - vm_compute. reflexivity.
Qed.

Lemma remote_placement_on_first_eligible_node_witness :
  exists resp,
    fst (Handle Demo.sha256_hex
                (Demo.world [Demo.local_file]
                            [Demo.large_node; Demo.small_node])
                (Demo.upload 20) (Demo.env_ok "f-1")) = Ok resp
    /\ File.Path (Resp_File resp) = "node://n-2/b-1/f-1"
    /\ Db.FirstOrDefault
         (fun m => String.eqb (StorageNode.Id m) "n-2")
         (StorageNodes
            (db (snd (Handle Demo.sha256_hex
                             (Demo.world [Demo.local_file]
                                         [Demo.large_node; Demo.small_node])
                             (Demo.upload 20) (Demo.env_ok "f-1")))))
       = Some (StorageNode.with_UsedStorage 20 Demo.large_node).
Proof.
  destruct (remote_placement_on_first_eligible_node
              Demo.sha256_hex
              (Demo.world [Demo.local_file] [Demo.large_node; Demo.small_node])
              (Demo.upload 20) (Demo.env_ok "f-1") Demo.master
              Demo.large_node Demo.bucket "hello" 200)
    as (resp & Hr & Hpath & _ & _ & Hnode);
    try reflexivity; try (vm_compute; discriminate).
  - left; reflexivity.
  - exists resp. split; [exact Hr|]. split; [exact Hpath | exact Hnode].
Defined.

(** C3 on the code.  On a master with a 100-byte ceiling and an empty
    disk, a 150-byte object goes to the node.  From then on the
    handler's free-space figure is 100 - 150 = -50, although nothing
    is stored locally and the ceiling minus the local objects is still
    100; the next 10-byte object is therefore sent to the node too. *)
Theorem masterFreeSpace_counts_remote_objects :
  let w0 := Demo.world [] [Demo.large_node] in
  let w1 := snd (Handle Demo.sha256_hex w0 (Demo.upload 150)
                        (Demo.env_ok "f-1")) in
  let w2 := snd (Handle Demo.sha256_hex w1 (Demo.upload 10)
                        (Demo.env_ok "f-2")) in
  map File.Path (Files (db w1)) = ["node://n-2/b-1/f-1"]
  /\ disk w1 = []
  /\ masterFreeSpace Demo.master (db w1) = -50
  /\ masterFreeSpace_local_only Demo.master (db w1) = 100
  /\ map File.Path (Files (db w2))
     = ["node://n-2/b-1/f-1"; "node://n-2/b-1/f-2"]
  /\ disk w2 = [].
Proof. vm_compute. repeat split. Qed.

(** C4 fails as stated: the node accepts the write and its counter is
    committed, then the commit of the file record fails; the caller
    gets an error, yet the node's counter has moved from 0 to 20. *)
Lemma error_after_remote_write_counterexample :
  fst (Handle Demo.sha256_hex
              (Demo.world [Demo.local_file] [Demo.large_node])
              (Demo.upload 20) (Demo.env_record_fails "f-1"))
  = Err "failed to create file record"
  /\ Files (db (snd (Handle Demo.sha256_hex
                            (Demo.world [Demo.local_file] [Demo.large_node])
                            (Demo.upload 20) (Demo.env_record_fails "f-1"))))
     = [Demo.local_file]
  /\ map StorageNode.UsedStorage
         (StorageNodes
            (db (Demo.world [Demo.local_file] [Demo.large_node])))
     = [0]
  /\ map StorageNode.UsedStorage
         (StorageNodes
            (db (snd (Handle Demo.sha256_hex
                             (Demo.world [Demo.local_file] [Demo.large_node])
                             (Demo.upload 20)
                             (Demo.env_record_fails "f-1")))))
     = [20].
Proof. vm_compute. repeat split. Qed.

Lemma upload_outcome_state_witness :
  Files (db (snd (Handle Demo.sha256_hex
                         (Demo.world [Demo.local_file] [Demo.large_node])
                         (Demo.upload 20) (Demo.env_record_fails "f-1"))))
  = Files (db (Demo.world [Demo.local_file] [Demo.large_node])).
Proof.
  apply (upload_outcome_state
           Demo.sha256_hex
           (Demo.world [Demo.local_file] [Demo.large_node])
           (Demo.upload 20) (Demo.env_record_fails "f-1")).
  reflexivity.
Defined.

End UploadFacts.

(** ** Signed URLs *)

Module TokenFacts.

Import Token.

Lemma find_app_none {A} (p : A -> bool) (xs ys : list A) :
  find p xs = None -> find p (xs ++ ys)%list = find p ys.
Proof.
  induction xs as [|x xs IH]; simpl; [reflexivity|].
  destruct (p x); [discriminate | exact IH].
Qed.

Lemma find_none_iff {A} (p : A -> bool) (xs : list A) :
  find p xs = None <-> (forall x, In x xs -> p x = false).
Proof.
  split; [apply find_none|].
  induction xs as [|x xs IH]; intros H; simpl; [reflexivity|].
  rewrite (H x (or_introl eq_refl)). apply IH.
  intros y Hy. apply H. right. exact Hy.
Qed.

(** After an update by primary key with a row that still satisfies the
    query, the query returns the updated row. *)
Lemma find_Update_row {A} (key : A -> uuid) (p : A -> bool)
      (row row' : A) (rows : list A) :
  Db.FirstOrDefault p rows = Some row ->
  key row' = key row -> p row' = true ->
  Db.FirstOrDefault p (Db.Update key row' rows) = Some row'.
Proof.
  unfold Db.FirstOrDefault, Db.Update. intros Hfind Hkey Hp.
  induction rows as [|x xs IH]; [discriminate|]. simpl in *.
  destruct (p x) eqn:Ex.
  - inversion Hfind; subst x. rewrite Hkey, String.eqb_refl, Hp. reflexivity.
  - destruct (String.eqb (key x) (key row')).
    + rewrite Hp. reflexivity.
    + rewrite Ex. apply IH, Hfind.
Qed.

(** A committed insert makes the new row the one its signature finds. *)
Lemma Add_then_find (row : SignedURL.t) (rows rows' : list SignedURL.t) :
  Db.Add [SignedURL.ID; SignedURL.Signature] row rows = Some rows' ->
  Db.FirstOrDefault (by_signature (SignedURL.Signature row)) rows' = Some row.
Proof.
  unfold Db.Add. simpl.
  destruct (existsb (fun r => String.eqb (SignedURL.ID r) (SignedURL.ID row))
                    rows); [discriminate|]. simpl.
  destruct (existsb (fun r => String.eqb (SignedURL.Signature r)
                                         (SignedURL.Signature row)) rows)
           eqn:E; [discriminate|]. simpl.
  intros H. inversion H; subst rows'; clear H.
  unfold Db.FirstOrDefault. rewrite find_app_none.
  - simpl. unfold by_signature. rewrite String.eqb_refl. reflexivity.
  - apply find_none_iff. intros x Hx. unfold by_signature.
    destruct (String.eqb (SignedURL.Signature x) (SignedURL.Signature row))
             eqn:Ex; [|reflexivity].
    assert (existsb (fun r => String.eqb (SignedURL.Signature r)
                                         (SignedURL.Signature row)) rows
            = true) as Hc
        by (apply existsb_exists; exists x; split; assumption).
    congruence.
Qed.

Section WithHMAC.

Variable generateHMAC : string -> string -> string.
Variable settings : Settings.

Local Abbreviation signature_of := (Token.signature_of generateHMAC settings).

(** Issuing while a row with the signature is still valid answers
    with that row's expiry and leaves the database as it is. *)
Lemma issue_returns_existing d command env file bucket existing :
  Db.FirstOrDefault
    (fun f => (String.eqb (File.Id f) (FileID command)
               && String.eqb (File.BucketId f) (BucketID command))%bool)
    (Files d) = Some file ->
  Db.FirstOrDefault
    (fun b => String.eqb (Bucket.Id b) (BucketID command))
    (Buckets d) = Some bucket ->
  Db.FirstOrDefault (by_signature (signature_of command)) (SignedURLs d)
  = Some existing ->
  now_check env < SignedURL.ExpiresAt existing ->
  Handle generateHMAC settings d command env
  = (Ok (mkResponse
           (signed_url (BaseURL settings) (BucketID command)
                       (FileID command) (signature_of command))
           (SignedURL.ExpiresAt existing) true
           "Existing signed URL returned"), d).
Proof.
  intros Hf Hb He Hvalid. unfold Handle. rewrite Hf, Hb.
  unfold Token.signature_of in He. rewrite He.
  apply Z.ltb_lt in Hvalid. rewrite Hvalid. reflexivity.
Qed.



Local Abbreviation validate := (ValidateSignedURL generateHMAC settings).

(** Validation is a read: the database it returns is the one it got. *)
Lemma validate_reads d signature now :
  snd (validate d signature now) = d.
Proof.
  unfold ValidateSignedURL. repeat break_match; reflexivity.
Qed.

(** C6.  The error kinds of validation, in the order the checks are
    made: a signature that no stored row carries is "not found"; a
    stored row past its expiry is "expired"; an unexpired row that
    is single-use and used is "already used"; and the integrity
    failure is returned exactly when the row is stored, unexpired
    and not consumed, its bucket and file resolve, and the HMAC
    recomputed over their ids differs from the presented
    signature. *)
Theorem validate_error_kinds d signature now :
  ((forall row, In row (SignedURLs d) ->
                SignedURL.Signature row <> signature) ->
   fst (validate d signature now) = Err not_found)
  /\ (forall row,
         Db.FirstOrDefault (by_signature signature) (SignedURLs d)
         = Some row ->
         SignedURL.ExpiresAt row < now ->
         fst (validate d signature now) = Err expired)
  /\ (forall row,
         Db.FirstOrDefault (by_signature signature) (SignedURLs d)
         = Some row ->
         ~ SignedURL.ExpiresAt row < now ->
         (SignedURL.SingleUse row && SignedURL.Used row)%bool = true ->
         fst (validate d signature now) = Err already_used)
  /\ (fst (validate d signature now) = Err integrity_failure <->
      exists row bucket file,
        Db.FirstOrDefault (by_signature signature) (SignedURLs d)
        = Some row
        /\ ~ SignedURL.ExpiresAt row < now
        /\ (SignedURL.SingleUse row && SignedURL.Used row)%bool = false
        /\ resolves d row bucket file
        /\ generateHMAC (payload (Bucket.Id bucket) (File.Id file))
                        (SignatureSecret settings) <> signature).
Proof.
  unfold ValidateSignedURL, resolves.
  split; [|split; [|split]].
  - intros Hnone.
    assert (E : Db.FirstOrDefault (by_signature signature) (SignedURLs d)
                = None).
    { apply find_none_iff. intros x Hx. unfold by_signature.
      apply String.eqb_neq. apply Hnone, Hx. }
    rewrite E. reflexivity.
  - intros row Hrow Hexp. rewrite Hrow.
    apply Z.ltb_lt in Hexp. rewrite Hexp. reflexivity.
  - intros row Hrow Hexp Hused. rewrite Hrow.
    apply Z.ltb_nlt in Hexp. rewrite Hexp, Hused. reflexivity.
  - split.
    + destruct (Db.FirstOrDefault (by_signature signature) (SignedURLs d))
        as [row|]; [|discriminate].
      destruct (SignedURL.ExpiresAt row <? now) eqn:Ee; [discriminate|].
      destruct (SignedURL.SingleUse row && SignedURL.Used row)%bool eqn:Eu;
        [discriminate|].
      destruct (Db.FirstOrDefault _ (Buckets d)) as [bucket|] eqn:Eb;
        [|discriminate].
      destruct (Db.FirstOrDefault _ (Files d)) as [file|] eqn:Ef;
        [|discriminate].
      destruct (String.eqb signature _) eqn:Es; [discriminate|].
      intros _. exists row, bucket, file.
      apply Z.ltb_nlt in Ee. apply String.eqb_neq in Es.
      split; [reflexivity|]. split; [exact Ee|].
      split; [exact Eu|]. split; [split; assumption|].
      congruence.
    + intros (row & bucket & file & Hrow & Hexp & Hused & [Hb Hf] & Hsig).
      rewrite Hrow. apply Z.ltb_nlt in Hexp. rewrite Hexp, Hused, Hb, Hf.
      assert (Es : String.eqb signature
                     (generateHMAC (payload (Bucket.Id bucket)
                                            (File.Id file))
                                   (SignatureSecret settings)) = false)
        by (apply String.eqb_neq; congruence).
      rewrite Es. reflexivity.
Qed.

(** C7, as the code has it.  Validating a stored token after its
    expiry fails with "expired" and leaves the row where it is, so
    validating the same signature again, then or later, fails with
    "expired" again. *)
Theorem validate_expired_keeps_row d signature now row :
  Db.FirstOrDefault (by_signature signature) (SignedURLs d) = Some row ->
  SignedURL.ExpiresAt row < now ->
  validate d signature now = (Err expired, d)
  /\ In row (SignedURLs (snd (validate d signature now)))
  /\ forall later,
      now <= later ->
      validate (snd (validate d signature now)) signature later
      = (Err expired, d).
Proof.
  intros Hrow Hexp.
  assert (H : forall t, now <= t -> validate d signature t = (Err expired, d)).
  { intros t Ht. unfold ValidateSignedURL. rewrite Hrow.
    assert (E : (SignedURL.ExpiresAt row <? t) = true)
      by (apply Z.ltb_lt; lia).
    rewrite E. reflexivity. }
  rewrite (H now (Z.le_refl now)). simpl.
  split; [reflexivity|]. split; [|exact H].
  apply (DbFacts.find_In _ _ _ Hrow).
Qed.

(** Marking a row that is not single-use changes nothing. *)
Lemma mark_multi_use_noop d signature now u s row :
  Db.FirstOrDefault (by_signature signature) (SignedURLs d) = Some row ->
  SignedURL.SingleUse row = false ->
  MarkSignatureAsUsed d signature now u s = (Ok tt, d).
Proof.
  intros Hrow Hm. unfold MarkSignatureAsUsed. rewrite Hrow, Hm.
  reflexivity.
Qed.

Lemma calls_multi_use d signature row cs :
  Db.FirstOrDefault (by_signature signature) (SignedURLs d) = Some row ->
  SignedURL.SingleUse row = false ->
  calls generateHMAC settings d signature cs = d.
Proof.
  intros Hrow Hm. unfold calls.
  induction cs as [|c cs IH]; simpl; [reflexivity|].
  assert (E : call generateHMAC settings d signature c = d).
  { destruct c as [t | t u s]; simpl.
    - apply validate_reads.
    - rewrite (mark_multi_use_noop d signature t u s row Hrow Hm).
      reflexivity. }
  rewrite E. exact IH.
Qed.

(** A consumed single-use row stays consumed under every further
    validate / mark-used call. *)
Lemma consumed_call d signature c :
  consumed d signature ->
  consumed (call generateHMAC settings d signature c) signature.
Proof.
  intros (row & Hrow & Hs & Hu). destruct c as [t | t u s]; simpl.
  - rewrite validate_reads. exists row. auto.
  - unfold MarkSignatureAsUsed. rewrite Hrow, Hs.
    destruct u; simpl; [|exists row; auto].
    destruct s; simpl; [|exists row; auto].
    exists (SignedURL.mark_used t row). split; [|split; reflexivity || exact Hs].
    apply find_Update_row with (row := row); [exact Hrow | reflexivity|].
    unfold by_signature in *. simpl.
    apply (DbFacts.find_In _ _ _ Hrow).
Qed.

Lemma consumed_calls d signature cs :
  consumed d signature ->
  consumed (calls generateHMAC settings d signature cs) signature.
Proof.
  unfold calls. revert d.
  induction cs as [|c cs IH]; intros d H; simpl; [exact H|].
  apply IH, consumed_call, H.
Qed.

Lemma consumed_invalid d signature now :
  consumed d signature ->
  fst (validate d signature now) = Err expired
  \/ fst (validate d signature now) = Err already_used.
Proof.
  intros (row & Hrow & Hs & Hu). unfold ValidateSignedURL.
  rewrite Hrow, Hs, Hu. destruct (_ <? _); [left | right]; reflexivity.
Qed.

(** C8.  For a stored single-use token, validate, then a mark-used
    that goes through, then validate before the expiry ends with
    "already used", and from then on no validate ever succeeds
    again, whatever validate / mark-used calls come in between.
    For a stored token that is not single-use, mark-used answers
    with success and changes nothing (the used flag included), so
    after any sequence of validate / mark-used calls a validate
    answers as it did before, at every time up to the expiry. *)
Theorem single_use_consumed_multi_use_kept d signature row :
  Db.FirstOrDefault (by_signature signature) (SignedURLs d) = Some row ->
  (SignedURL.SingleUse row = true ->
   forall t1 t2 t3,
     let d2 := calls generateHMAC settings d signature
                     [CallValidate t1; CallMarkUsed t2 true true] in
     (~ SignedURL.ExpiresAt row < t3 ->
      fst (validate d2 signature t3) = Err already_used)
     /\ forall cs t,
         is_ok (fst (validate
                       (calls generateHMAC settings d2 signature cs)
                       signature t)) = false)
  /\ (SignedURL.SingleUse row = false ->
      (forall t u s,
          MarkSignatureAsUsed d signature t u s = (Ok tt, d))
      /\ forall cs t0 t,
          is_ok (fst (validate d signature t0)) = true ->
          t <= SignedURL.ExpiresAt row ->
          calls generateHMAC settings d signature cs = d
          /\ validate (calls generateHMAC settings d signature cs)
                      signature t
             = (Ok row, d)).
Proof.
  intros Hrow. split.
  - intros Hs t1 t2 t3 d2.
    assert (Hd2 : Db.FirstOrDefault (by_signature signature) (SignedURLs d2)
                  = Some (SignedURL.mark_used t2 row)).
    { subst d2. unfold calls. simpl. rewrite validate_reads.
      unfold MarkSignatureAsUsed. rewrite Hrow, Hs. simpl.
      apply find_Update_row with (row := row); [exact Hrow | reflexivity|].
      unfold by_signature in *. simpl.
      apply (DbFacts.find_In _ _ _ Hrow). }
    split.
    + intros Hexp. unfold ValidateSignedURL. rewrite Hd2. simpl.
      apply Z.ltb_nlt in Hexp. rewrite Hexp, Hs. reflexivity.
    + intros cs t.
      assert (Hc : consumed d2 signature).
      { exists (SignedURL.mark_used t2 row).
        split; [exact Hd2|]. split; [exact Hs | reflexivity]. }
      destruct (consumed_invalid _ signature t
                  (consumed_calls d2 signature cs Hc)) as [E | E];
        rewrite E; reflexivity.
  - intros Hm. split.
    + intros t u s. apply (mark_multi_use_noop d signature t u s row Hrow Hm).
    + intros cs t0 t Hok Ht.
      rewrite (calls_multi_use d signature row cs Hrow Hm).
      split; [reflexivity|].
      revert Hok. unfold ValidateSignedURL. rewrite Hrow, Hm. simpl.
      destruct (SignedURL.ExpiresAt row <? t0); [discriminate|].
      assert (E : (SignedURL.ExpiresAt row <? t) = false)
        by (apply Z.ltb_nlt; lia).
      rewrite E.
      destruct (Db.FirstOrDefault _ (Buckets d)); [|discriminate].
      destruct (Db.FirstOrDefault _ (Files d)); [|discriminate].
      destruct (String.eqb signature _); [|discriminate].
      reflexivity.
Qed.

End WithHMAC.

(** *** The handler on the sample installation *)


(** Validation on the sample rows: an altered signature is not found,
    and a row whose file was replaced under the same name fails the
    integrity check. *)
Example validate_examples :
  fst (ValidateSignedURL Demo.generateHMAC Demo.settings
         (Demo.token_db [Demo.local_file] [Demo.token false false 100])
         Demo.signature 50)
  = Ok (Demo.token false false 100)
  /\ fst (ValidateSignedURL Demo.generateHMAC Demo.settings
            (Demo.token_db [Demo.local_file] [Demo.token false false 100])
            "hmac[secret][b-1:f-1]" 50)
     = Err not_found
  /\ fst (ValidateSignedURL Demo.generateHMAC Demo.settings
            (Demo.token_db [Demo.replaced_file] [Demo.token false false 100])
            Demo.signature 50)
     = Err integrity_failure.
Proof. vm_compute. repeat split. Qed.

(** C7 fails as stated: the token expired at 100; validating it at 200
    answers "expired", the row is still stored, and the next lookup of
    the same signature answers "expired" again, not "not found". *)
Lemma validate_expired_row_survives_counterexample :
  fst (ValidateSignedURL Demo.generateHMAC Demo.settings
         (Demo.token_db [Demo.local_file] [Demo.token false false 100])
         Demo.signature 200)
  = Err expired
  /\ SignedURLs
       (snd (ValidateSignedURL Demo.generateHMAC Demo.settings
               (Demo.token_db [Demo.local_file] [Demo.token false false 100])
               Demo.signature 200))
     = [Demo.token false false 100]
  /\ fst (ValidateSignedURL Demo.generateHMAC Demo.settings
            (snd (ValidateSignedURL Demo.generateHMAC Demo.settings
                    (Demo.token_db [Demo.local_file]
                                   [Demo.token false false 100])
                    Demo.signature 200))
            Demo.signature 200)
     = Err expired
  /\ Err expired <> @Err SignedURL.t not_found.
Proof.
  vm_compute. repeat split. intros H. discriminate H.
Qed.

Lemma validate_expired_keeps_row_witness :
  ValidateSignedURL Demo.generateHMAC Demo.settings
    (Demo.token_db [Demo.local_file] [Demo.token false false 100])
    Demo.signature 200
  = (Err expired,
     Demo.token_db [Demo.local_file] [Demo.token false false 100]).
Proof.
  destruct (validate_expired_keeps_row
              Demo.generateHMAC Demo.settings
              (Demo.token_db [Demo.local_file] [Demo.token false false 100])
              Demo.signature 200 (Demo.token false false 100))
    as [H _].
  - reflexivity.
  - simpl. lia.
  - exact H.
Defined.

Lemma single_use_consumed_multi_use_kept_witness :
  fst (ValidateSignedURL Demo.generateHMAC Demo.settings
         (calls Demo.generateHMAC Demo.settings
                (Demo.token_db [Demo.local_file] [Demo.token true false 100])
                Demo.signature
                [CallValidate 10; CallMarkUsed 20 true true])
         Demo.signature 30)
  = Err already_used.
Proof.
  destruct (single_use_consumed_multi_use_kept
              Demo.generateHMAC Demo.settings
              (Demo.token_db [Demo.local_file] [Demo.token true false 100])
              Demo.signature (Demo.token true false 100))
    as [Hsingle _].
  - reflexivity.
  - destruct (Hsingle eq_refl 10 20 30) as [H _].
    apply H. simpl. lia.
Defined.

End TokenFacts.

(** ** Node health *)

Module HealthFacts.

Import Health.

Lemma registry_frame_refl n : registry_frame n n.
Proof. unfold registry_frame. repeat split. Qed.

Lemma probed_refl n : probed n n.
Proof. split; [apply registry_frame_refl | right; reflexivity]. Qed.

Lemma pinged_refl n : pinged n n.
Proof. split; [apply registry_frame_refl | reflexivity]. Qed.

Lemma probed_with_health h now n :
  probed n (StorageNode.with_health_and_active h now n).
Proof.
  split; [unfold registry_frame; simpl; repeat split | left; reflexivity].
Qed.

Lemma pinged_with_ping now n : pinged n (StorageNode.with_ping now n).
Proof.
  split; [unfold registry_frame; simpl; repeat split | reflexivity].
Qed.

Lemma Forall2_refl {A} (R : A -> A -> Prop) (l : list A) :
  (forall a, R a a) -> Forall2 R l l.
Proof. intros H. induction l; constructor; auto. Qed.

(** The primary key identifies a row of the table. *)
Lemma key_identifies (table : list StorageNode.t) (n : StorageNode.t) :
  NoDup (map StorageNode.Id table) -> In n table ->
  forall a, In a table -> StorageNode.Id a = StorageNode.Id n -> a = n.
Proof.
  induction table as [|x xs IH]; intros Hnd Hn a Ha Hkey; [contradiction|].
  simpl in Hnd. inversion Hnd as [|? ? Hnotin Hnd']; subst.
  destruct Hn as [-> | Hn], Ha as [-> | Ha].
  - reflexivity.
  - exfalso. apply Hnotin. rewrite <- Hkey. apply in_map, Ha.
  - exfalso. apply Hnotin. rewrite Hkey. apply in_map, Hn.
  - apply IH; assumption.
Qed.

Section Related.

(** A relation between a row and its new version that keeps the
    primary key. *)
Variable R : StorageNode.t -> StorageNode.t -> Prop.
Hypothesis R_key : forall a b, R a b -> StorageNode.Id b = StorageNode.Id a.

Lemma Update_related table cur n r' :
  Forall2 R table cur ->
  (forall a, In a table -> StorageNode.Id a = StorageNode.Id n -> a = n) ->
  R n r' ->
  Forall2 R table (Db.Update StorageNode.Id r' cur).
Proof.
  intros HF. induction HF as [|a b table cur Hab HF IH]; intros Hid Hn;
    simpl; constructor.
  - destruct (String.eqb (StorageNode.Id b) (StorageNode.Id r')) eqn:E;
      [|exact Hab].
    apply String.eqb_eq in E.
    assert (a = n) as ->.
    { apply Hid; [left; reflexivity|].
      rewrite <- (R_key _ _ Hab), E. apply R_key, Hn. }
    exact Hn.
  - apply IH; [|exact Hn]. intros x Hx. apply Hid. right. exact Hx.
Qed.

Lemma UpdateRange_related table :
  NoDup (map StorageNode.Id table) ->
  forall ns rs cur,
    Forall2 R ns rs -> incl ns table -> Forall2 R table cur ->
    Forall2 R table (UpdateRange rs cur).
Proof.
  intros Hnd ns rs cur HF. revert cur. unfold UpdateRange.
  induction HF as [|n r ns rs Hnr HF IH]; intros cur Hincl Hcur; simpl;
    [exact Hcur|].
  apply IH.
  - intros x Hx. apply Hincl. right. exact Hx.
  - apply Update_related with (n := n); [exact Hcur| |exact Hnr].
    apply key_identifies; [exact Hnd|]. apply Hincl. left. reflexivity.
Qed.

End Related.

Lemma probed_key a b : probed a b -> StorageNode.Id b = StorageNode.Id a.
Proof. intros [[H _] _]. exact H. Qed.

Lemma pinged_key a b : pinged a b -> StorageNode.Id b = StorageNode.Id a.
Proof. intros [[H _] _]. exact H. Qed.

Lemma sweep_probed envs nodes :
  forall i, Forall2 probed nodes (map fst (sweep envs i nodes)).
Proof.
  induction nodes as [|n ns IH]; intros i; simpl; constructor.
  - apply probed_with_health.
  - apply IH.
Qed.

Section WithParse.

Variable uuid_Parse : string -> option uuid.

Lemma HealthCheck_frame d nodeIDParam e save_ok :
  let d' := snd (HealthCheck uuid_Parse d nodeIDParam e save_ok) in
  SetupConfigs d' = SetupConfigs d /\ Files d' = Files d
  /\ Buckets d' = Buckets d /\ SignedURLs d' = SignedURLs d.
Proof.
  unfold HealthCheck. repeat break_match; simpl; repeat split.
Qed.

(** C9, as the code has it.  With node ids unique in the registry,
    every health path keeps the number and order of the rows and,
    in every row, the id, name, URL, shared secret, priority,
    capacity and used-storage counter.  The passive ping also keeps
    the active flag; the active probe and the sweep may change it,
    and only by setting it. *)
Theorem health_paths_keep_registry_fields d :
  NoDup (map StorageNode.Id (StorageNodes d)) ->
  (forall nodeIDParam e save_ok,
      Forall2 probed (StorageNodes d)
        (StorageNodes (snd (HealthCheck uuid_Parse d nodeIDParam e save_ok))))
  /\ (forall list_ok envs save_ok,
         Forall2 probed (StorageNodes d)
           (StorageNodes (snd (CheckAllNodesHealth d list_ok envs save_ok))))
  /\ (forall nodeURL authorization xApiKey now save_ok,
         Forall2 pinged (StorageNodes d)
           (StorageNodes
              (snd (Ping d nodeURL authorization xApiKey now save_ok)))).
Proof.
  intros Hnd. split; [|split].
  - intros nodeIDParam e save_ok. unfold HealthCheck.
    destruct (uuid_Parse nodeIDParam) as [nodeID|];
      [|apply Forall2_refl, probed_refl].
    destruct (Db.FirstOrDefault _ (StorageNodes d)) as [n|] eqn:En;
      [|apply Forall2_refl, probed_refl].
    destruct save_ok; [|apply Forall2_refl, probed_refl]. simpl.
    apply Update_related with (n := n).
    + exact probed_key.
    + apply Forall2_refl, probed_refl.
    + apply key_identifies; [exact Hnd|].
      apply (DbFacts.find_In _ _ _ En).
    + apply probed_with_health.
  - intros list_ok envs save_ok. unfold CheckAllNodesHealth.
    destruct list_ok; [|apply Forall2_refl, probed_refl]. simpl.
    destruct save_ok; [|apply Forall2_refl, probed_refl]. simpl.
    apply UpdateRange_related with (ns := StorageNodes d).
    + exact probed_key.
    + exact Hnd.
    + apply sweep_probed.
    + apply incl_refl.
    + apply Forall2_refl, probed_refl.
  - intros nodeURL authorization xApiKey now save_ok. unfold Ping.
    destruct (String.eqb nodeURL ""); [apply Forall2_refl, pinged_refl|].
    destruct (String.eqb _ ""); [apply Forall2_refl, pinged_refl|].
    destruct (Db.FirstOrDefault _ (StorageNodes d)) as [n|] eqn:En;
      [|apply Forall2_refl, pinged_refl].
    destruct save_ok; [|apply Forall2_refl, pinged_refl]. simpl.
    apply Update_related with (n := n).
    + exact pinged_key.
    + apply Forall2_refl, pinged_refl.
    + apply key_identifies; [exact Hnd|].
      apply (DbFacts.find_In _ _ _ En).
    + apply pinged_with_ping.
Qed.

End WithParse.

(** C9 fails as stated: a node registered inactive is active after a
    sweep, and after an active probe; only the ping leaves the flag
    alone. *)
Lemma health_check_sets_active_counterexample :
  map StorageNode.IsActive
      (StorageNodes (Demo.node_db [Demo.large_node; Demo.inactive_node]))
  = [true; false]
  /\ map StorageNode.IsActive
         (StorageNodes
            (snd (CheckAllNodesHealth
                    (Demo.node_db [Demo.large_node; Demo.inactive_node])
                    true Demo.probe_ok true)))
     = [true; true]
  /\ map StorageNode.IsActive
         (StorageNodes
            (snd (HealthCheck Demo.uuid_Parse
                    (Demo.node_db [Demo.large_node; Demo.inactive_node])
                    "n-3" (Demo.probe_ok 0) true)))
     = [true; true]
  /\ map StorageNode.IsActive
         (StorageNodes
            (snd (Ping (Demo.node_db [Demo.large_node; Demo.inactive_node])
                       "http://n3" "Bearer key-3" "" 1000 true)))
     = [true; false].
Proof. vm_compute. repeat split. Qed.

Lemma health_paths_keep_registry_fields_witness :
  Forall2 probed
    (StorageNodes (Demo.node_db [Demo.large_node; Demo.inactive_node]))
    (StorageNodes
       (snd (CheckAllNodesHealth
               (Demo.node_db [Demo.large_node; Demo.inactive_node])
               true Demo.probe_ok true))).
Proof.
  destruct (health_paths_keep_registry_fields
              Demo.uuid_Parse
              (Demo.node_db [Demo.large_node; Demo.inactive_node]))
    as (_ & Hsweep & _).
  - simpl. repeat constructor; simpl; intuition discriminate.
  - apply Hsweep.
Defined.

End HealthFacts.

(** ** Serving a file *)

Module ServeFacts.

Import Serve.

Section WithCrypto.

Variable generateHMAC : string -> string -> string.
Variable settings : Token.Settings.
Variable uuid_Parse : string -> option uuid.

Local Abbreviation validate :=
  (Token.ValidateSignedURL generateHMAC settings).

Lemma validate_ok_row d signature now row :
  fst (validate d signature now) = Ok row ->
  Db.FirstOrDefault (Token.by_signature signature) (SignedURLs d)
  = Some row.
Proof.
  unfold Token.ValidateSignedURL.
  destruct (Db.FirstOrDefault _ (SignedURLs d)) as [r|]; [|discriminate].
  repeat (break_match; try discriminate). simpl.
  intros H. inversion H. reflexivity.
Qed.

(** The authentication block lets a valid unused single-use token
    through and has marked it used when it returns. *)
Lemma authenticate_consumes d req env row :
  signature req <> "" ->
  fst (validate d (signature req) (now_validate env)) = Ok row ->
  SignedURL.SingleUse row = true ->
  SignedURL.Used row = false ->
  mark_update_ok env = true ->
  mark_save_ok env = true ->
  authenticate generateHMAC settings d req env
  = (None,
     set_SignedURLs
       (Db.Update SignedURL.ID (SignedURL.mark_used (now_mark env) row)
                  (SignedURLs d)) d)
  /\ Token.consumed
       (snd (authenticate generateHMAC settings d req env))
       (signature req).
Proof.
  intros Hsig Hval Hs Hu Hup Hsave.
  pose proof (validate_ok_row _ _ _ _ Hval) as Hrow.
  pose proof (TokenFacts.validate_reads generateHMAC settings d
                (signature req) (now_validate env)) as Hread.
  assert (Hauth : authenticate generateHMAC settings d req env
                  = (None,
                     set_SignedURLs
                       (Db.Update SignedURL.ID
                          (SignedURL.mark_used (now_mark env) row)
                          (SignedURLs d)) d)).
  { unfold authenticate. apply String.eqb_neq in Hsig. rewrite Hsig. simpl.
    destruct (validate d (signature req) (now_validate env)) as [r d1].
    simpl in Hval, Hread. subst r d1. rewrite Hs, Hu. simpl.
    unfold Token.MarkSignatureAsUsed. rewrite Hrow, Hs, Hup, Hsave.
    reflexivity. }
  split; [exact Hauth|]. rewrite Hauth. simpl.
  exists (SignedURL.mark_used (now_mark env) row). simpl.
  split; [|split; [exact Hs | reflexivity]].
  apply TokenFacts.find_Update_row with (row := row);
    [exact Hrow | reflexivity|].
  apply (DbFacts.find_In _ _ _ Hrow).
Qed.

Lemma fetch_fails_error d nodeID env :
  fetch_fails (fetch_reply env) ->
  exists m, fetchFileFromNode uuid_Parse d nodeID env = Err m.
Proof.
  intros H. unfold fetchFileFromNode.
  destruct (uuid_Parse nodeID); [|eexists; reflexivity].
  destruct (Db.FirstOrDefault _ _); [|eexists; reflexivity].
  destruct (fetch_reply env) as [|code data]; [eexists; reflexivity|].
  simpl in H. destruct (code =? 200) eqn:E; simpl; [|eexists; reflexivity].
  apply Z.eqb_eq in E. destruct H as [H | ->]; [contradiction|].
  eexists; reflexivity.
Qed.

Lemma sendOriginal_fetch_fails w fileInfo env :
  Upload.stored_on_node (File.Path fileInfo) = true ->
  (3 <= List.length
          (Strings.Split
             (Strings.TrimPrefix (File.Path fileInfo) "node://")
             "/"%char))%nat ->
  fetch_fails (fetch_reply env) ->
  exists m,
    sendOriginal uuid_Parse w fileInfo env
    = mkHttp 500
        (ErrorBody ("Failed to fetch file from storage node: " ++ m)).
Proof.
  intros Hnode Hparts Hfail. unfold sendOriginal.
  unfold Upload.stored_on_node in Hnode. rewrite Hnode.
  apply Nat.leb_le in Hparts. rewrite Hparts.
  destruct (fetch_fails_error (db w)
              (nth 0 (Strings.Split
                        (Strings.TrimPrefix (File.Path fileInfo) "node://")
                        "/"%char) "") env Hfail) as [m Hm].
  rewrite Hm. exists m. reflexivity.
Qed.

(** C10.  A request that presents a valid, unused single-use token
    for an object stored on a node gets the token marked used before
    the bytes are fetched: when the fetch from the node fails the
    answer is a 500 error, the token's row is used all the same, and
    no later validate of that signature succeeds, whatever validate
    or mark-used calls are made. *)
Theorem single_use_token_consumed_when_fetch_fails
        w req env bucketID fileID file bucket row :
  uuid_Parse (bucketIdParam req) = Some bucketID ->
  uuid_Parse (fileIdParam req) = Some fileID ->
  Db.FirstOrDefault (file_of fileID bucketID) (Files (db w)) = Some file ->
  Db.FirstOrDefault (fun b => String.eqb (Bucket.Id b) bucketID)
                    (Buckets (db w)) = Some bucket ->
  Bucket.PublicRead bucket = false ->
  signature req <> "" ->
  fst (validate (snd (GetFile (db w) fileID bucketID env))
                (signature req) (now_validate env)) = Ok row ->
  SignedURL.SingleUse row = true ->
  SignedURL.Used row = false ->
  mark_update_ok env = true ->
  mark_save_ok env = true ->
  Upload.stored_on_node (File.Path file) = true ->
  (3 <= List.length
          (Strings.Split (Strings.TrimPrefix (File.Path file) "node://")
                         "/"%char))%nat ->
  disk_read (File.Path file) (disk w) = None ->
  fetch_fails (fetch_reply env) ->
  (exists m,
      fst (ServeFile generateHMAC settings uuid_Parse w req env)
      = mkHttp 500
          (ErrorBody ("Failed to fetch file from storage node: " ++ m)))
  /\ Token.consumed
       (db (snd (ServeFile generateHMAC settings uuid_Parse w req env)))
       (signature req)
  /\ forall cs t,
      is_ok (fst (validate
                    (Token.calls generateHMAC settings
                       (db (snd (ServeFile generateHMAC settings
                                           uuid_Parse w req env)))
                       (signature req) cs)
                    (signature req) t)) = false.
Proof.
  intros Hpb Hpf Hfile Hbucket Hpriv Hsig Hval Hs Hu Hup Hsave
         Hnode Hparts Hdisk Hfail.
  assert (Hserve :
            exists m d2,
              ServeFile generateHMAC settings uuid_Parse w req env
              = (mkHttp 500
                   (ErrorBody
                      ("Failed to fetch file from storage node: " ++ m)),
                 set_db d2 w)
              /\ Token.consumed d2 (signature req)).
  { unfold ServeFile. rewrite Hpb, Hpf.
    unfold GetFile in *. rewrite Hfile in *. simpl in Hval.
    remember (if touch_ok env
              then set_Files
                     (Db.Update File.Id
                        (File.with_AccessedAt (Some (now_access env)) file)
                        (Files (db w))) (db w)
              else db w) as d1 eqn:Ed1.
    assert (HB : Buckets d1 = Buckets (db w))
      by (subst d1; destruct (touch_ok env); reflexivity).
    rewrite HB, Hbucket, Hpriv. simpl.
    destruct (authenticate_consumes d1 req env row Hsig Hval Hs Hu Hup Hsave)
      as [Hauth Hcons].
    rewrite Hauth in Hcons |- *. simpl in Hcons.
    set (d2 := set_SignedURLs _ d1) in *.
    destruct (sendOriginal_fetch_fails (set_db d2 w)
                (File.with_AccessedAt (Some (now_access env)) file) env
                Hnode Hparts Hfail) as [m Hm].
    exists m, d2. split; [|exact Hcons].
    destruct (if negb (String.eqb (resolution req) "")
              then preset (resolution req) (width req) (height req)
              else (width req, height req)) as [wd ht].
    unfold processImage. simpl. rewrite Hdisk.
    destruct (_ && _)%bool; rewrite Hm; reflexivity. }
  destruct Hserve as (m & d2 & Hserve & Hcons). rewrite Hserve. simpl.
  split; [exists m; reflexivity|]. split; [exact Hcons|].
  intros cs t.
  destruct (TokenFacts.consumed_invalid generateHMAC settings _
              (signature req) t
              (TokenFacts.consumed_calls generateHMAC settings d2
                 (signature req) cs Hcons)) as [E | E];
    rewrite E; reflexivity.
Qed.

End WithCrypto.

Lemma single_use_token_consumed_when_fetch_fails_witness :
  status (fst (ServeFile Demo.generateHMAC Demo.settings Demo.uuid_Parse
                         (Demo.serve_world [Demo.token true false 100])
                         Demo.signed_request Demo.env_node_down)) = 500
  /\ Token.consumed
       (db (snd (ServeFile Demo.generateHMAC Demo.settings Demo.uuid_Parse
                           (Demo.serve_world [Demo.token true false 100])
                           Demo.signed_request Demo.env_node_down)))
       Demo.signature.
Proof.
  destruct (single_use_token_consumed_when_fetch_fails
              Demo.generateHMAC Demo.settings Demo.uuid_Parse
              (Demo.serve_world [Demo.token true false 100])
              Demo.signed_request Demo.env_node_down
              "b-1" "f-0" Demo.remote_file Demo.bucket
              (Demo.token true false 100))
    as ((m & Hm) & Hcons & _);
    try reflexivity.
  - intros H. discriminate H.
  - split; [rewrite Hm; reflexivity | exact Hcons].
Defined.

End ServeFacts.

(** * Further properties of the handlers *)

(** ** Placement *)

Module PlacementMore.

Import Upload.

Section WithHash.

Variable sha256_hex : string -> string.

(** When the master is full and the registry offers no candidate with
    room (no active and healthy node, or the first one lacks the space),
    the upload is refused and nothing at all has happened: no request
    sent, nothing written, no row touched. *)
Theorem no_candidate_leaves_world_untouched w cmd env masterConfig :
  config_query_ok env = true ->
  sum_query_ok env = true ->
  Db.FirstOrDefault is_master (SetupConfigs (db w)) = Some masterConfig ->
  masterFreeSpace masterConfig (db w) < FileSize cmd ->
  match Db.FirstOrDefault eligible (StorageNodes (db w)) with
  | None => True
  | Some n =>
      Int64.sub (StorageNode.MaxStorage n) (StorageNode.UsedStorage n)
      < FileSize cmd
  end ->
  exists m, Handle sha256_hex w cmd env = (Err m, w).
Proof.
  intros Hc Hs Hm Hfree Hcand. unfold Handle. rewrite Hc, Hs, Hm. simpl.
  apply Z.ltb_lt in Hfree. rewrite Hfree. unfold placeOnNode.
  destruct (Db.FirstOrDefault eligible (StorageNodes (db w))) as [n|].
  - apply Z.ltb_lt in Hcand. rewrite Hcand. eexists. reflexivity.
  - eexists. reflexivity.
Qed.

(** When the chosen node does not accept the write (transport error, or
    any status other than 200 and 201, other 2xx included), the upload
    fails: there is no local fallback, so the database and the master's
    disk are as before. *)
Theorem rejected_remote_write_aborts w cmd env masterConfig :
  config_query_ok env = true ->
  sum_query_ok env = true ->
  Db.FirstOrDefault is_master (SetupConfigs (db w)) = Some masterConfig ->
  masterFreeSpace masterConfig (db w) < FileSize cmd ->
  accepted (node_reply env) = false ->
  (exists m, fst (Handle sha256_hex w cmd env) = Err m)
  /\ db (snd (Handle sha256_hex w cmd env)) = db w
  /\ disk (snd (Handle sha256_hex w cmd env)) = disk w.
Proof.
  intros Hc Hs Hm Hfree Hrej. unfold Handle. rewrite Hc, Hs, Hm. simpl.
  apply Z.ltb_lt in Hfree. rewrite Hfree. clear Hfree.
  unfold placeOnNode, uploadToNode.
  destruct (Db.FirstOrDefault eligible _) as [n|];
    [|simpl; split; [eexists; reflexivity | split; reflexivity]].
  destruct (Int64.sub (StorageNode.MaxStorage n) (StorageNode.UsedStorage n)
            <? FileSize cmd);
    [simpl; split; [eexists; reflexivity | split; reflexivity]|].
  destruct (read_body env);
    [|simpl; split; [eexists; reflexivity | split; reflexivity]].
  destruct (Db.FirstOrDefault (bucket_of cmd) _);
    [|simpl; split; [eexists; reflexivity | split; reflexivity]].
  destruct (node_reply env) as [|code];
    [simpl; split; [eexists; reflexivity | split; reflexivity]|].
  simpl in Hrej. rewrite Hrej. simpl.
  split; [eexists; reflexivity | split; reflexivity].
Qed.

Lemma SumField_app (rows : list File.t) (f : File.t) :
  Db.SumField File.Size (rows ++ [f])%list
  = Db.SumField File.Size rows + File.Size f.
Proof.
  unfold Db.SumField. induction rows as [|x xs IH]; simpl; lia.
Qed.

Lemma Handle_ok_size w cmd env resp :
  fst (Handle sha256_hex w cmd env) = Ok resp ->
  File.Size (Resp_File resp) = FileSize cmd.
Proof.
  unfold Handle, createRecord.
  repeat (break_match; simpl in *; try discriminate); inv_pair;
    intros H; inversion H; reflexivity.
Qed.

Lemma Handle_ok_files w cmd env resp :
  fst (Handle sha256_hex w cmd env) = Ok resp ->
  Files (db (snd (Handle sha256_hex w cmd env)))
  = (Files (db w) ++ [Resp_File resp])%list.
Proof.
  unfold Handle.
  destruct (config_query_ok env); simpl; [|discriminate].
  destruct (Db.FirstOrDefault is_master _) as [cfg|]; [|discriminate].
  destruct (sum_query_ok env); simpl; [|discriminate].
  destruct (masterFreeSpace cfg (db w) <? FileSize cmd).
  - pose proof (UploadFacts.placeOnNode_frame w cmd env
                  (masterFreeSpace cfg (db w))) as (Hf & _).
    destruct (placeOnNode w cmd env (masterFreeSpace cfg (db w)))
      as [[sn|m|] w1]; simpl in *; try discriminate.
    intros H.
    destruct (UploadFacts.createRecord_frame sha256_hex w1 cmd env cfg
                (Some sn)) as (_ & _ & _ & Hok).
    destruct (Hok resp H) as [Hfiles _]. rewrite Hfiles, Hf. reflexivity.
  - intros H.
    destruct (UploadFacts.createRecord_frame sha256_hex w cmd env cfg None)
      as (_ & _ & _ & Hok).
    apply (Hok resp H).
Qed.

(** Every successful upload, to a node as much as to the local disk,
    lowers the free-space figure the next placement decision uses by
    the object's size (as long as the 64-bit arithmetic does not
    wrap). *)
Theorem every_upload_lowers_master_free_space w cmd env masterConfig resp :
  fst (Handle sha256_hex w cmd env) = Ok resp ->
  Int64.in_range (Db.SumField File.Size (Files (db w))) ->
  Int64.in_range (Db.SumField File.Size (Files (db w)) + FileSize cmd) ->
  Int64.in_range (SetupConfig.MaxStorage masterConfig
                  - Db.SumField File.Size (Files (db w))) ->
  Int64.in_range (SetupConfig.MaxStorage masterConfig
                  - Db.SumField File.Size (Files (db w)) - FileSize cmd) ->
  masterFreeSpace masterConfig (db (snd (Handle sha256_hex w cmd env)))
  = masterFreeSpace masterConfig (db w) - FileSize cmd.
Proof.
  intros Hok H1 H2 H3 H4.
  pose proof (Handle_ok_files w cmd env resp Hok) as Hf.
  unfold masterFreeSpace, Int64.sub. rewrite Hf, SumField_app.
  rewrite (Handle_ok_size w cmd env resp Hok).
  rewrite (Int64Facts.wrap_in_range _ H2), (Int64Facts.wrap_in_range _ H1).
  rewrite (Int64Facts.wrap_in_range _ H3).
  replace (SetupConfig.MaxStorage masterConfig
           - (Db.SumField File.Size (Files (db w)) + FileSize cmd))
    with (SetupConfig.MaxStorage masterConfig
          - Db.SumField File.Size (Files (db w)) - FileSize cmd) by lia.
  apply Int64Facts.wrap_in_range. exact H4.
Qed.

End WithHash.

Lemma no_candidate_leaves_world_untouched_witness :
  exists m,
    Handle Demo.sha256_hex
           (Demo.world [Demo.local_file] [Demo.inactive_node])
           (Demo.upload 20) (Demo.env_ok "f-1")
    = (Err m, Demo.world [Demo.local_file] [Demo.inactive_node]).
Proof.
  apply (no_candidate_leaves_world_untouched
           Demo.sha256_hex
           (Demo.world [Demo.local_file] [Demo.inactive_node])
           (Demo.upload 20) (Demo.env_ok "f-1") Demo.master);
    reflexivity.
Defined.

Lemma rejected_remote_write_aborts_witness :
  db (snd (Handle Demo.sha256_hex
                  (Demo.world [Demo.local_file] [Demo.large_node])
                  (Demo.upload 20) (Samples.env_reply "f-1" (Status 204))))
  = db (Demo.world [Demo.local_file] [Demo.large_node]).
Proof.
  apply (rejected_remote_write_aborts
           Demo.sha256_hex
           (Demo.world [Demo.local_file] [Demo.large_node])
           (Demo.upload 20) (Samples.env_reply "f-1" (Status 204))
           Demo.master);
    reflexivity.
Defined.

Lemma every_upload_lowers_master_free_space_witness :
  masterFreeSpace Demo.master
    (db (snd (Handle Demo.sha256_hex
                     (Demo.world [Demo.local_file] [Demo.large_node])
                     (Demo.upload 20) (Demo.env_ok "f-1"))))
  = masterFreeSpace Demo.master
      (db (Demo.world [Demo.local_file] [Demo.large_node])) - 20.
Proof.
  eapply (every_upload_lowers_master_free_space
            Demo.sha256_hex
            (Demo.world [Demo.local_file] [Demo.large_node])
            (Demo.upload 20) (Demo.env_ok "f-1") Demo.master).
  - vm_compute. reflexivity.
  - vm_compute. split; discriminate.
  - vm_compute. split; discriminate.
  - vm_compute. split; discriminate.
  - vm_compute. split; discriminate.
Defined.

End PlacementMore.

(** ** The node path format and what the readers make of it *)

Module NodePathFacts.

Import Upload.

Lemma substring_all (s : string) : substring 0 (String.length s) s = s.
Proof. induction s as [|c s IH]; simpl; [reflexivity | rewrite IH; reflexivity]. Qed.

Lemma TrimPrefix_node_path (node bucket file : uuid) :
  Strings.TrimPrefix (node_path node bucket file) "node://"
  = node ++ "/" ++ bucket ++ "/" ++ file.
Proof.
  unfold Strings.TrimPrefix.
  pose proof (UploadFacts.stored_on_node_node_path node bucket file) as H.
  unfold stored_on_node in H. rewrite H.
  unfold node_path. simpl. rewrite Nat.sub_0_r. apply substring_all.
Qed.

Lemma Split_nonempty (s : string) (sep : ascii) :
  (1 <= List.length (Strings.Split s sep))%nat.
Proof.
  induction s as [|c s IH]; simpl; [lia|].
  destruct (Ascii.eqb c sep); simpl; [lia|].
  destruct (Strings.Split s sep); simpl in *; lia.
Qed.

Lemma Split_single_part (s : string) :
  Filepath.no_slash s = true -> Strings.Split s Filepath.slash = [s].
Proof.
  induction s as [|c s IH]; simpl; [reflexivity|].
  intros H. apply andb_prop in H as [Hc Hs]. apply negb_true_iff in Hc.
  rewrite Hc, (IH Hs). reflexivity.
Qed.

Lemma Split_component (x rest : string) :
  Filepath.no_slash x = true ->
  Strings.Split (x ++ "/" ++ rest) Filepath.slash
  = x :: Strings.Split rest Filepath.slash.
Proof.
  induction x as [|c x IH]; simpl in *; [reflexivity|].
  intros H. apply andb_prop in H as [Hc Hx]. apply negb_true_iff in Hc.
  rewrite Hc, (IH Hx). reflexivity.
Qed.

(** The path the upload handler records for a node-stored object is
    read back by ServeFile and DeleteFile as written: for ids without a
    slash, splitting the path after its [node://] prefix gives at least
    three parts, the node id first and the bucket id second, and exactly
    the three ids when the file id has no slash either. *)
Theorem node_path_parts (node bucket file : uuid) :
  Filepath.no_slash node = true ->
  Filepath.no_slash bucket = true ->
  stored_on_node (node_path node bucket file) = true
  /\ (3 <= List.length
            (Strings.Split
               (Strings.TrimPrefix (node_path node bucket file) "node://")
               "/"%char))%nat
  /\ nth 0 (Strings.Split
              (Strings.TrimPrefix (node_path node bucket file) "node://")
              "/"%char) "" = node
  /\ nth 1 (Strings.Split
              (Strings.TrimPrefix (node_path node bucket file) "node://")
              "/"%char) "" = bucket
  /\ (Filepath.no_slash file = true ->
      Strings.Split
        (Strings.TrimPrefix (node_path node bucket file) "node://")
        "/"%char = [node; bucket; file]).
Proof.
  intros Hn Hb. split; [apply UploadFacts.stored_on_node_node_path|].
  rewrite TrimPrefix_node_path.
  change "/"%char with Filepath.slash.
  rewrite (Split_component node _ Hn), (Split_component bucket _ Hb).
  pose proof (Split_nonempty file Filepath.slash) as Hlen.
  simpl. repeat split; try reflexivity; [lia|].
  intros Hf. rewrite (Split_single_part file Hf). reflexivity.
Qed.

Lemma node_path_parts_witness :
  Strings.Split (Strings.TrimPrefix (node_path "n-2" "b-1" "f-1") "node://")
                "/"%char
  = ["n-2"; "b-1"; "f-1"].
Proof.
  destruct (node_path_parts "n-2" "b-1" "f-1") as (_ & _ & _ & _ & H).
  - reflexivity.
  - reflexivity.
  - apply H. reflexivity.
Defined.

End NodePathFacts.

(** ** Uploading, then serving *)

Module UploadThenServe.

Import Upload.

Section WithCrypto.

Variable sha256_hex : string -> string.
Variable generateHMAC : string -> string -> string.
Variable settings : Token.Settings.
Variable uuid_Parse : string -> option uuid.

(** What a successful record creation has stored. *)
Lemma createRecord_ok_record w cmd env cfg sn resp :
  fst (createRecord sha256_hex w cmd env cfg sn) = Ok resp ->
  File.Id (Resp_File resp) = fileID env
  /\ File.BucketId (Resp_File resp) = BucketID cmd
  /\ File.MimeType (Resp_File resp) = ContentType cmd
  /\ Db.FirstOrDefault (fun f => String.eqb (File.Id f) (fileID env))
                       (Files (db w)) = None
  /\ Buckets (db (snd (createRecord sha256_hex w cmd env cfg sn)))
     = Buckets (db w)
  /\ (exists bucket,
         Db.FirstOrDefault (bucket_of cmd) (Buckets (db w)) = Some bucket)
  /\ match sn with
     | Some s =>
         File.Path (Resp_File resp)
         = node_path (ID s) (BucketID cmd) (fileID env)
     | None => True
     end.
Proof.
  unfold createRecord.
  destruct (Db.FirstOrDefault (bucket_of cmd) (Buckets (db w)))
    as [bucket|] eqn:Eb; [|discriminate].
  pose proof (UploadFacts.storeBytes_frame sha256_hex w cmd env cfg bucket sn)
    as [Hdb _].
  destruct (storeBytes sha256_hex w cmd env cfg bucket sn)
    as [[[filePath checksum]| |] w1] eqn:Es; simpl in *; try discriminate.
  destruct (marshal_ok env); simpl; [|discriminate].
  destruct (save_file_ok env); simpl; [|discriminate].
  destruct (Db.Add _ _ (Files (db w1))) as [files'|] eqn:EA; simpl;
    [|discriminate].
  intros H. inversion H; subst; clear H. simpl.
  rewrite Hdb in *.
  split; [reflexivity|]. split; [reflexivity|]. split; [reflexivity|].
  split.
  { unfold Db.Add in EA. simpl in EA.
    destruct (existsb _ (Files (db w))) eqn:E; [discriminate|].
    apply TokenFacts.find_none_iff. intros f Hf.
    destruct (String.eqb (File.Id f) (fileID env)) eqn:Ef; [|reflexivity].
    assert (existsb (fun r => String.eqb (File.Id r) (fileID env))
                    (Files (db w)) = true) as Hc
        by (apply existsb_exists; exists f; split; assumption).
    congruence. }
  split; [reflexivity|]. split; [exists bucket; reflexivity|].
  destruct sn as [s|]; [|exact I].
  unfold storeBytes in Es. inversion Es. reflexivity.
Qed.


Lemma find_new_file (files : list File.t) (file : File.t) fileID bucketID :
  Db.FirstOrDefault (fun f => String.eqb (File.Id f) fileID) files = None ->
  File.Id file = fileID -> File.BucketId file = bucketID ->
  Db.FirstOrDefault (Serve.file_of fileID bucketID) (files ++ [file])%list
  = Some file.
Proof.
  intros Hnone Hid Hb. unfold Db.FirstOrDefault.
  rewrite TokenFacts.find_app_none.
  - simpl. unfold Serve.file_of. rewrite Hid, Hb, !String.eqb_refl.
    reflexivity.
  - apply TokenFacts.find_none_iff. intros f Hf. unfold Serve.file_of.
    rewrite (find_none _ _ Hnone f Hf). reflexivity.
Qed.


End WithCrypto.


End UploadThenServe.

Module UploadThenFetch.

Import Upload.


Section WithCrypto.

Variable sha256_hex : string -> string.
Variable generateHMAC : string -> string -> string.
Variable settings : Token.Settings.
Variable uuid_Parse : string -> option uuid.



End WithCrypto.


End UploadThenFetch.

(** ** Signed URLs: issue, validate, consume *)

Module TokenMore.

Import Token.

Section WithHMAC.

Variable generateHMAC : string -> string -> string.
Variable settings : Settings.

Local Abbreviation validate := (ValidateSignedURL generateHMAC settings).
Local Abbreviation issue := (Handle generateHMAC settings).
Local Abbreviation signature_of := (Token.signature_of generateHMAC settings).

(** Round trip.  A first issue for an object (no row under its signature
    yet) yields a signature that validates at once and at every time up
    to the expiry, provided the names stored in the row lead back to the
    object: the bucket found by its name is the issued bucket and the
    first file of that name in it is the issued file. *)
Theorem validate_after_first_issue d command env resp d1 bucket file now :
  issue d command env = (Ok resp, d1) ->
  Db.FirstOrDefault (by_signature (signature_of command)) (SignedURLs d)
  = None ->
  Db.FirstOrDefault
    (fun f => (String.eqb (File.Id f) (FileID command)
               && String.eqb (File.BucketId f) (BucketID command))%bool)
    (Files d) = Some file ->
  Db.FirstOrDefault (fun b => String.eqb (Bucket.Id b) (BucketID command))
                    (Buckets d) = Some bucket ->
  Db.FirstOrDefault (fun b => String.eqb (Bucket.Name b) (Bucket.Name bucket))
                    (Buckets d) = Some bucket ->
  Db.FirstOrDefault
    (fun f => (String.eqb (File.Name f) (File.Name file)
               && String.eqb (File.BucketId f) (Bucket.Id bucket))%bool)
    (Files d) = Some file ->
  now <= ExpiresAt resp ->
  exists row,
    validate d1 (signature_of command) now = (Ok row, d1)
    /\ SignedURL.SingleUse row = SingleUse command
    /\ SignedURL.Used row = false
    /\ SignedURL.ExpiresAt row = ExpiresAt resp.
Proof.
  intros Hissue Hnone Hfile Hbucket Hbname Hfname Hnow.
  assert (Hbid : Bucket.Id bucket = BucketID command).
  { destruct (DbFacts.find_In _ _ _ Hbucket) as [_ H].
    apply String.eqb_eq in H. exact H. }
  assert (Hfid : File.Id file = FileID command).
  { destruct (DbFacts.find_In _ _ _ Hfile) as [_ H].
    apply andb_prop in H as [H _]. apply String.eqb_eq in H. exact H. }
  revert Hissue. unfold Handle. rewrite Hfile, Hbucket.
  fold (signature_of command). rewrite Hnone.
  destruct (store_ok env); [|discriminate].
  destruct (Db.Add _ _ (SignedURLs d)) as [rows|] eqn:EA; [|discriminate].
  intros H. inversion H; subst; clear H. simpl in *.
  apply TokenFacts.Add_then_find in EA. simpl in EA.
  eexists. unfold ValidateSignedURL. simpl. rewrite EA. simpl.
  assert (E : (now_issue env + Int64.wrap (ExpiresIn command * Second) <? now)
              = false) by (apply Z.ltb_nlt; lia).
  rewrite E, andb_false_r, Hbname, Hfname, Hbid, Hfid.
  fold (signature_of command). rewrite String.eqb_refl. simpl.
  repeat split.
Qed.

Lemma existsb_none {A} (p : A -> bool) (l : list A) :
  (forall x, In x l -> p x = false) -> existsb p l = false.
Proof.
  intros H. induction l as [|x xs IH]; simpl; [reflexivity|].
  rewrite (H x (or_introl eq_refl)). apply IH.
  intros y Hy. apply H. right. exact Hy.
Qed.

(** Re-issue after expiry.  When the row under the signature has expired
    at the time of the request, the issue deletes it and inserts a fresh
    row: unused, with the flags and ttl of the new request.  A
    single-use token that had been consumed is thereby usable again. *)
Theorem issue_after_expiry_replaces_row d command env file bucket existing :
  Db.FirstOrDefault
    (fun f => (String.eqb (File.Id f) (FileID command)
               && String.eqb (File.BucketId f) (BucketID command))%bool)
    (Files d) = Some file ->
  Db.FirstOrDefault (fun b => String.eqb (Bucket.Id b) (BucketID command))
                    (Buckets d) = Some bucket ->
  Db.FirstOrDefault (by_signature (signature_of command)) (SignedURLs d)
  = Some existing ->
  SignedURL.ExpiresAt existing <= now_check env ->
  remove_ok env = true ->
  store_ok env = true ->
  (forall r, In r (SignedURLs d) ->
             SignedURL.ID r <> SignedURL.ID existing ->
             SignedURL.ID r <> new_id env
             /\ SignedURL.Signature r <> signature_of command) ->
  let fresh :=
    SignedURL.mk (new_id env) (signature_of command) (Bucket.Name bucket)
                 (File.Name file) "GET"
                 (now_issue env + Int64.wrap (ExpiresIn command * Second))
                 (SingleUse command) false None in
  is_ok (fst (issue d command env)) = true
  /\ SignedURLs (snd (issue d command env))
     = (Db.Remove SignedURL.ID existing (SignedURLs d) ++ [fresh])%list
  /\ Db.FirstOrDefault (by_signature (signature_of command))
                       (SignedURLs (snd (issue d command env)))
     = Some fresh.
Proof.
  intros Hfile Hbucket Hrow Hexp Hrm Hst Huniq fresh.
  unfold Handle. rewrite Hfile, Hbucket.
  fold (signature_of command). rewrite Hrow.
  assert (E : (now_check env <? SignedURL.ExpiresAt existing) = false)
    by (apply Z.ltb_nlt; lia).
  rewrite E, Hrm, Hst. simpl.
  assert (EA : Db.Add [SignedURL.ID; SignedURL.Signature] fresh
                      (Db.Remove SignedURL.ID existing (SignedURLs d))
               = Some (Db.Remove SignedURL.ID existing (SignedURLs d)
                         ++ [fresh])%list).
  { unfold Db.Add. simpl.
    rewrite (existsb_none (fun r => String.eqb (SignedURL.ID r) (new_id env))).
    - rewrite (existsb_none
                 (fun r => String.eqb (SignedURL.Signature r)
                                      (signature_of command)));
        [reflexivity|].
      intros r Hin. unfold Db.Remove in Hin.
      apply filter_In in Hin as [Hin Hne].
      apply negb_true_iff, String.eqb_neq in Hne.
      apply String.eqb_neq. apply (Huniq r Hin Hne).
    - intros r Hin. unfold Db.Remove in Hin.
      apply filter_In in Hin as [Hin Hne].
      apply negb_true_iff, String.eqb_neq in Hne.
      apply String.eqb_neq. apply (Huniq r Hin Hne). }
  fold fresh. rewrite EA. simpl.
  split; [reflexivity|]. split; [reflexivity|].
  apply (TokenFacts.Add_then_find fresh _ _ EA).
Qed.

(** An issue does not look at the used flag: while a consumed
    single-use row is still unexpired, a new issue for the object
    answers with success and that row's URL, although every validate of
    its signature up to the expiry fails with "already used". *)
Theorem issue_hands_out_consumed_token d command env file bucket existing :
  Db.FirstOrDefault
    (fun f => (String.eqb (File.Id f) (FileID command)
               && String.eqb (File.BucketId f) (BucketID command))%bool)
    (Files d) = Some file ->
  Db.FirstOrDefault (fun b => String.eqb (Bucket.Id b) (BucketID command))
                    (Buckets d) = Some bucket ->
  Db.FirstOrDefault (by_signature (signature_of command)) (SignedURLs d)
  = Some existing ->
  SignedURL.SingleUse existing = true ->
  SignedURL.Used existing = true ->
  now_check env < SignedURL.ExpiresAt existing ->
  issue d command env
  = (Ok (mkResponse
           (signed_url (BaseURL settings) (BucketID command)
                       (FileID command) (signature_of command))
           (SignedURL.ExpiresAt existing) true
           "Existing signed URL returned"), d)
  /\ forall now,
      now <= SignedURL.ExpiresAt existing ->
      validate d (signature_of command) now = (Err already_used, d).
Proof.
  intros Hfile Hbucket Hrow Hs Hu Hvalid. split.
  - apply (TokenFacts.issue_returns_existing generateHMAC settings d command
             env file bucket existing); assumption.
  - intros now Hnow. unfold ValidateSignedURL. rewrite Hrow, Hs, Hu.
    assert (E : (SignedURL.ExpiresAt existing <? now) = false)
      by (apply Z.ltb_nlt; lia).
    rewrite E. reflexivity.
Qed.

(** The file info returned for a signature is always a bucket and a
    file whose ids sign to that very signature, and it is returned
    exactly when the signature validates. *)
Theorem file_info_matches_signature d signature now :
  (forall file bucket,
      fst (SignatureService.GetFileInfoFromSignature
             generateHMAC settings d signature now) = Ok (file, bucket) ->
      generateHMAC (payload (Bucket.Id bucket) (File.Id file))
                   (SignatureSecret settings) = signature
      /\ File.BucketId file = Bucket.Id bucket)
  /\ (is_ok (fst (SignatureService.GetFileInfoFromSignature
                    generateHMAC settings d signature now))
      = is_ok (fst (validate d signature now)))
  /\ snd (SignatureService.GetFileInfoFromSignature
            generateHMAC settings d signature now) = d.
Proof.
  unfold SignatureService.GetFileInfoFromSignature, ValidateSignedURL.
  destruct (Db.FirstOrDefault (by_signature signature) (SignedURLs d))
    as [row|]; [|split; [discriminate | split; reflexivity]].
  destruct (SignedURL.ExpiresAt row <? now);
    [split; [discriminate | split; reflexivity]|].
  destruct (SignedURL.SingleUse row && SignedURL.Used row)%bool;
    [split; [discriminate | split; reflexivity]|].
  destruct (Db.FirstOrDefault _ (Buckets d)) as [bucket|] eqn:Eb;
    [|split; [discriminate | split; reflexivity]].
  destruct (Db.FirstOrDefault _ (Files d)) as [file|] eqn:Ef;
    [|split; [discriminate | split; reflexivity]].
  destruct (String.eqb signature _) eqn:Es; simpl;
    [|split; [discriminate | split; reflexivity]].
  rewrite Eb, Ef. split; [|split; reflexivity].
  intros f b H. inversion H; subst f b; clear H.
  apply String.eqb_eq in Es. split; [symmetry; exact Es|].
  destruct (DbFacts.find_In _ _ _ Ef) as [_ H].
  apply andb_prop in H as [_ H]. apply String.eqb_eq in H. exact H.
Qed.

(** Validate-and-consume consumes: when it succeeds on a single-use
    token the row is used afterwards, so a second call, or any later
    validate, fails. *)
Theorem validate_and_consume_once d signature t1 t2 t3 u s r d' :
  SignatureService.ValidateAndConsumeSignature
    generateHMAC settings d signature t1 t2 t3 u s = (Ok r, d') ->
  SignedURL.SingleUse (fst (fst r)) = true ->
  consumed d' signature
  /\ (forall now, is_ok (fst (validate d' signature now)) = false)
  /\ forall t1' t2' t3' u' s',
      is_ok (fst (SignatureService.ValidateAndConsumeSignature
                    generateHMAC settings d' signature t1' t2' t3' u' s'))
      = false.
Proof.
  unfold SignatureService.ValidateAndConsumeSignature.
  pose proof (TokenFacts.validate_reads generateHMAC settings d signature t1)
    as Hread.
  destruct (validate d signature t1) as [[row| |] d1] eqn:Ev;
    try discriminate.
  simpl in Hread. subst d1.
  pose proof (file_info_matches_signature d signature t2) as (_ & _ & Hinfo).
  destruct (SignatureService.GetFileInfoFromSignature
              generateHMAC settings d signature t2) as [[[file bucket]| |] d2];
    try discriminate.
  simpl in Hinfo. subst d2.
  destruct (SignedURL.SingleUse row) eqn:Hs.
  - assert (Hrow : Db.FirstOrDefault (by_signature signature) (SignedURLs d)
                   = Some row).
    { apply (ServeFacts.validate_ok_row generateHMAC settings d signature t1).
      rewrite Ev. reflexivity. }
    unfold MarkSignatureAsUsed. rewrite Hrow, Hs.
    destruct u; simpl; [|discriminate].
    destruct s; simpl; [|discriminate].
    intros H _. inversion H; subst; clear H.
    assert (Hc : consumed
                   (set_SignedURLs
                      (Db.Update SignedURL.ID (SignedURL.mark_used t3 row)
                                 (SignedURLs d)) d) signature).
    { exists (SignedURL.mark_used t3 row). simpl.
      split; [|split; [exact Hs | reflexivity]].
      apply TokenFacts.find_Update_row with (row := row);
        [exact Hrow | reflexivity|].
      apply (DbFacts.find_In _ _ _ Hrow). }
    split; [exact Hc|].
    assert (Hinv : forall now,
               is_ok (fst (validate
                             (set_SignedURLs
                                (Db.Update SignedURL.ID
                                   (SignedURL.mark_used t3 row)
                                   (SignedURLs d)) d) signature now))
               = false).
    { intros now.
      destruct (TokenFacts.consumed_invalid generateHMAC settings _
                  signature now Hc) as [E | E]; rewrite E; reflexivity. }
    split; [exact Hinv|].
    intros t1' t2' t3' u' s'. specialize (Hinv t1').
    destruct (validate _ signature t1') as [[x| |] dx]; simpl in *;
      try reflexivity.
    discriminate Hinv.
  - intros H Hsingle. inversion H; subst; clear H. simpl in Hsingle.
    congruence.
Qed.

End WithHMAC.

Lemma validate_after_first_issue_witness :
  exists row,
    ValidateSignedURL Demo.generateHMAC Demo.settings
      (snd (Handle Demo.generateHMAC Demo.settings
                   (Demo.token_db [Demo.local_file] []) (Demo.issue true)
                   (Demo.issue_env 1000)))
      Demo.signature 2000
    = (Ok row,
       snd (Handle Demo.generateHMAC Demo.settings
                   (Demo.token_db [Demo.local_file] []) (Demo.issue true)
                   (Demo.issue_env 1000)))
    /\ SignedURL.SingleUse row = true.
Proof.
  destruct (validate_after_first_issue
              Demo.generateHMAC Demo.settings
              (Demo.token_db [Demo.local_file] []) (Demo.issue true)
              (Demo.issue_env 1000)
              (mkResponse
                 (signed_url "http://localhost:8080" "b-1" "f-0" Demo.signature)
                 60000001000 true "Signed URL generated successfully")
              (snd (Handle Demo.generateHMAC Demo.settings
                           (Demo.token_db [Demo.local_file] [])
                           (Demo.issue true) (Demo.issue_env 1000)))
              Demo.bucket Demo.local_file 2000)
    as (row & Hv & Hs & _); try reflexivity.
  - simpl. lia.
  - exists row. split; [exact Hv | exact Hs].
Defined.

Lemma issue_after_expiry_replaces_row_witness :
  Db.FirstOrDefault (by_signature Demo.signature)
    (SignedURLs
       (snd (Handle Demo.generateHMAC Demo.settings
                    (Demo.token_db [Demo.local_file]
                                   [Demo.token true true 100])
                    (Demo.issue true)
                    (Token.mkEnv 1000 1000 "s-2" true true))))
  = Some (SignedURL.mk "s-2" Demo.signature "photos" "old.txt" "GET"
                       60000001000 true false None).
Proof.
  apply (issue_after_expiry_replaces_row
           Demo.generateHMAC Demo.settings
           (Demo.token_db [Demo.local_file] [Demo.token true true 100])
           (Demo.issue true) (Token.mkEnv 1000 1000 "s-2" true true)
           Demo.local_file Demo.bucket (Demo.token true true 100));
    try reflexivity.
  - simpl. lia.
  - intros r [<- | []] H. exfalso. apply H. reflexivity.
Defined.

Lemma issue_hands_out_consumed_token_witness :
  ValidateSignedURL Demo.generateHMAC Demo.settings
    (Demo.token_db [Demo.local_file] [Demo.token true true 5000])
    Demo.signature 2000
  = (Err already_used,
     Demo.token_db [Demo.local_file] [Demo.token true true 5000]).
Proof.
  destruct (issue_hands_out_consumed_token
              Demo.generateHMAC Demo.settings
              (Demo.token_db [Demo.local_file] [Demo.token true true 5000])
              (Demo.issue true) (Demo.issue_env 1000)
              Demo.local_file Demo.bucket (Demo.token true true 5000))
    as [_ H].
  - reflexivity.
  - reflexivity.
  - reflexivity.
  - reflexivity.
  - reflexivity.
  - reflexivity.
  - apply H. simpl. lia.
Defined.

Lemma validate_and_consume_once_witness :
  consumed
    (snd (SignatureService.ValidateAndConsumeSignature
            Demo.generateHMAC Demo.settings
            (Demo.token_db [Demo.local_file] [Demo.token true false 100])
            Demo.signature 10 20 30 true true))
    Demo.signature.
Proof.
  eapply (validate_and_consume_once
            Demo.generateHMAC Demo.settings
            (Demo.token_db [Demo.local_file] [Demo.token true false 100])
            Demo.signature 10 20 30 true true).
  - vm_compute. reflexivity.
  - reflexivity.
Defined.

End TokenMore.

(** ** Serving: who gets through, and what serving changes *)

Module ServeMore.

Import Serve.

Section WithCrypto.

Variable generateHMAC : string -> string -> string.
Variable settings : Token.Settings.
Variable uuid_Parse : string -> option uuid.

Local Abbreviation validate := (Token.ValidateSignedURL generateHMAC settings).
Local Abbreviation serve := (ServeFile generateHMAC settings uuid_Parse).

Lemma GetFile_frame d fileID bucketID env :
  let d1 := snd (GetFile d fileID bucketID env) in
  SetupConfigs d1 = SetupConfigs d /\ StorageNodes d1 = StorageNodes d
  /\ Buckets d1 = Buckets d /\ SignedURLs d1 = SignedURLs d.
Proof.
  unfold GetFile. destruct (Db.FirstOrDefault _ _); simpl;
    [destruct (touch_ok env)|]; repeat split.
Qed.

Lemma authenticate_frame d req env :
  let d1 := snd (authenticate generateHMAC settings d req env) in
  SetupConfigs d1 = SetupConfigs d /\ StorageNodes d1 = StorageNodes d
  /\ Buckets d1 = Buckets d /\ Files d1 = Files d.
Proof.
  unfold authenticate.
  pose proof (TokenFacts.validate_reads generateHMAC settings d
                (signature req) (now_validate env)) as Hread.
  destruct (negb (String.eqb (signature req) "")).
  - destruct (validate d (signature req) (now_validate env))
      as [[row| |] d1]; simpl in Hread; subst d1; simpl;
      try (repeat split; fail).
    destruct (SignedURL.SingleUse row && negb (SignedURL.Used row))%bool;
      [|simpl; repeat split].
    unfold Token.MarkSignatureAsUsed.
    destruct (Db.FirstOrDefault _ (SignedURLs d)); [|simpl; repeat split].
    destruct (SignedURL.SingleUse _); [|simpl; repeat split].
    destruct (mark_update_ok env); simpl; [|repeat split].
    destruct (mark_save_ok env); simpl; repeat split.
  - destruct (negb (String.eqb (x_api_key req) ""));
      [destruct (api_key_valid env) | destruct (jwt_ok env)];
      simpl; repeat split.
Qed.

(** Whatever the access stamp and the authentication block preserve,
    ServeFile preserves; the disk and the request log are never
    touched. *)
Lemma ServeFile_inv (P : DbContext -> Prop) w req env :
  P (db w) ->
  (forall d f b, P d -> P (snd (GetFile d f b env))) ->
  (forall d, P d -> P (snd (authenticate generateHMAC settings d req env))) ->
  P (db (snd (serve w req env)))
  /\ disk (snd (serve w req env)) = disk w
  /\ posted (snd (serve w req env)) = posted w.
Proof.
  intros Hw HG HA. unfold ServeFile.
  destruct (uuid_Parse (bucketIdParam req)) as [bucketID|];
    [|simpl; auto].
  destruct (uuid_Parse (fileIdParam req)) as [fileID|]; [|simpl; auto].
  pose proof (HG (db w) fileID bucketID Hw) as H1.
  destruct (GetFile (db w) fileID bucketID env) as [[fileInfo|m|] d1];
    simpl in *; auto.
  destruct (Db.FirstOrDefault _ (Buckets d1)) as [bucket|]; [|simpl; auto].
  destruct (Bucket.PublicRead bucket); simpl.
  - destruct (if negb (String.eqb (resolution req) "")
              then preset (resolution req) (width req) (height req)
              else (width req, height req)) as [wd ht].
    match goal with
    | |- context [if ?c then processImage ?a ?b ?e else None] =>
        destruct (if c then processImage a b e else None) as [[img mime]|]
    end; simpl; auto.
  - pose proof (HA d1 H1) as H2.
    destruct (authenticate generateHMAC settings d1 req env) as [[r|] d2];
      simpl in *; auto.
    destruct (if negb (String.eqb (resolution req) "")
              then preset (resolution req) (width req) (height req)
              else (width req, height req)) as [wd ht].
    match goal with
    | |- context [if ?c then processImage ?a ?b ?e else None] =>
        destruct (if c then processImage a b e else None) as [[img mime]|]
    end; simpl; auto.
Qed.

(** Serving never changes the registry, the buckets, the configuration
    or the master's disk; and on a publicly readable bucket it never
    touches a token, even when a single-use signature is presented. *)
Theorem serving_leaves_placement_state w req env :
  (StorageNodes (db (snd (serve w req env))) = StorageNodes (db w)
   /\ Buckets (db (snd (serve w req env))) = Buckets (db w)
   /\ SetupConfigs (db (snd (serve w req env))) = SetupConfigs (db w)
   /\ disk (snd (serve w req env)) = disk w)
  /\ (forall bucketID bucket,
         uuid_Parse (bucketIdParam req) = Some bucketID ->
         Db.FirstOrDefault (fun b => String.eqb (Bucket.Id b) bucketID)
                           (Buckets (db w)) = Some bucket ->
         Bucket.PublicRead bucket = true ->
         SignedURLs (db (snd (serve w req env))) = SignedURLs (db w)).
Proof.
  split.
  - destruct (ServeFile_inv
                (fun d => StorageNodes d = StorageNodes (db w)
                          /\ Buckets d = Buckets (db w)
                          /\ SetupConfigs d = SetupConfigs (db w))
                w req env) as ((H1 & H2 & H3) & Hdisk & Hposted).
    + repeat split.
    + intros d f b (A1 & A2 & A3).
      destruct (GetFile_frame d f b env) as (G1 & G2 & G3 & _).
      rewrite G1, G2, G3. repeat split; assumption.
    + intros d (A1 & A2 & A3).
      destruct (authenticate_frame d req env) as (G1 & G2 & G3 & _).
      rewrite G1, G2, G3. repeat split; assumption.
    + repeat split; assumption.
  - intros bucketID bucket Hpb Hbucket Hpub. unfold ServeFile. rewrite Hpb.
    destruct (uuid_Parse (fileIdParam req)) as [fileID|]; [|reflexivity].
    pose proof (GetFile_frame (db w) fileID bucketID env)
      as (_ & _ & HB & HS).
    destruct (GetFile (db w) fileID bucketID env) as [[fileInfo|m|] d1];
      simpl in *; try exact HS.
    rewrite HB, Hbucket, Hpub. simpl.
    destruct (if negb (String.eqb (resolution req) "")
              then preset (resolution req) (width req) (height req)
              else (width req, height req)) as [wd ht].
    match goal with
    | |- context [if ?c then processImage ?a ?b ?e else None] =>
        destruct (if c then processImage a b e else None) as [[img mime]|]
    end; simpl; exact HS.
Qed.


(** A presented signature is decisive: when it does not validate, a
    request for an object of a private bucket is answered 401 even if it
    also carries a valid API key or session, and no token row changes. *)
Theorem invalid_signature_is_refused
        w req env bucketID fileID file bucket :
  uuid_Parse (bucketIdParam req) = Some bucketID ->
  uuid_Parse (fileIdParam req) = Some fileID ->
  Db.FirstOrDefault (file_of fileID bucketID) (Files (db w)) = Some file ->
  Db.FirstOrDefault (fun b => String.eqb (Bucket.Id b) bucketID)
                    (Buckets (db w)) = Some bucket ->
  Bucket.PublicRead bucket = false ->
  signature req <> "" ->
  is_ok (fst (validate (snd (GetFile (db w) fileID bucketID env))
                       (signature req) (now_validate env))) = false ->
  fst (serve w req env)
  = mkHttp 401 (ErrorBody "Invalid or expired signed URL")
  /\ SignedURLs (db (snd (serve w req env))) = SignedURLs (db w).
Proof.
  intros Hpb Hpf Hfile Hbucket Hpriv Hsig Hval.
  unfold ServeFile. rewrite Hpb, Hpf.
  unfold GetFile in *. rewrite Hfile in *. simpl in Hval.
  remember (if touch_ok env
            then set_Files
                   (Db.Update File.Id
                      (File.with_AccessedAt (Some (now_access env)) file)
                      (Files (db w))) (db w)
            else db w) as d1 eqn:Ed1.
  assert (HB : Buckets d1 = Buckets (db w))
    by (subst d1; destruct (touch_ok env); reflexivity).
  assert (HS : SignedURLs d1 = SignedURLs (db w))
    by (subst d1; destruct (touch_ok env); reflexivity).
  rewrite HB, Hbucket, Hpriv. simpl.
  unfold authenticate. apply String.eqb_neq in Hsig. rewrite Hsig. simpl.
  pose proof (TokenFacts.validate_reads generateHMAC settings d1
                (signature req) (now_validate env)) as Hread.
  destruct (validate d1 (signature req) (now_validate env))
    as [[r|m|] d1']; simpl in Hval, Hread; subst d1';
    [discriminate | |]; simpl; split; auto.
Qed.

End WithCrypto.

Lemma serving_leaves_placement_state_witness :
  SignedURLs
    (db (snd (ServeFile Demo.generateHMAC Demo.settings Demo.uuid_Parse
                (mkWorld (mkDb [Demo.master] [Demo.local_file]
                               [Demo.large_node] [Samples.public_bucket]
                               [Demo.token true false 100])
                         [("/data/photos/f-0", "old bytes")] [])
                Demo.signed_request Demo.env_node_down)))
  = [Demo.token true false 100].
Proof.
  destruct (serving_leaves_placement_state
              Demo.generateHMAC Demo.settings Demo.uuid_Parse
              (mkWorld (mkDb [Demo.master] [Demo.local_file]
                             [Demo.large_node] [Samples.public_bucket]
                             [Demo.token true false 100])
                       [("/data/photos/f-0", "old bytes")] [])
              Demo.signed_request Demo.env_node_down) as [_ H].
  apply (H "b-1" Samples.public_bucket); reflexivity.
Defined.


Lemma invalid_signature_is_refused_witness :
  fst (ServeFile Demo.generateHMAC Demo.settings Demo.uuid_Parse
         (mkWorld (Demo.token_db [Demo.local_file]
                                 [Demo.token false false 100])
                  [("/data/photos/f-0", "old bytes")] [])
         (mkRequest "b-1" "f-0" "shb_valid_key" "tampered" 0 0 85 "")
         (mkEnv 10 true 20 30 true true true true None FetchTransportError))
  = mkHttp 401 (ErrorBody "Invalid or expired signed URL").
Proof.
  apply (invalid_signature_is_refused
           Demo.generateHMAC Demo.settings Demo.uuid_Parse
           (mkWorld (Demo.token_db [Demo.local_file]
                                   [Demo.token false false 100])
                    [("/data/photos/f-0", "old bytes")] [])
           (mkRequest "b-1" "f-0" "shb_valid_key" "tampered" 0 0 85 "")
           (mkEnv 10 true 20 30 true true true true None FetchTransportError)
           "b-1" "f-0" Demo.local_file Demo.bucket);
    try reflexivity.
  intros H. discriminate H.
Defined.

End ServeMore.

(** ** Registering a node *)

Module RegisterFacts.

Import Register.

Lemma NoDup_snoc {A} (l : list A) (x : A) :
  NoDup l -> ~ In x l -> NoDup (l ++ [x]).
Proof.
  induction l as [|y ys IH]; intros Hnd Hx; simpl.
  - constructor; [intros [] | constructor].
  - inversion Hnd as [|? ? Hy Hys]; subst. constructor.
    + intros Hin. apply in_app_or in Hin as [Hin | [-> | []]].
      * contradiction.
      * apply Hx. left. reflexivity.
    + apply IH; [exact Hys|]. intros Hin. apply Hx. right. exact Hin.
Qed.

Lemma existsb_false_not_in (col : StorageNode.t -> string)
      (node : StorageNode.t) (rows : list StorageNode.t) :
  existsb (fun r => String.eqb (col r) (col node)) rows = false ->
  ~ In (col node) (map col rows).
Proof.
  intros E Hin. apply in_map_iff in Hin as [r [Hr Hin]].
  assert (existsb (fun r => String.eqb (col r) (col node)) rows = true) as Hc.
  { apply existsb_exists. exists r. split; [exact Hin|].
    rewrite Hr. apply String.eqb_refl. }
  congruence.
Qed.

(** Registration keeps the registry well-formed: ids and URLs stay
    unique whatever the outcome; a failed registration changes nothing,
    a URL already registered always fails, and a successful one appends
    exactly one row, with a zero counter and not yet healthy, so not
    yet eligible for placement. *)
Theorem register_keeps_registry_unique d command env :
  (NoDup (map StorageNode.Id (StorageNodes d)) ->
   NoDup (map StorageNode.Id (StorageNodes (snd (Handle d command env)))))
  /\ (NoDup (map StorageNode.URL (StorageNodes d)) ->
      NoDup (map StorageNode.URL (StorageNodes (snd (Handle d command env)))))
  /\ (is_ok (fst (Handle d command env)) = false ->
      snd (Handle d command env) = d)
  /\ ((exists n, In n (StorageNodes d) /\ StorageNode.URL n = URL command) ->
      is_ok (fst (Handle d command env)) = false)
  /\ (is_ok (fst (Handle d command env)) = true ->
      exists node,
        StorageNodes (snd (Handle d command env))
        = (StorageNodes d ++ [node])%list
        /\ StorageNode.URL node = URL command
        /\ StorageNode.AuthKey node = AuthKey command
        /\ StorageNode.IsActive node = IsActive command
        /\ StorageNode.UsedStorage node = 0
        /\ StorageNode.IsHealthy node = false
        /\ Upload.eligible node = false).
Proof.
  unfold Handle.
  destruct (url_ok env); simpl;
    [|split; [auto|]; split; [auto|]; split; [auto|];
      split; [auto | discriminate]].
  destruct (Db.FirstOrDefault (by_url (URL command)) (StorageNodes d))
    as [existing|] eqn:Ef; simpl;
    [split; [auto|]; split; [auto|]; split; [auto|];
     split; [auto | discriminate]|].
  assert (Hdup : (exists n, In n (StorageNodes d)
                            /\ StorageNode.URL n = URL command) -> False).
  { intros (n & Hin & Hurl).
    pose proof (find_none _ _ Ef n Hin) as H. unfold by_url in H.
    rewrite Hurl, String.eqb_refl in H. discriminate H. }
  destruct (save_ok env); simpl;
    [|split; [auto|]; split; [auto|]; split; [auto|];
      split; [intros H; destruct (Hdup H) | discriminate]].
  unfold Db.Add. simpl.
  destruct (existsb (fun r => String.eqb (StorageNode.Id r) (new_id env))
                    (StorageNodes d)) eqn:E1; simpl;
    [split; [auto|]; split; [auto|]; split; [auto|];
     split; [intros H; destruct (Hdup H) | discriminate]|].
  destruct (existsb (fun r => String.eqb (StorageNode.URL r) (URL command))
                    (StorageNodes d)) eqn:E2; simpl;
    [split; [auto|]; split; [auto|]; split; [auto|];
     split; [intros H; destruct (Hdup H) | discriminate]|].
  set (node := StorageNode.mk (new_id env) (Name command) (URL command)
                              (AuthKey command) (IsActive command) false
                              (Priority command) (MaxStorage command) 0 None).
  split; [|split; [|split; [discriminate|split]]].
  - intros Hnd. rewrite map_app. simpl. apply NoDup_snoc; [exact Hnd|].
    apply (existsb_false_not_in StorageNode.Id node). exact E1.
  - intros Hnd. rewrite map_app. simpl. apply NoDup_snoc; [exact Hnd|].
    apply (existsb_false_not_in StorageNode.URL node). exact E2.
  - intros H. destruct (Hdup H).
  - intros _. exists node. unfold Upload.eligible. simpl.
    rewrite andb_false_r. repeat split.
Qed.

(** What a successful registration did, row by row. *)
Lemma register_ok_rows d command env resp d1 :
  Handle d command env = (Ok resp, d1) ->
  Db.FirstOrDefault (by_url (URL command)) (StorageNodes d) = None
  /\ StorageNodes d1
     = (StorageNodes d
          ++ [StorageNode.mk (new_id env) (Name command) (URL command)
                             (AuthKey command) (IsActive command) false
                             (Priority command) (MaxStorage command) 0 None])%list
  /\ Upload.ID (Node resp) = uuid_Nil.
Proof.
  unfold Handle.
  destruct (url_ok env); simpl; [|discriminate].
  destruct (Db.FirstOrDefault (by_url (URL command)) (StorageNodes d));
    [discriminate|].
  destruct (save_ok env); [|discriminate].
  destruct (Db.Add _ _ (StorageNodes d)) as [rows|] eqn:EA; [|discriminate].
  apply DbFacts.Add_app in EA. subst rows.
  intros H. inversion H; subst; clear H. simpl. repeat split.
Qed.

Lemma prefix_append (p s : string) : String.prefix p (p ++ s) = true.
Proof.
  induction p as [|c p IH]; simpl; [destruct s; reflexivity|].
  destruct (ascii_dec c c) as [_|Hne]; [exact IH | contradiction].
Qed.

Lemma substring_skip (p s : string) :
  substring (String.length p) (String.length s) (p ++ s) = s.
Proof.
  induction p as [|c p IH]; simpl; [apply NodePathFacts.substring_all|].
  exact IH.
Qed.

Lemma length_append (p s : string) :
  String.length (p ++ s) = (String.length p + String.length s)%nat.
Proof. induction p as [|c p IH]; simpl; [reflexivity | rewrite IH; reflexivity]. Qed.

(** [strings.TrimPrefix] undoes a prepended prefix. *)
Lemma TrimPrefix_append (p s : string) : Strings.TrimPrefix (p ++ s) p = s.
Proof.
  unfold Strings.TrimPrefix, Strings.HasPrefix. rewrite prefix_append.
  rewrite length_append.
  replace (String.length p + String.length s - String.length p)%nat
    with (String.length s) by lia.
  apply substring_skip.
Qed.

(** From registration to placement.  A node that registered itself is
    in the registry but invisible to the placement decision, which
    still picks the candidate it picked before; the first ping with the
    URL and the key the registration handed out is accepted and makes
    the node active and healthy, hence eligible. *)
Theorem self_registered_node_waits_for_first_ping
        d req valid key_uuid env node key d1 now :
  SelfRegister d (Some req) valid key_uuid env
  = ((201, Created node key), d1) ->
  sr_url req <> "" ->
  Db.FirstOrDefault Upload.eligible (StorageNodes d1)
  = Db.FirstOrDefault Upload.eligible (StorageNodes d)
  /\ key = generateAuthKey key_uuid
  /\ fst (Health.Ping d1 (sr_url req) ("Bearer " ++ key) "" now true)
     = Health.mkHttp 200 (Health.PingBody "Ping successful" (new_id env))
  /\ exists row,
      Db.FirstOrDefault
        (fun n => String.eqb (StorageNode.Id n) (new_id env))
        (StorageNodes
           (snd (Health.Ping d1 (sr_url req) ("Bearer " ++ key) "" now true)))
      = Some row
      /\ Upload.eligible row = true
      /\ StorageNode.URL row = sr_url req.
Proof.
  unfold SelfRegister. destruct valid; simpl; [|discriminate].
  pose proof (register_ok_rows d
                (mkCommand (sr_name req) (sr_url req)
                           (generateAuthKey key_uuid) (sr_max_storage req)
                           (sr_priority req) true) env) as Haux.
  destruct (Handle d _ env) as [[resp|m|] d1'] eqn:Eh; try discriminate.
  intros H Hurl. inversion H; subst; clear H.
  destruct (Haux resp d1 eq_refl) as (Hnone & Hnodes & Hnode).
  simpl in *.
  set (new := StorageNode.mk (new_id env) (sr_name req) (sr_url req)
                             (generateAuthKey key_uuid) true false
                             (sr_priority req) (sr_max_storage req) 0 None)
    in *.
  split.
  { rewrite Hnodes. unfold Db.FirstOrDefault.
    destruct (find Upload.eligible (StorageNodes d)) as [x|] eqn:Ex.
    - clear - Ex. induction (StorageNodes d) as [|y ys IH]; [discriminate|].
      simpl in *. destruct (Upload.eligible y); [exact Ex | apply IH, Ex].
    - rewrite TokenFacts.find_app_none; [|exact Ex]. reflexivity. }
  split; [reflexivity|].
  assert (Hfind : Db.FirstOrDefault
                    (fun n => (String.eqb (StorageNode.URL n) (sr_url req)
                               && String.eqb (StorageNode.AuthKey n)
                                             (generateAuthKey key_uuid))%bool)
                    (StorageNodes d1) = Some new).
  { rewrite Hnodes. unfold Db.FirstOrDefault.
    rewrite TokenFacts.find_app_none.
    - simpl. rewrite !String.eqb_refl. reflexivity.
    - apply TokenFacts.find_none_iff. intros x Hx.
      pose proof (find_none _ _ Hnone x Hx) as Hb. unfold by_url in Hb.
      rewrite Hb. reflexivity. }
  unfold Health.Ping. simpl.
  apply String.eqb_neq in Hurl. rewrite Hurl.
  change (String "B" (String "e" (String "a" (String "r" (String "e"
            (String "r" (String " " (generateAuthKey key_uuid))))))))
    with ("Bearer " ++ generateAuthKey key_uuid).
  rewrite TrimPrefix_append, Hfind. simpl.
  split; [reflexivity|].
  exists (StorageNode.with_ping now new). split; [|split; reflexivity].
  apply DbFacts.find_Update; [reflexivity|].
  exists new. split; [|reflexivity].
  apply (DbFacts.find_In _ _ _ Hfind).
Qed.

Lemma self_registered_node_waits_for_first_ping_witness :
  Db.FirstOrDefault Upload.eligible
    (StorageNodes
       (snd (SelfRegister (Demo.node_db [Demo.inactive_node])
               (Some (mkSelfRegister "node-9" "http://n9" 1000 1))
               true "k-9" (mkEnv true "n-9" true))))
  = None
  /\ fst (Health.Ping
            (snd (SelfRegister (Demo.node_db [Demo.inactive_node])
                    (Some (mkSelfRegister "node-9" "http://n9" 1000 1))
                    true "k-9" (mkEnv true "n-9" true)))
            "http://n9" "Bearer shbucket_node_auth_k-9" "" 50 true)
     = Health.mkHttp 200 (Health.PingBody "Ping successful" "n-9").
Proof.
  destruct (self_registered_node_waits_for_first_ping
              (Demo.node_db [Demo.inactive_node])
              (mkSelfRegister "node-9" "http://n9" 1000 1) true "k-9"
              (mkEnv true "n-9" true)
              (Upload.mkNodeResponse uuid_Nil "node-9" "http://n9" 1000 0 1
                                     true false None)
              "shbucket_node_auth_k-9"
              (snd (SelfRegister (Demo.node_db [Demo.inactive_node])
                      (Some (mkSelfRegister "node-9" "http://n9" 1000 1))
                      true "k-9" (mkEnv true "n-9" true)))
              50)
    as (Hel & _ & Hping & _).
  - reflexivity.
  - intros H. discriminate H.
  - split; [exact Hel | exact Hping].
Defined.

End RegisterFacts.

(** ** Deleting a file *)

Module DeleteFacts.

Import Delete.

Lemma disk_read_removed path files :
  Serve.disk_read path (disk_remove path files) = None.
Proof.
  unfold disk_remove. induction files as [|[p c] rest IH]; simpl;
    [reflexivity|].
  destruct (String.eqb p path) eqn:E; simpl; [exact IH|].
  rewrite E. exact IH.
Qed.

Lemma Remove_absent (file : File.t) (rows : list File.t) :
  Db.FirstOrDefault (fun f => String.eqb (File.Id f) (File.Id file)) rows
  = None ->
  Db.Remove File.Id file rows = rows.
Proof.
  unfold Db.Remove, Db.FirstOrDefault.
  induction rows as [|x xs IH]; simpl; [reflexivity|].
  destruct (String.eqb (File.Id x) (File.Id file)); [discriminate|]. simpl.
  intros H. rewrite (IH H). reflexivity.
Qed.

Section WithParse.

Variable uuid_Parse : string -> option uuid.

Local Abbreviation delete := (Handle uuid_Parse).

Lemma deletePhysicalFile_frame w path env :
  db (snd (deletePhysicalFile uuid_Parse w path env)) = db w
  /\ posted (snd (deletePhysicalFile uuid_Parse w path env)) = posted w.
Proof.
  unfold deletePhysicalFile.
  destruct (Strings.HasPrefix path "node://"); [split; reflexivity|].
  destruct (Serve.disk_read path (disk w)); [|split; reflexivity].
  destruct (remove_fails env); split; reflexivity.
Qed.

(** Deleting never gives space back to a node: no delete, successful or
    not, local or remote, changes a row of the node registry (nor a
    bucket, a token or the configuration).  The used-storage counter
    raised by an upload stays raised after the object is gone. *)
Theorem delete_keeps_node_counters w command env :
  StorageNodes (db (snd (Delete.Handle uuid_Parse w command env)))
  = StorageNodes (db w)
  /\ Buckets (db (snd (Delete.Handle uuid_Parse w command env)))
     = Buckets (db w)
  /\ SignedURLs (db (snd (Delete.Handle uuid_Parse w command env)))
     = SignedURLs (db w)
  /\ SetupConfigs (db (snd (Delete.Handle uuid_Parse w command env)))
     = SetupConfigs (db w).
Proof.
  unfold Handle.
  destruct (Db.FirstOrDefault _ (Files (db w))) as [file|];
    [|repeat split].
  destruct (Db.FirstOrDefault _ (Buckets (db w))) as [bucket|];
    [|repeat split].
  destruct (_ && _)%bool; [repeat split|].
  pose proof (deletePhysicalFile_frame w (File.Path file) env) as [Hdb Hp].
  destruct (deletePhysicalFile uuid_Parse w (File.Path file) env)
    as [[u|m|] w1]; simpl in *; rewrite ?Hdb, ?Hp; try (repeat split; fail).
  destruct (save_ok env); simpl; rewrite ?Hdb, ?Hp; repeat split.
Qed.

(** Only the bucket's owner and the uploader may delete: for any other
    user the handler refuses and nothing is touched, on disk, on a node
    or in the database. *)
Theorem delete_by_stranger_is_refused w command env file bucket :
  Db.FirstOrDefault (Serve.file_of (FileID command) (BucketID command))
                    (Files (db w)) = Some file ->
  Db.FirstOrDefault (fun b => String.eqb (Bucket.Id b) (BucketID command))
                    (Buckets (db w)) = Some bucket ->
  Bucket.OwnerId bucket <> UserID command ->
  File.UploadedBy file <> UserID command ->
  delete w command env
  = (Err "unauthorized: insufficient permissions to delete file", w).
Proof.
  intros Hf Hb Ho Hu. unfold Handle. rewrite Hf, Hb.
  apply String.eqb_neq in Ho, Hu. rewrite Ho, Hu. reflexivity.
Qed.

(** A node-stored object is deleted only when the node answers 200:
    on a transport error or any other status, 404 and the other 2xx
    included, the handler fails and keeps the record, with the rest of
    the database and the master's disk. *)
Theorem delete_remote_needs_200 w command env file bucket :
  Db.FirstOrDefault (Serve.file_of (FileID command) (BucketID command))
                    (Files (db w)) = Some file ->
  Db.FirstOrDefault (fun b => String.eqb (Bucket.Id b) (BucketID command))
                    (Buckets (db w)) = Some bucket ->
  Upload.stored_on_node (File.Path file) = true ->
  node_reply env <> Status 200 ->
  is_ok (fst (delete w command env)) = false
  /\ db (snd (delete w command env)) = db w
  /\ disk (snd (delete w command env)) = disk w.
Proof.
  assert (Hw : forall r : result Response * World,
             is_ok (fst r) = false /\ snd r = w ->
             is_ok (fst r) = false /\ db (snd r) = db w
             /\ disk (snd r) = disk w).
  { intros r [H1 H2]. rewrite H2. repeat split. exact H1. }
  intros Hf Hb Hnode Hreply. apply Hw. unfold Handle. rewrite Hf, Hb.
  destruct (_ && _)%bool; [split; reflexivity|].
  unfold deletePhysicalFile.
  unfold Upload.stored_on_node in Hnode. rewrite Hnode.
  unfold deleteFromNode.
  destruct (deleteTarget uuid_Parse (db w) (File.Path file));
    try (split; reflexivity).
  destruct (node_reply env) as [|code]; [split; reflexivity|].
  destruct (code =? 200) eqn:E; simpl; [|split; reflexivity].
  apply Z.eqb_eq in E. subst code. contradiction.
Qed.

End WithParse.

Section UploadThenDelete.

Variable sha256_hex : string -> string.
Variable uuid_Parse : string -> option uuid.

(** Round trip.  After an upload that was placed on the master, a
    delete of that object by its uploader brings the file table back to
    what it was before the upload and removes the bytes from the
    disk. *)
Theorem delete_after_local_upload w cmd env resp denv :
  fst (Upload.Handle sha256_hex w cmd env) = Ok resp ->
  Upload.Resp_StorageNode resp = None ->
  remove_fails denv = false ->
  save_ok denv = true ->
  let w1 := snd (Upload.Handle sha256_hex w cmd env) in
  let command :=
    mkCommand (Upload.fileID env) (Upload.BucketID cmd)
              (Upload.UploadedBy cmd) in
  fst (Handle uuid_Parse w1 command denv)
  = Ok (mkResponse true "File deleted successfully")
  /\ Files (db (snd (Handle uuid_Parse w1 command denv))) = Files (db w)
  /\ Serve.disk_read (File.Path (Upload.Resp_File resp))
                     (disk (snd (Handle uuid_Parse w1 command denv))) = None.
Proof.
  intros Hok Hlocal Hrm Hsave w1 command.
  assert (Hcr : exists cfg,
             Upload.Handle sha256_hex w cmd env
             = Upload.createRecord sha256_hex w cmd env cfg None).
  { revert Hok Hlocal. unfold Upload.Handle.
    destruct (Upload.config_query_ok env); simpl; [|discriminate].
    destruct (Db.FirstOrDefault Upload.is_master _) as [cfg|];
      [|discriminate].
    destruct (Upload.sum_query_ok env); simpl; [|discriminate].
    destruct (Upload.masterFreeSpace cfg (db w) <? Upload.FileSize cmd);
      [|intros; exists cfg; reflexivity].
    destruct (Upload.placeOnNode w cmd env
                (Upload.masterFreeSpace cfg (db w)))
      as [[sn|m|] w'] ; simpl; try discriminate.
    intros H1 H2.
    destruct (UploadFacts.createRecord_frame sha256_hex w' cmd env cfg
                (Some sn)) as (_ & _ & _ & Hsn).
    destruct (Hsn resp H1) as [_ Heq]. congruence. }
  destruct Hcr as [cfg Hcr]. subst w1. rewrite Hcr in *.
  destruct (UploadFacts.createRecord_frame sha256_hex w cmd env cfg None)
    as (_ & _ & _ & Hfr).
  destruct (Hfr resp Hok) as [Hfiles _].
  destruct (UploadFacts.createRecord_local sha256_hex w cmd env cfg resp Hok)
    as (Hnotnode & _ & content & Hbody & _ & Hdisk).
  destruct (UploadThenServe.createRecord_ok_record sha256_hex w cmd env cfg
              None resp Hok)
    as (Hid & Hbid & _ & Hfresh & HB & (bucket & Hbucket) & _).
  set (w1 := snd (Upload.createRecord sha256_hex w cmd env cfg None)) in *.
  assert (Hup : File.UploadedBy (Upload.Resp_File resp)
                = Upload.UploadedBy cmd).
  { revert Hok. unfold Upload.createRecord.
    repeat (break_match; simpl; try discriminate).
    intros H. inversion H. reflexivity. }
  unfold Handle. subst command. simpl.
  rewrite Hfiles.
  rewrite (UploadThenServe.find_new_file _ _ _ _ Hfresh Hid Hbid).
  rewrite HB.
  change (fun b : Bucket.t => String.eqb (Bucket.Id b) (Upload.BucketID cmd))
    with (Upload.bucket_of cmd).
  rewrite Hbucket, Hup, String.eqb_refl, andb_false_r.
  unfold deletePhysicalFile.
  unfold Upload.stored_on_node in Hnotnode. rewrite Hnotnode.
  rewrite Hdisk. simpl. rewrite String.eqb_refl, Hrm, Hsave. simpl.
  split; [reflexivity|]. split.
  - rewrite Hfiles. unfold Db.Remove. rewrite filter_app. simpl.
    rewrite String.eqb_refl. simpl. rewrite app_nil_r.
    fold (Db.Remove File.Id (Upload.Resp_File resp) (Files (db w))).
    apply Remove_absent. rewrite Hid. exact Hfresh.
  - apply disk_read_removed.
Qed.

End UploadThenDelete.

Lemma delete_by_stranger_is_refused_witness :
  Handle Demo.uuid_Parse
         (mkWorld (Demo.token_db [Demo.local_file] [])
                  [("/data/photos/f-0", "old bytes")] [])
         (mkCommand "f-0" "b-1" "u-2") (mkEnv false (Status 200) true)
  = (Err "unauthorized: insufficient permissions to delete file",
     mkWorld (Demo.token_db [Demo.local_file] [])
             [("/data/photos/f-0", "old bytes")] []).
Proof.
  apply (delete_by_stranger_is_refused
           Demo.uuid_Parse
           (mkWorld (Demo.token_db [Demo.local_file] [])
                    [("/data/photos/f-0", "old bytes")] [])
           (mkCommand "f-0" "b-1" "u-2") (mkEnv false (Status 200) true)
           Demo.local_file Demo.bucket);
    try reflexivity; intros H; discriminate H.
Defined.

Lemma delete_remote_needs_200_witness :
  db (snd (Handle Demo.uuid_Parse (Demo.serve_world [])
                  (mkCommand "f-0" "b-1" "u-1")
                  (mkEnv false (Status 404) true)))
  = db (Demo.serve_world []).
Proof.
  apply (delete_remote_needs_200
           Demo.uuid_Parse (Demo.serve_world [])
           (mkCommand "f-0" "b-1" "u-1") (mkEnv false (Status 404) true)
           Demo.remote_file Demo.bucket);
    try reflexivity.
  intros H. discriminate H.
Defined.

Lemma delete_after_local_upload_witness :
  Files (db (snd (Handle Demo.uuid_Parse
                         (snd (Upload.Handle Demo.sha256_hex
                                 (Demo.world [] [Demo.large_node])
                                 (Demo.upload 20) (Demo.env_ok "f-1")))
                         (mkCommand "f-1" "b-1" "u-1")
                         (mkEnv false (Status 200) true))))
  = [].
Proof.
  eapply (delete_after_local_upload
            Demo.sha256_hex Demo.uuid_Parse
            (Demo.world [] [Demo.large_node])
            (Demo.upload 20) (Demo.env_ok "f-1") _
            (mkEnv false (Status 200) true)).
  - vm_compute. reflexivity.
  - reflexivity.
  - reflexivity.
  - reflexivity.
Defined.

End DeleteFacts.

(** ** What the health probes store and report *)

Module HealthMore.

Import Health.

(** A probe counts as healthy exactly when the node answered with a
    2xx status. *)
Lemma pingNode_healthy n e :
  fst (fst (pingNode n e)) = true
  <-> exists code, probe e = ProbeStatus code /\ 200 <= code < 300.
Proof.
  unfold pingNode. destruct (probe e) as [| |code]; simpl.
  - split; [discriminate | intros (c & H & _); discriminate].
  - split; [discriminate | intros (c & H & _); discriminate].
  - destruct ((200 <=? code) && (code <? 300))%bool eqn:E; simpl.
    + apply andb_true_iff in E. destruct E as [E1 E2].
      split; [|reflexivity]. intros _. exists code. split; [reflexivity|lia].
    + split; [discriminate|]. intros (c & H & Hc). inversion H; subst c.
      apply andb_false_iff in E. destruct E as [E|E]; lia.
Qed.

Lemma health_result_fields id r :
  NodeID (health_result id r) = id
  /\ IsHealthy (health_result id r) = fst (fst r)
  /\ Success (health_result id r) = fst (fst r).
Proof. destruct r as [[h t] m]. repeat split. Qed.

Lemma sweep_length envs k nodes :
  List.length (sweep envs k nodes) = List.length nodes.
Proof.
  revert k. induction nodes as [|n rest IH]; intros k; simpl;
    [reflexivity|]. rewrite IH. reflexivity.
Qed.

Lemma sweep_nth envs nodes :
  forall k i n,
    nth_error nodes i = Some n ->
    nth_error (sweep envs k nodes) i
    = Some (StorageNode.with_health_and_active
              (fst (fst (pingNode n (envs (k + i)%nat))))
              (probed_at (envs (k + i)%nat)) n,
            health_result (StorageNode.Id n) (pingNode n (envs (k + i)%nat))).
Proof.
  induction nodes as [|a rest IH]; intros k i n H.
  - destruct i; discriminate.
  - destruct i as [|i]; simpl in *.
    + inversion H; subst a. rewrite Nat.add_0_r. reflexivity.
    + rewrite (IH (S k) i n H).
      replace (S k + i)%nat with (k + S i)%nat by lia. reflexivity.
Qed.

Lemma sweep_keys envs k nodes :
  map StorageNode.Id (map fst (sweep envs k nodes))
  = map StorageNode.Id nodes.
Proof.
  revert k. induction nodes as [|n rest IH]; intros k; simpl;
    [reflexivity|]. rewrite IH. reflexivity.
Qed.

Lemma Update_fresh (r : StorageNode.t) rows :
  ~ In (StorageNode.Id r) (map StorageNode.Id rows) ->
  Db.Update StorageNode.Id r rows = rows.
Proof.
  unfold Db.Update. induction rows as [|x xs IH]; simpl; [reflexivity|].
  intros H. destruct (String.eqb (StorageNode.Id x) (StorageNode.Id r)) eqn:E.
  - apply String.eqb_eq in E. exfalso. apply H. left. exact E.
  - rewrite IH; [reflexivity|]. intros Hin. apply H. right. exact Hin.
Qed.

(** With unique keys, updating every row of a table by its key, in table
    order, leaves exactly the new rows. *)
Lemma UpdateRange_whole rs :
  forall pre tl,
    map StorageNode.Id rs = map StorageNode.Id tl ->
    NoDup (map StorageNode.Id (pre ++ rs)) ->
    UpdateRange rs (pre ++ tl) = (pre ++ rs)%list.
Proof.
  induction rs as [|r rs IH]; intros pre tl Hk Hnd.
  - destruct tl; [reflexivity | discriminate].
  - destruct tl as [|t tl]; [discriminate|]. simpl in Hk.
    inversion Hk as [[Hrt Hrest]]. simpl.
    rewrite map_app in Hnd. simpl in Hnd.
    pose proof (NoDup_remove_2 _ _ _ Hnd) as Hfresh.
    assert (Hstep : Db.Update StorageNode.Id r (pre ++ t :: tl)
                    = (pre ++ r :: tl)%list).
    { unfold Db.Update. rewrite map_app. simpl.
      fold (Db.Update StorageNode.Id r pre).
      fold (Db.Update StorageNode.Id r tl).
      rewrite <- Hrt, String.eqb_refl.
      rewrite Update_fresh, Update_fresh; [reflexivity| |].
      - rewrite <- Hrest. intros Hin. apply Hfresh.
        apply in_or_app. right. exact Hin.
      - intros Hin. apply Hfresh. apply in_or_app. left. exact Hin. }
    rewrite Hstep.
    replace (pre ++ r :: tl)%list with ((pre ++ [r]) ++ tl)%list
      by (rewrite <- app_assoc; reflexivity).
    replace (pre ++ r :: rs)%list with ((pre ++ [r]) ++ rs)%list
      by (rewrite <- app_assoc; reflexivity).
    apply IH; [exact Hrest|].
    rewrite <- app_assoc. simpl. rewrite map_app. simpl. exact Hnd.
Qed.

Lemma filter_length_le {A} (p : A -> bool) (l : list A) :
  (List.length (filter p l) <= List.length l)%nat.
Proof.
  induction l as [|a l IH]; simpl; [lia|]. destruct (p a); simpl; lia.
Qed.

(** The sweep, row by row.  With node ids unique, a sweep that commits
    answers 200 with one result per node in registry order, and the
    counts add up: healthy + unhealthy = total.  The [i]-th result
    carries the [i]-th node's id and is healthy exactly when that node's
    probe got a 2xx answer; the [i]-th row is stored with that same flag, the
    probe's timestamp and the active flag set, whatever it held
    before. *)
Theorem sweep_stores_what_it_reports d envs :
  NoDup (map StorageNode.Id (StorageNodes d)) ->
  exists healthy results,
    fst (CheckAllNodesHealth d true envs true)
    = mkHttp 200
        (SweepBody (Z.of_nat (List.length (StorageNodes d))) healthy
                   (Z.of_nat (List.length (StorageNodes d)) - healthy)
                   results)
    /\ 0 <= healthy <= Z.of_nat (List.length (StorageNodes d))
    /\ List.length results = List.length (StorageNodes d)
    /\ forall i n,
        nth_error (StorageNodes d) i = Some n ->
        exists h r,
          (h = true <-> exists code, probe (envs i) = ProbeStatus code
                                     /\ 200 <= code < 300)
          /\ nth_error results i = Some r
          /\ NodeID r = StorageNode.Id n
          /\ IsHealthy r = h
          /\ nth_error
               (StorageNodes (snd (CheckAllNodesHealth d true envs true))) i
             = Some (StorageNode.with_health_and_active
                       h (probed_at (envs i)) n).
Proof.
  intros Hnd. unfold CheckAllNodesHealth. simpl.
  eexists. eexists. split; [reflexivity|].
  split; [|split].
  - pose proof (filter_length_le IsHealthy
                  (map snd (sweep envs 0 (StorageNodes d)))) as H.
    rewrite length_map, sweep_length in H. lia.
  - rewrite length_map, sweep_length. reflexivity.
  - intros i n Hn.
    pose proof (sweep_nth envs (StorageNodes d) 0 i n Hn) as Hs.
    simpl in Hs.
    exists (fst (fst (pingNode n (envs i)))).
    exists (health_result (StorageNode.Id n) (pingNode n (envs i))).
    destruct (health_result_fields (StorageNode.Id n) (pingNode n (envs i)))
      as (H1 & H2 & _).
    split; [apply pingNode_healthy|].
    split; [rewrite nth_error_map, Hs; reflexivity|].
    split; [exact H1|]. split; [exact H2|].
    pose proof (UpdateRange_whole (map fst (sweep envs 0 (StorageNodes d)))
                  [] (StorageNodes d) (sweep_keys envs 0 (StorageNodes d)))
      as HU.
    simpl in HU. rewrite HU.
    + rewrite nth_error_map, Hs. reflexivity.
    + rewrite sweep_keys. exact Hnd.
Qed.

Section WithParse.

Variable uuid_Parse : string -> option uuid.

(** The single-node probe answers 200 whether the node is healthy or
    not (the verdict is in the body), and what it stores decides
    placement: afterwards the node is a candidate for uploads exactly
    when its probe got a 2xx answer, whatever its active and healthy
    flags were before. *)
Theorem probe_decides_eligibility d nodeIDParam nodeID e n :
  uuid_Parse nodeIDParam = Some nodeID ->
  Db.FirstOrDefault (fun r => String.eqb (StorageNode.Id r) nodeID)
                    (StorageNodes d) = Some n ->
  exists r n',
    fst (HealthCheck uuid_Parse d nodeIDParam e true)
    = mkHttp 200 (HealthBody r)
    /\ NodeID r = nodeID
    /\ Db.FirstOrDefault
         (fun r => String.eqb (StorageNode.Id r) nodeID)
         (StorageNodes (snd (HealthCheck uuid_Parse d nodeIDParam e true)))
       = Some n'
    /\ StorageNode.LastPing n' = Some (probed_at e)
    /\ StorageNode.UsedStorage n' = StorageNode.UsedStorage n
    /\ (IsHealthy r = true <-> Upload.eligible n' = true)
    /\ (Upload.eligible n' = true
        <-> exists code, probe e = ProbeStatus code /\ 200 <= code < 300).
Proof.
  intros Hp Hf. unfold HealthCheck. rewrite Hp, Hf. simpl.
  destruct (DbFacts.find_In _ _ _ Hf) as [Hin Hid].
  apply String.eqb_eq in Hid.
  eexists. eexists. split; [reflexivity|].
  destruct (health_result_fields nodeID (pingNode n e)) as (H1 & H2 & _).
  split; [exact H1|]. split.
  - apply DbFacts.find_Update; [exact Hid|].
    exists n. split; assumption.
  - split; [reflexivity|]. split; [reflexivity|]. rewrite H2.
    unfold Upload.eligible. simpl. split; [reflexivity|].
    apply pingNode_healthy.
Qed.

End WithParse.

Lemma sweep_stores_what_it_reports_witness :
  exists healthy results,
    fst (CheckAllNodesHealth
           (Demo.node_db [Demo.large_node; Demo.inactive_node])
           true Demo.probe_ok true)
    = mkHttp 200 (SweepBody 2 healthy (2 - healthy) results)
    /\ 0 <= healthy <= 2
    /\ List.length results = 2%nat.
Proof.
  destruct (sweep_stores_what_it_reports
              (Demo.node_db [Demo.large_node; Demo.inactive_node])
              Demo.probe_ok)
    as (healthy & results & H1 & H2 & H3 & _).
  - simpl. repeat constructor; simpl; intuition discriminate.
  - exists healthy, results. split; [exact H1|]. split; [exact H2|exact H3].
Defined.

Lemma probe_decides_eligibility_witness :
  exists r,
    fst (HealthCheck Demo.uuid_Parse
           (Demo.node_db [Demo.large_node; Demo.inactive_node])
           (StorageNode.Id Demo.inactive_node) (Demo.probe_ok 0%nat) true)
    = mkHttp 200 (HealthBody r).
Proof.
  destruct (probe_decides_eligibility
              Demo.uuid_Parse
              (Demo.node_db [Demo.large_node; Demo.inactive_node])
              (StorageNode.Id Demo.inactive_node)
              (StorageNode.Id Demo.inactive_node)
              (Demo.probe_ok 0%nat) Demo.inactive_node)
    as (r & n' & H & _).
  - reflexivity.
  - reflexivity.
  - exists r. exact H.
Defined.

End HealthMore.

(** ** The storage node's internal endpoints *)

Module InternalFacts.

Import Internal.

Lemma HasPrefix_split (s p : string) :
  Strings.HasPrefix s p = true -> s = p ++ Strings.TrimPrefix s p.
Proof.
  intros H. unfold Strings.TrimPrefix. rewrite H.
  unfold Strings.HasPrefix in H. revert s H.
  induction p as [|c p IH]; intros s H.
  - simpl. rewrite Nat.sub_0_r.
    symmetry. apply NodePathFacts.substring_all.
  - destruct s as [|d s]; simpl in H; [discriminate|].
    destruct (ascii_dec c d) as [->|]; [|discriminate].
    simpl. f_equal. apply IH. exact H.
Qed.

Lemma append_assoc (a b c : string) : (a ++ b) ++ c = a ++ b ++ c.
Proof. induction a as [|x a IH]; simpl; [reflexivity | rewrite IH; reflexivity]. Qed.

Lemma disk_read_other p path files :
  p <> path ->
  Serve.disk_read p (Delete.disk_remove path files) = Serve.disk_read p files.
Proof.
  intros Hp. unfold Delete.disk_remove.
  induction files as [|[q c] rest IH]; simpl; [reflexivity|].
  destruct (String.eqb q path) eqn:Eq; simpl.
  - apply String.eqb_eq in Eq. subst q.
    assert (String.eqb path p = false) as ->
        by (apply String.eqb_neq; congruence).
    exact IH.
  - rewrite IH. reflexivity.
Qed.

Lemma authorize_inr s hdr cfg :
  authorize s hdr = inr cfg ->
  exists key,
    configured_key s = Some key /\ hdr = "Bearer " ++ key
    /\ Db.FirstOrDefault (fun c => String.eqb (SetupType c) "node")
                         (SetupConfigs s) = Some cfg.
Proof.
  unfold authorize, configured_key.
  destruct (String.eqb hdr ""); [discriminate|].
  destruct (Strings.HasPrefix hdr "Bearer ") eqn:Hp; [|discriminate].
  simpl negb. cbv iota.
  destruct (Db.FirstOrDefault _ (SetupConfigs s)) as [c|]; [|discriminate].
  destruct (ConfigData c) as [m|]; [|discriminate].
  destruct (lookup "node_auth_key" m) as [[k|]|]; try discriminate.
  destruct (String.eqb k ""); [discriminate|].
  destruct (String.eqb k (Strings.TrimPrefix hdr "Bearer ")) eqn:E;
    [|discriminate].
  intros H. inversion H; subst c. apply String.eqb_eq in E.
  exists k. split; [reflexivity|]. split; [|reflexivity].
  rewrite E. apply HasPrefix_split. exact Hp.
Qed.

Lemma authorize_inl s hdr r :
  authorize s hdr = inl r -> status r = 401 \/ status r = 500.
Proof.
  unfold authorize.
  repeat (break_match; try discriminate);
    intros H; inversion H; simpl; auto.
Qed.

Lemma authorize_ok s key cfg :
  configured_key s = Some key ->
  Db.FirstOrDefault (fun c => String.eqb (SetupType c) "node")
                    (SetupConfigs s) = Some cfg ->
  authorize s ("Bearer " ++ key) = inr cfg.
Proof.
  unfold configured_key, authorize. intros Hk Hc. rewrite Hc in *.
  change (String.eqb ("Bearer " ++ key) "") with false. cbv iota.
  rewrite (RegisterFacts.TrimPrefix_append "Bearer " key).
  unfold Strings.HasPrefix. rewrite RegisterFacts.prefix_append.
  simpl negb. cbv iota.
  destruct (ConfigData cfg) as [m|]; [|discriminate].
  destruct (lookup "node_auth_key" m) as [[k|]|]; try discriminate.
  destruct (String.eqb k ""); [discriminate|].
  inversion Hk; subst k. rewrite String.eqb_refl. reflexivity.
Qed.

Section WithParse.

Variable uuid_Parse : string -> option uuid.

(** No internal endpoint does anything for a caller that does not
    present the node's configured key as a bearer token: the upload and
    the delete leave the node's state as it is, and all three answer 401
    or 500, never with content.  A node with no usable key configured
    refuses every caller. *)
Theorem internal_endpoints_need_the_key s hdr :
  (forall key, configured_key s = Some key -> hdr <> "Bearer " ++ key) ->
  (forall req env,
      up_authorization req = hdr ->
      snd (InternalUpload uuid_Parse s req env) = s
      /\ (status (fst (InternalUpload uuid_Parse s req env)) = 401
          \/ status (fst (InternalUpload uuid_Parse s req env)) = 500))
  /\ (forall req remove_fails,
         del_authorization req = hdr ->
         snd (InternalDelete s req remove_fails) = s
         /\ (status (fst (InternalDelete s req remove_fails)) = 401
             \/ status (fst (InternalDelete s req remove_fails)) = 500))
  /\ (forall req,
         get_authorization req = hdr ->
         status (InternalFile uuid_Parse s req) = 401
         \/ status (InternalFile uuid_Parse s req) = 500).
Proof.
  intros Hkey.
  assert (Hno : exists r, authorize s hdr = inl r
                          /\ (status r = 401 \/ status r = 500)).
  { destruct (authorize s hdr) as [r|cfg] eqn:E.
    - exists r. split; [reflexivity|]. exact (authorize_inl _ _ _ E).
    - destruct (authorize_inr _ _ _ E) as (key & Hk & Hh & _).
      exfalso. exact (Hkey key Hk Hh). }
  destruct Hno as (r & Hr & Hst).
  split; [|split].
  - intros req env Hh. unfold InternalUpload. rewrite Hh, Hr. simpl.
    split; [reflexivity | exact Hst].
  - intros req rf Hh. unfold InternalDelete. rewrite Hh, Hr. simpl.
    split; [reflexivity | exact Hst].
  - intros req Hh. unfold InternalFile. rewrite Hh, Hr. exact Hst.
Qed.

Lemma InternalUpload_ok s req env key cfg content fid bid :
  configured_key s = Some key ->
  Db.FirstOrDefault (fun c => String.eqb (SetupType c) "node")
                    (SetupConfigs s) = Some cfg ->
  StoragePath cfg <> "" ->
  up_authorization req = "Bearer " ++ key ->
  up_file req = Some content ->
  up_bucket_id req <> "" -> up_bucket_name req <> "" ->
  up_file_id req <> "" -> up_filename req <> "" ->
  mkdir_ok env = true -> save_file_ok env = true ->
  uuid_Parse (up_file_id req) = Some fid ->
  uuid_Parse (up_bucket_id req) = Some bid ->
  let filePath :=
    (StoragePath cfg ++ "/" ++ up_bucket_name req) ++ "/" ++ up_file_id req in
  let row :=
    NodeFileMetadata.mk fid bid (up_bucket_name req) (up_filename req)
                        filePath (Z.of_nat (String.length content)) in
  InternalUpload uuid_Parse s req env
  = (mkHttp 200 (Uploaded "File uploaded successfully to storage node"
                          filePath (Z.of_nat (String.length content))),
     mkState (SetupConfigs s)
             (if save_meta_ok env
              then match Db.Add [NodeFileMetadata.Id] row (Metadata s) with
                   | Some rows' => rows'
                   | None => Metadata s
                   end
              else Metadata s)
             ((filePath, content) :: disk s)).
Proof.
  intros Hk Hc Hsp Hh Hf Hb Hn Hi Hfn Hmk Hsv Hfid Hbid filePath row.
  unfold InternalUpload. rewrite Hh, (authorize_ok s key cfg Hk Hc), Hf.
  apply String.eqb_neq in Hb, Hn, Hi, Hfn, Hsp.
  rewrite Hb, Hn, Hi, Hfn, Hsp, Hmk, Hsv, Hfid, Hbid. simpl. reflexivity.
Qed.

Lemma find_appended_row (rows : list NodeFileMetadata.t) row :
  (forall m, In m rows -> NodeFileMetadata.Id m <> NodeFileMetadata.Id row) ->
  Db.FirstOrDefault
    (fun m => (String.eqb (NodeFileMetadata.Id m) (NodeFileMetadata.Id row)
               && String.eqb (NodeFileMetadata.BucketId m)
                             (NodeFileMetadata.BucketId row))%bool)
    (rows ++ [row])
  = Some row.
Proof.
  unfold Db.FirstOrDefault. induction rows as [|x xs IH]; intros Hfresh; simpl.
  - rewrite !String.eqb_refl. reflexivity.
  - assert (E : String.eqb (NodeFileMetadata.Id x) (NodeFileMetadata.Id row)
                = false).
    { apply String.eqb_neq. apply Hfresh. left. reflexivity. }
    rewrite E. simpl. apply IH. intros m Hm. apply Hfresh. right. exact Hm.
Qed.

Lemma Add_fresh (rows : list NodeFileMetadata.t) row :
  (forall m, In m rows -> NodeFileMetadata.Id m <> NodeFileMetadata.Id row) ->
  Db.Add [NodeFileMetadata.Id] row rows = Some (rows ++ [row])%list.
Proof.
  intros Hfresh. unfold Db.Add. simpl. rewrite orb_false_r.
  destruct (existsb _ rows) eqn:E; [|reflexivity].
  apply existsb_exists in E. destruct E as (m & Hin & Heq).
  apply String.eqb_eq in Heq. exfalso. exact (Hfresh m Hin Heq).
Qed.

Lemma InternalFile_found s1 key cfg hdr bucket_id file_id filename fid bid
      row :
  configured_key s1 = Some key ->
  Db.FirstOrDefault (fun c => String.eqb (SetupType c) "node")
                    (SetupConfigs s1) = Some cfg ->
  hdr = "Bearer " ++ key ->
  bucket_id <> "" -> file_id <> "" -> filename <> "" ->
  uuid_Parse file_id = Some fid ->
  uuid_Parse bucket_id = Some bid ->
  Db.FirstOrDefault
    (fun m => (String.eqb (NodeFileMetadata.Id m) fid
               && String.eqb (NodeFileMetadata.BucketId m) bid)%bool)
    (Metadata s1) = Some row ->
  InternalFile uuid_Parse s1 (mkFileRequest hdr bucket_id file_id filename)
  = match Serve.disk_read (NodeFileMetadata.Path row) (disk s1) with
    | None => mkHttp 404 (ErrorBody "File not found on disk")
    | Some data => mkHttp 200 (Content data)
    end.
Proof.
  intros Hk Hc Hh Hb Hi Hn Hfid Hbid Hrow. unfold InternalFile.
  cbn [get_authorization get_bucket_id get_file_id get_filename].
  rewrite Hh, (authorize_ok s1 key cfg Hk Hc).
  apply String.eqb_neq in Hb, Hi, Hn. rewrite Hb, Hi, Hn.
  cbn [orb]. rewrite Hfid, Hbid, Hrow. reflexivity.
Qed.

(** Round trip on the node.  A well-formed upload by a caller holding
    the key, under an id the metadata table does not hold yet, answers
    200 with the path [<storage>/<bucket name>/<file id>] and the size of
    the content; from then on InternalFile, asked for that bucket id and
    file id with any non-empty filename, delivers exactly the uploaded
    bytes. *)
Theorem node_serves_what_it_stored s req env key cfg content fid bid
        filename :
  configured_key s = Some key ->
  Db.FirstOrDefault (fun c => String.eqb (SetupType c) "node")
                    (SetupConfigs s) = Some cfg ->
  StoragePath cfg <> "" ->
  up_authorization req = "Bearer " ++ key ->
  up_file req = Some content ->
  up_bucket_id req <> "" -> up_bucket_name req <> "" ->
  up_file_id req <> "" -> up_filename req <> "" ->
  mkdir_ok env = true -> save_file_ok env = true ->
  save_meta_ok env = true ->
  uuid_Parse (up_file_id req) = Some fid ->
  uuid_Parse (up_bucket_id req) = Some bid ->
  (forall m, In m (Metadata s) -> NodeFileMetadata.Id m <> fid) ->
  filename <> "" ->
  fst (InternalUpload uuid_Parse s req env)
  = mkHttp 200
      (Uploaded "File uploaded successfully to storage node"
                (StoragePath cfg ++ "/" ++ up_bucket_name req ++ "/"
                             ++ up_file_id req)
                (Z.of_nat (String.length content)))
  /\ InternalFile uuid_Parse (snd (InternalUpload uuid_Parse s req env))
       (mkFileRequest (up_authorization req) (up_bucket_id req)
                      (up_file_id req) filename)
     = mkHttp 200 (Content content).
Proof.
  intros Hk Hc Hsp Hh Hf Hb Hn Hi Hfn Hmk Hsv Hmeta Hfid Hbid Hfresh Hname.
  pose proof (InternalUpload_ok s req env key cfg content fid bid
                Hk Hc Hsp Hh Hf Hb Hn Hi Hfn Hmk Hsv Hfid Hbid) as HU.
  cbv zeta in HU. rewrite Hmeta, Add_fresh in HU by exact Hfresh.
  set (path := (StoragePath cfg ++ "/" ++ up_bucket_name req)
                 ++ "/" ++ up_file_id req) in HU.
  set (row := NodeFileMetadata.mk fid bid (up_bucket_name req)
                (up_filename req) path (Z.of_nat (String.length content)))
    in HU.
  rewrite HU. cbn [fst snd]. split.
  - unfold path. rewrite append_assoc. reflexivity.
  - rewrite (InternalFile_found
               (mkState (SetupConfigs s) (Metadata s ++ [row])
                        ((path, content) :: disk s))
               key cfg _ _ _ _ fid bid row
               Hk Hc Hh Hb Hi Hname Hfid Hbid
               (find_appended_row (Metadata s) row Hfresh)).
    cbn [NodeFileMetadata.Path row disk Serve.disk_read].
    rewrite String.eqb_refl. reflexivity.
Qed.

(** InternalDelete removes bytes, never metadata.  It leaves the node's
    metadata table and configuration as they are, whatever the request;
    an authorized, well-formed delete whose removal works answers 200
    and leaves nothing at [<storage>/<bucket name>/<file name>], so that
    deleting the same object again also answers 200, with nothing left
    to do. *)
Theorem node_delete_keeps_metadata s :
  (forall req remove_fails,
      Metadata (snd (InternalDelete s req remove_fails)) = Metadata s
      /\ SetupConfigs (snd (InternalDelete s req remove_fails))
         = SetupConfigs s)
  /\ (forall req key cfg,
         configured_key s = Some key ->
         Db.FirstOrDefault (fun c => String.eqb (SetupType c) "node")
                           (SetupConfigs s) = Some cfg ->
         StoragePath cfg <> "" ->
         del_authorization req = "Bearer " ++ key ->
         del_bucket_name req <> "" -> del_file_name req <> "" ->
         let path := StoragePath cfg ++ "/" ++ del_bucket_name req ++ "/"
                                 ++ del_file_name req in
         let s1 := snd (InternalDelete s req false) in
         status (fst (InternalDelete s req false)) = 200
         /\ Serve.disk_read path (disk s1) = None
         /\ (forall p, p <> path ->
                       Serve.disk_read p (disk s1) = Serve.disk_read p (disk s))
         /\ forall remove_fails,
             InternalDelete s1 req remove_fails
             = (mkHttp 200
                  (Deleted "File already deleted or does not exist" None),
                s1)).
Proof.
  split.
  - intros req rf. unfold InternalDelete.
    repeat (break_match; simpl; try (split; reflexivity)).
  - intros req key cfg Hk Hc Hsp Hh Hb Hf path s1.
    assert (Hgone : Serve.disk_read path (disk s1) = None
                    /\ (forall p, p <> path ->
                          Serve.disk_read p (disk s1)
                          = Serve.disk_read p (disk s))
                    /\ status (fst (InternalDelete s req false)) = 200
                    /\ SetupConfigs s1 = SetupConfigs s).
    { subst s1. unfold InternalDelete.
      rewrite Hh, (authorize_ok s key cfg Hk Hc).
      cbv zeta.
      apply String.eqb_neq in Hb, Hf, Hsp. rewrite Hb, Hf, Hsp. cbn [orb].
      fold path.
      destruct (Serve.disk_read path (disk s)) eqn:E;
        cbn [fst snd status disk SetupConfigs].
      - split; [apply DeleteFacts.disk_read_removed|].
        split; [|split; reflexivity].
        intros p Hp. apply disk_read_other. exact Hp.
      - split; [exact E|]. split; [reflexivity|]. split; reflexivity. }
    destruct Hgone as (Hnone & Hother & Hst & Hcfg).
    split; [exact Hst|]. split; [exact Hnone|]. split; [exact Hother|].
    intros rf. unfold InternalDelete. rewrite Hh.
    assert (Hk1 : configured_key s1 = Some key).
    { unfold configured_key. rewrite Hcfg. exact Hk. }
    assert (Hc1 : Db.FirstOrDefault
                    (fun c => String.eqb (SetupType c) "node")
                    (SetupConfigs s1) = Some cfg).
    { rewrite Hcfg. exact Hc. }
    rewrite (authorize_ok s1 key cfg Hk1 Hc1). cbv zeta.
    apply String.eqb_neq in Hb, Hf, Hsp. rewrite Hb, Hf, Hsp. cbn [orb].
    fold path. rewrite Hnone. reflexivity.
Qed.

(** A dangling row.  After an object has been stored and then deleted
    on the node, its metadata row is still there, and InternalFile
    answers 404 with "File not found on disk" rather than "File not
    found in node metadata". *)
Theorem deleted_object_leaves_its_row s req env key cfg content fid bid
        filename :
  configured_key s = Some key ->
  Db.FirstOrDefault (fun c => String.eqb (SetupType c) "node")
                    (SetupConfigs s) = Some cfg ->
  StoragePath cfg <> "" ->
  up_authorization req = "Bearer " ++ key ->
  up_file req = Some content ->
  up_bucket_id req <> "" -> up_bucket_name req <> "" ->
  up_file_id req <> "" -> up_filename req <> "" ->
  mkdir_ok env = true -> save_file_ok env = true ->
  save_meta_ok env = true ->
  uuid_Parse (up_file_id req) = Some fid ->
  uuid_Parse (up_bucket_id req) = Some bid ->
  (forall m, In m (Metadata s) -> NodeFileMetadata.Id m <> fid) ->
  filename <> "" ->
  let s1 := snd (InternalUpload uuid_Parse s req env) in
  let s2 := snd (InternalDelete s1
                   (mkDelete (up_authorization req) (up_bucket_name req)
                             (up_file_id req)) false) in
  Metadata s2 = Metadata s1
  /\ List.length (Metadata s1) = S (List.length (Metadata s))
  /\ InternalFile uuid_Parse s2
       (mkFileRequest (up_authorization req) (up_bucket_id req)
                      (up_file_id req) filename)
     = mkHttp 404 (ErrorBody "File not found on disk").
Proof.
  intros Hk Hc Hsp Hh Hf Hb Hn Hi Hfn Hmk Hsv Hmeta Hfid Hbid Hfresh Hname
         s1 s2.
  pose proof (InternalUpload_ok s req env key cfg content fid bid
                Hk Hc Hsp Hh Hf Hb Hn Hi Hfn Hmk Hsv Hfid Hbid) as HU.
  cbv zeta in HU. rewrite Hmeta, Add_fresh in HU by exact Hfresh.
  set (path := (StoragePath cfg ++ "/" ++ up_bucket_name req)
                 ++ "/" ++ up_file_id req) in HU.
  set (row := NodeFileMetadata.mk fid bid (up_bucket_name req)
                (up_filename req) path (Z.of_nat (String.length content)))
    in HU.
  assert (Hs1 : s1 = mkState (SetupConfigs s) (Metadata s ++ [row])
                             ((path, content) :: disk s)).
  { subst s1. rewrite HU. reflexivity. }
  clearbody s1. subst s1.
  set (s1 := mkState (SetupConfigs s) (Metadata s ++ [row])
                     ((path, content) :: disk s)) in *.
  assert (Hp : StoragePath cfg ++ "/" ++ up_bucket_name req ++ "/"
                           ++ up_file_id req = path).
  { unfold path. rewrite append_assoc. reflexivity. }
  assert (Hdel : s2 = mkState (SetupConfigs s) (Metadata s ++ [row])
                        (Delete.disk_remove path
                           ((path, content) :: disk s))).
  { subst s2. unfold InternalDelete.
    cbn [del_authorization del_bucket_name del_file_name].
    rewrite Hh.
    rewrite (authorize_ok s1 key cfg Hk Hc).
    pose proof Hn as Hn'. pose proof Hi as Hi'. pose proof Hsp as Hsp'.
    apply String.eqb_neq in Hn', Hi', Hsp'. rewrite Hn', Hi', Hsp'.
    cbn [orb]. rewrite Hp.
    cbn [disk s1 Serve.disk_read]. rewrite String.eqb_refl. reflexivity. }
  clearbody s2. subst s2.
  split; [reflexivity|]. split.
  - cbn [Metadata s1]. rewrite length_app. simpl. lia.
  - rewrite (InternalFile_found
               (mkState (SetupConfigs s) (Metadata s ++ [row])
                        (Delete.disk_remove path ((path, content) :: disk s)))
               key cfg _ _ _ _ fid bid row
               Hk Hc Hh Hb Hi Hname Hfid Hbid
               (find_appended_row (Metadata s) row Hfresh)).
    cbn [NodeFileMetadata.Path row disk].
    rewrite DeleteFacts.disk_read_removed. reflexivity.
Qed.

(** Bytes without a record.  When the file id of an otherwise accepted
    upload does not parse, the node answers 500, which the master takes
    for a rejection, but the bytes have been written to the node's disk
    and stay there; no metadata row is added. *)
Theorem unparsable_id_leaves_bytes_behind s req env key cfg content :
  configured_key s = Some key ->
  Db.FirstOrDefault (fun c => String.eqb (SetupType c) "node")
                    (SetupConfigs s) = Some cfg ->
  StoragePath cfg <> "" ->
  up_authorization req = "Bearer " ++ key ->
  up_file req = Some content ->
  up_bucket_id req <> "" -> up_bucket_name req <> "" ->
  up_file_id req <> "" -> up_filename req <> "" ->
  mkdir_ok env = true -> save_file_ok env = true ->
  uuid_Parse (up_file_id req) = None ->
  let out := InternalUpload uuid_Parse s req env in
  status (fst out) = 500
  /\ Upload.accepted (Status (status (fst out))) = false
  /\ Metadata (snd out) = Metadata s
  /\ Serve.disk_read ((StoragePath cfg ++ "/" ++ up_bucket_name req) ++ "/"
                        ++ up_file_id req) (disk (snd out))
     = Some content.
Proof.
  intros Hk Hc Hsp Hh Hf Hb Hn Hi Hfn Hmk Hsv Hfid out. subst out.
  unfold InternalUpload. rewrite Hh, (authorize_ok s key cfg Hk Hc), Hf.
  apply String.eqb_neq in Hb, Hn, Hi, Hfn, Hsp.
  rewrite Hb, Hn, Hi, Hfn, Hsp, Hmk, Hsv, Hfid. simpl.
  rewrite String.eqb_refl. repeat split.
Qed.

(** The master's upload request and the node's handler fit together.
    For a node configured with the key the master holds for it, the
    request built by uploadToNode passes every check of InternalUpload:
    when the node's answer is what the master receives, uploadToNode
    reports the upload as accepted and the bytes are on the node's disk
    under [<storage>/<bucket name>/<file id>]. *)
Theorem master_upload_lands_on_node w node cmd env s nenv cfg content bucket
        fid bid :
  Upload.read_body env = Some content ->
  Db.FirstOrDefault (Upload.bucket_of cmd) (Buckets (db w)) = Some bucket ->
  configured_key s = Some (StorageNode.AuthKey node) ->
  Db.FirstOrDefault (fun c => String.eqb (SetupType c) "node")
                    (SetupConfigs s) = Some cfg ->
  StoragePath cfg <> "" ->
  Upload.BucketID cmd <> "" -> Bucket.Name bucket <> "" ->
  Upload.fileID env <> "" -> Upload.FileName cmd <> "" ->
  mkdir_ok nenv = true -> save_file_ok nenv = true ->
  uuid_Parse (Upload.fileID env) = Some fid ->
  uuid_Parse (Upload.BucketID cmd) = Some bid ->
  let p := mkPost (StorageNode.Id node) (Upload.BucketID cmd)
                  (Bucket.Name bucket) (Upload.fileID env)
                  (Upload.FileName cmd) content in
  let out := InternalUpload uuid_Parse s (upload_request node p) nenv in
  Upload.node_reply env = Status (status (fst out)) ->
  fst (Upload.uploadToNode w node cmd env) = Ok true
  /\ posted (snd (Upload.uploadToNode w node cmd env))
     = (posted w ++ [p])%list
  /\ Serve.disk_read (StoragePath cfg ++ "/" ++ Bucket.Name bucket ++ "/"
                                   ++ Upload.fileID env) (disk (snd out))
     = Some content.
Proof.
  intros Hbody Hbucket Hk Hc Hsp Hb Hn Hi Hfn Hmk Hsv Hfid Hbid p out.
  pose proof (InternalUpload_ok s (upload_request node p) nenv
                (StorageNode.AuthKey node) cfg content fid bid
                Hk Hc Hsp eq_refl eq_refl Hb Hn Hi Hfn Hmk Hsv Hfid Hbid)
    as HU.
  cbv zeta in HU. subst out. rewrite HU. cbn [fst snd status disk].
  intros Hreply. split; [|split].
  - unfold Upload.uploadToNode. rewrite Hbody, Hbucket, Hreply. reflexivity.
  - unfold Upload.uploadToNode. rewrite Hbody, Hbucket, Hreply. reflexivity.
  - assert (Hp : (StoragePath cfg ++ "/"
                    ++ up_bucket_name (upload_request node p))
                   ++ "/" ++ up_file_id (upload_request node p)
                 = StoragePath cfg ++ "/" ++ Bucket.Name bucket ++ "/"
                               ++ Upload.fileID env)
      by (rewrite append_assoc; reflexivity).
    rewrite Hp. cbn [Serve.disk_read].
    rewrite String.eqb_refl. reflexivity.
Qed.

End WithParse.

Lemma internal_endpoints_need_the_key_witness :
  snd (InternalUpload Demo.uuid_Parse (Samples.node_state [] [])
         (mkUpload "Bearer key-1" (Some "hello") "b-1" "photos" "f-1"
                   "hello.txt")
         Samples.node_env)
  = Samples.node_state [] [].
Proof.
  destruct (internal_endpoints_need_the_key
              Demo.uuid_Parse (Samples.node_state [] []) "Bearer key-1")
    as (Hup & _ & _).
  - intros key Hkey. vm_compute in Hkey. inversion Hkey. discriminate.
  - destruct (Hup (mkUpload "Bearer key-1" (Some "hello") "b-1" "photos"
                            "f-1" "hello.txt")
                  Samples.node_env eq_refl) as [H _].
    exact H.
Defined.

Lemma node_serves_what_it_stored_witness :
  InternalFile Demo.uuid_Parse
    (snd (InternalUpload Demo.uuid_Parse (Samples.node_state [] [])
            (Samples.node_upload "f-1") Samples.node_env))
    (mkFileRequest "Bearer key-2" "b-1" "f-1" "hello.txt")
  = mkHttp 200 (Content "hello").
Proof.
  destruct (node_serves_what_it_stored
              Demo.uuid_Parse (Samples.node_state [] [])
              (Samples.node_upload "f-1") Samples.node_env "key-2"
              (mkConfig "node" "/srv"
                 (Some [("node_auth_key", JString "key-2")]))
              "hello" "f-1" "b-1" "hello.txt")
    as [_ H];
    [> first [reflexivity | intros E; discriminate E
                | intros m Hm; destruct Hm] .. | exact H].
Defined.

Lemma node_delete_keeps_metadata_witness :
  status (fst (InternalDelete
                 (Samples.node_state [] [("/srv/photos/f-1", "hello")])
                 (mkDelete "Bearer key-2" "photos" "f-1") false))
  = 200.
Proof.
  destruct (node_delete_keeps_metadata
              (Samples.node_state [] [("/srv/photos/f-1", "hello")]))
    as [_ Hdel].
  destruct (Hdel (mkDelete "Bearer key-2" "photos" "f-1") "key-2"
              (mkConfig "node" "/srv"
                 (Some [("node_auth_key", JString "key-2")])))
    as [H _];
    [> first [reflexivity | intros E; discriminate E
                | intros m Hm; destruct Hm] .. | exact H].
Defined.

Lemma deleted_object_leaves_its_row_witness :
  InternalFile Demo.uuid_Parse
    (snd (InternalDelete
            (snd (InternalUpload Demo.uuid_Parse (Samples.node_state [] [])
                    (Samples.node_upload "f-1") Samples.node_env))
            (mkDelete "Bearer key-2" "photos" "f-1") false))
    (mkFileRequest "Bearer key-2" "b-1" "f-1" "hello.txt")
  = mkHttp 404 (ErrorBody "File not found on disk").
Proof.
  destruct (deleted_object_leaves_its_row
              Demo.uuid_Parse (Samples.node_state [] [])
              (Samples.node_upload "f-1") Samples.node_env "key-2"
              (mkConfig "node" "/srv"
                 (Some [("node_auth_key", JString "key-2")]))
              "hello" "f-1" "b-1" "hello.txt")
    as (_ & _ & H);
    [> first [reflexivity | intros E; discriminate E
                | intros m Hm; destruct Hm] .. | exact H].
Defined.

Lemma unparsable_id_leaves_bytes_behind_witness :
  Serve.disk_read "/srv/photos/not-a-uuid"
    (disk (snd (InternalUpload Samples.strict_Parse
                  (Samples.node_state [] [])
                  (Samples.node_upload "not-a-uuid") Samples.node_env)))
  = Some "hello".
Proof.
  destruct (unparsable_id_leaves_bytes_behind
              Samples.strict_Parse (Samples.node_state [] [])
              (Samples.node_upload "not-a-uuid") Samples.node_env "key-2"
              (mkConfig "node" "/srv"
                 (Some [("node_auth_key", JString "key-2")]))
              "hello")
    as (_ & _ & _ & H);
    [> first [reflexivity | intros E; discriminate E
                | intros m Hm; destruct Hm] .. | exact H].
Defined.

Lemma master_upload_lands_on_node_witness :
  fst (Upload.uploadToNode (Demo.world [] [Demo.large_node]) Demo.large_node
                           (Demo.upload 150) (Demo.env_ok "f-1"))
  = Ok true.
Proof.
  destruct (master_upload_lands_on_node
              Demo.uuid_Parse (Demo.world [] [Demo.large_node])
              Demo.large_node (Demo.upload 150) (Demo.env_ok "f-1")
              (Samples.node_state [] []) Samples.node_env
              (mkConfig "node" "/srv"
                 (Some [("node_auth_key", JString "key-2")]))
              "hello" Demo.bucket "f-1" "b-1")
    as [H _];
    [> first [reflexivity | intros E; discriminate E
                | intros m Hm; destruct Hm] .. | exact H].
Defined.

End InternalFacts.

(** ** API keys *)

Module ApiKeyFacts.

Import ApiKeys.

Lemma find_last_by_hash (rows : list APIKey.t) (row : APIKey.t) :
  existsb (fun r => String.eqb (APIKey.KeyHash r) (APIKey.KeyHash row)) rows
  = false ->
  APIKey.IsActive row = true ->
  Db.FirstOrDefault
    (fun k => (String.eqb (APIKey.KeyHash k) (APIKey.KeyHash row)
               && APIKey.IsActive k)%bool)
    (rows ++ [row])
  = Some row.
Proof.
  intros Hfresh Hact. unfold Db.FirstOrDefault.
  induction rows as [|x xs IH]; simpl in *.
  - rewrite String.eqb_refl, Hact. reflexivity.
  - apply orb_false_iff in Hfresh. destruct Hfresh as [Hx Hxs].
    rewrite Hx. simpl. apply IH. exact Hxs.
Qed.

Lemma existsb_fresh {A} (p : A -> bool) (l : list A) :
  (forall k, In k l -> p k = false) -> existsb p l = false.
Proof.
  induction l as [|x xs IH]; intros H; simpl; [reflexivity|].
  rewrite (H x (or_introl eq_refl)). simpl.
  apply IH. intros k Hk. apply H. right. exact Hk.
Qed.

Lemma hash_identifies (rows : list APIKey.t) (a b : APIKey.t) :
  NoDup (map APIKey.KeyHash rows) ->
  In a rows -> In b rows -> APIKey.KeyHash a = APIKey.KeyHash b -> a = b.
Proof.
  induction rows as [|x xs IH]; intros Hnd Ha Hb Hh; [contradiction|].
  simpl in Hnd. inversion Hnd as [|? ? Hnotin Hnd']; subst.
  destruct Ha as [->|Ha], Hb as [->|Hb].
  - reflexivity.
  - exfalso. apply Hnotin. rewrite Hh. apply in_map. exact Hb.
  - exfalso. apply Hnotin. rewrite <- Hh. apply in_map. exact Ha.
  - apply IH; assumption.
Qed.

Section WithHash.

Variable sha256_hex : string -> string.

(** Round trip.  A key created for an existing user, under an id and a
    hash the table does not hold yet, is returned once in plain form as
    "shb_" followed by the random hex digits, and from then on
    validateAPIKey accepts that plain key exactly as granted: for a
    bucket and a time it answers true if and only if the key has the
    read permission, its bucket list is empty or names the bucket, and
    it has no expiry or the expiry is not before that time. *)
Theorem created_key_validates_as_granted st command env hex user :
  random_hex env = Some hex ->
  marshal_ok env = true ->
  save_ok env = true ->
  (forall k, In k (APIKeys st) ->
             APIKey.Id k <> new_id env
             /\ APIKey.KeyHash k <> sha256_hex ("shb_" ++ hex)) ->
  Db.FirstOrDefault (fun u => String.eqb (User.Id u) (UserID command))
                    (Users st) = Some user ->
  fst (Create sha256_hex st command env)
  = Ok (mkCreateResponse ("shb_" ++ hex) (substring 0 12 ("shb_" ++ hex))
                         (Name command) (User.Username user))
  /\ forall bucketID now,
      validateAPIKey sha256_hex (snd (Create sha256_hex st command env))
                     ("shb_" ++ hex) bucketID now
      = (APIKeyPermission.Read (Permissions command)
         && match APIKeyPermission.Buckets (Permissions command) with
            | [] => true
            | allowed => existsb (fun b => String.eqb b bucketID) allowed
            end
         && match ExpiresAt command with
            | Some expiresAt => negb (expiresAt <? now)
            | None => true
            end)%bool.
Proof.
  intros Hrand Hmar Hsave Hfresh Huser.
  set (row := APIKey.mk (new_id env) (Name command)
                (sha256_hex ("shb_" ++ hex))
                (substring 0 12 ("shb_" ++ hex)) (UserID command) true
                (Some (Permissions command)) (ExpiresAt command)).
  assert (Hid : existsb (fun r => String.eqb (APIKey.Id r) (APIKey.Id row))
                        (APIKeys st) = false).
  { apply existsb_fresh. intros k Hin. apply String.eqb_neq.
    exact (proj1 (Hfresh k Hin)). }
  assert (Hhash : existsb (fun r => String.eqb (APIKey.KeyHash r)
                                               (APIKey.KeyHash row))
                          (APIKeys st) = false).
  { apply existsb_fresh. intros k Hin. apply String.eqb_neq.
    exact (proj2 (Hfresh k Hin)). }
  assert (HC : Create sha256_hex st command env
               = (Ok (mkCreateResponse ("shb_" ++ hex)
                        (substring 0 12 ("shb_" ++ hex))
                        (Name command) (User.Username user)),
                  mkStore (APIKeys st ++ [row]) (Users st))).
  { unfold Create, generateAPIKey. rewrite Hrand, Hmar, Hsave.
    cbn [negb]. fold row. unfold Db.Add. cbn [existsb].
    rewrite Hid, Hhash. cbn [orb Users]. rewrite Huser. reflexivity. }
  rewrite HC. split; [reflexivity|].
  intros bucketID now. unfold validateAPIKey. cbn [snd APIKeys].
  change (sha256_hex ("shb_" ++ hex)) with (APIKey.KeyHash row).
  rewrite (find_last_by_hash (APIKeys st) row Hhash eq_refl).
  cbn [APIKey.ExpiresAt APIKey.Permissions row].
  destruct (ExpiresAt command) as [t|].
  - destruct (t <? now); cbn [negb].
    + rewrite andb_false_r. reflexivity.
    + rewrite andb_true_r.
      destruct (APIKeyPermission.Buckets (Permissions command)) as [|b bs];
        [cbn; rewrite andb_true_r; reflexivity|].
      cbn [List.length Nat.ltb Nat.leb andb].
      destruct (existsb _ (b :: bs)); cbn [negb];
        [rewrite andb_true_r | rewrite andb_false_r]; reflexivity.
  - rewrite andb_true_r.
    destruct (APIKeyPermission.Buckets (Permissions command)) as [|b bs];
      [cbn; rewrite andb_true_r; reflexivity|].
    cbn [List.length Nat.ltb Nat.leb andb].
    destruct (existsb _ (b :: bs)); cbn [negb];
      [rewrite andb_true_r | rewrite andb_false_r]; reflexivity.
Qed.

(** Revocation.  With key hashes unique, as the column's index has
    them, deleting a key by its id and owner makes validateAPIKey refuse
    its plain form for every bucket and at every time, and leaves the
    other keys in place. *)
Theorem deleted_key_is_refused st command key plain :
  NoDup (map APIKey.KeyHash (APIKeys st)) ->
  Db.FirstOrDefault
    (fun k => (String.eqb (APIKey.Id k) (ID command)
               && String.eqb (APIKey.UserId k) (Del_UserID command))%bool)
    (APIKeys st) = Some key ->
  APIKey.KeyHash key = sha256_hex plain ->
  fst (Delete st command true) = Ok "API key deleted successfully"
  /\ (forall bucketID now,
         validateAPIKey sha256_hex (snd (Delete st command true))
                        plain bucketID now = false)
  /\ (forall k, In k (APIKeys st) -> APIKey.Id k <> APIKey.Id key ->
                In k (APIKeys (snd (Delete st command true)))).
Proof.
  intros Hnd Hfind Hhash. unfold Delete. rewrite Hfind. cbn [fst snd].
  split; [reflexivity|]. split.
  - intros bucketID now. unfold validateAPIKey. cbn [APIKeys].
    destruct (Db.FirstOrDefault _ (Db.Remove APIKey.Id key (APIKeys st)))
      as [r|] eqn:E; [|reflexivity].
    exfalso. apply DbFacts.find_In in E. destruct E as [Hin Hp].
    apply andb_true_iff in Hp. destruct Hp as [Hh _].
    apply String.eqb_eq in Hh.
    unfold Db.Remove in Hin. apply filter_In in Hin.
    destruct Hin as [Hin Hne].
    assert (r = key).
    { apply (hash_identifies (APIKeys st)); try assumption.
      - apply (DbFacts.find_In _ _ _ Hfind).
      - congruence. }
    subst r. rewrite String.eqb_refl in Hne. discriminate.
  - intros k Hin Hne. cbn [APIKeys]. unfold Db.Remove.
    apply filter_In. split; [exact Hin|].
    apply String.eqb_neq in Hne. rewrite Hne. reflexivity.
Qed.

End WithHash.

Lemma created_key_validates_as_granted_witness :
  validateAPIKey Demo.sha256_hex
    (snd (Create Demo.sha256_hex Samples.key_store Samples.create_key
                 Samples.key_env))
    ("shb_" ++ "000102030405060708090a0b0c0d0e0f101112131415161718191a1b1c1d1e1f")
    "b-1" 100
  = true.
Proof.
  destruct (created_key_validates_as_granted
              Demo.sha256_hex Samples.key_store Samples.create_key
              Samples.key_env
              "000102030405060708090a0b0c0d0e0f101112131415161718191a1b1c1d1e1f"
              (User.mk "u-1" "ada"))
    as [_ H];
    [> first [reflexivity | intros k Hk; destruct Hk] .. | exact (H "b-1" 100)].
Defined.

Lemma deleted_key_is_refused_witness :
  validateAPIKey Demo.sha256_hex
    (snd (Delete (snd (Create Demo.sha256_hex Samples.key_store
                              Samples.create_key Samples.key_env))
                 (mkDeleteCommand "k-1" "u-1") true))
    ("shb_" ++ "000102030405060708090a0b0c0d0e0f101112131415161718191a1b1c1d1e1f")
    "b-1" 100
  = false.
Proof.
  destruct (deleted_key_is_refused
              Demo.sha256_hex
              (snd (Create Demo.sha256_hex Samples.key_store
                           Samples.create_key Samples.key_env))
              (mkDeleteCommand "k-1" "u-1")
              (APIKey.mk "k-1" "ci"
                 (Demo.sha256_hex
                    ("shb_" ++ "000102030405060708090a0b0c0d0e0f101112131415161718191a1b1c1d1e1f"))
                 "shb_00010203" "u-1" true (Some Samples.read_photos)
                 (Some 500))
              ("shb_" ++ "000102030405060708090a0b0c0d0e0f101112131415161718191a1b1c1d1e1f"))
    as (_ & H & _);
    [> first [reflexivity | (repeat constructor; intros F; destruct F)] ..
     | exact (H "b-1" 100)].
Defined.

End ApiKeyFacts.
